(** * Moler: observable connection, runner shim and line parsers

    A shallow embedding of
    - [moler/observable_connection.py] (subscriber registry, fan-out of
      inbound data, close notification),
    - the connection-observer life cycle and the runner shim that couples an
      observer to the connection,
    - the line parsers [Du], [Sudo], [LastLogin] and [ExitConfigure],
    - the observers of [test/integration/py3test_runners.py].

    Python code is written in a small monad [Py S] threading a state [S],
    a write-only trace of events (log records and calls made by the
    framework) and a result that is either a value or a raised exception. *)

From stdpp Require Import base option list gmap sets strings.
From Stdlib Require Import ZArith Lia.

Local Open Scope string_scope.
Local Open Scope list_scope.

(** ** Python values, exceptions and the [Py] monad *)

(** [id()] of an object: its address, never zero. *)
Abbreviation ObjId := positive (only parsing).

Abbreviation Data := string (only parsing).

(** The exceptions the modelled code raises or catches.  All of them are
    subclasses of [Exception] but [KeyboardInterrupt], which is raised by
    the interpreter and derives from [BaseException] only. *)
Inductive PyExc : Type :=
| AttributeError
| KeyError
| TypeError
| ReferenceError
| ValueError
| ParsingDone
| CommandFailure (msg : string)
| ResultNotReady
| CancelledError
| WrongUsage
| RunnerClosed
| UserException (msg : string)
| KeyboardInterrupt.

#[global] Instance PyExc_eq_dec : EqDecision PyExc.
Proof. solve_decision. Defined.

(** [isinstance(e, Exception)] *)
Definition is_Exception (e : PyExc) : bool :=
  match e with
  | KeyboardInterrupt => false
  | _ => true
  end.

(** [isinstance(e, AttributeError)] *)
Definition is_AttributeError (e : PyExc) : bool :=
  match e with
  | AttributeError => true
  | _ => false
  end.

(** [isinstance(e, ReferenceError)] *)
Definition is_ReferenceError (e : PyExc) : bool :=
  match e with
  | ReferenceError => true
  | _ => false
  end.

(** [isinstance(e, ParsingDone)] *)
Definition is_ParsingDone (e : PyExc) : bool :=
  match e with
  | ParsingDone => true
  | _ => false
  end.

Inductive Result (A : Type) : Type :=
| Ok (a : A)
| Raise (e : PyExc).
Arguments Ok {A} a.
Arguments Raise {A} e.

(** A subscribed callable, as [subscribe] receives it: a plain function
    (it has neither [__self__] nor [__func__]) or a method bound to a
    subject.  Functions, closures and the instances of ordinary classes
    support weak references; the last two constructors are the callables
    that do not: a method bound to a subject of a type without weak
    references (a [str], an [int], a [tuple], an instance of a class with
    [__slots__]), and a callable object of such a type, which has neither
    [__self__] nor [__func__]. *)
Inductive Callable : Type :=
| Function (func : ObjId)
| BoundMethod (self : ObjId) (func : ObjId)
| MethodOfValue (self : ObjId) (func : ObjId)
| CallableValue (obj : ObjId).

#[global] Instance Callable_eq_dec : EqDecision Callable.
Proof. solve_decision. Defined.

(** A close-handler is a strongly held callable, known by its identity. *)
Abbreviation Handler := positive (only parsing).

Inductive LogLevel : Type := TRACE | RAW_DATA | INFO | WARNING | ERROR.

#[global] Instance LogLevel_eq_dec : EqDecision LogLevel.
Proof. solve_decision. Defined.

(** The messages the connection formats. *)
Inductive LogMsg : Type :=
| MsgData (data : Data)
| MsgSubscribe (observer : Callable)
| MsgUnsubscribe (observer : Callable)
| MsgNotBothSubscribed (observer : Callable) (handler : Handler)
| MsgNotifying (func : ObjId) (data : Data)
| MsgExceptionInside (func : ObjId) (data : Data).

(** What user code (subscribers, close-handlers, the runner shim) may add to
    the trace: what the shim forwards, what is sent, what is logged, and
    what a method of an observer object added, under the name of the
    object. *)
Inductive UserEvent : Type :=
| Forwarded (observer : ObjId) (data : Data)
| Sent (data : Data)
| Logged (level : LogLevel) (msg : LogMsg)
| By (observer : ObjId) (u : UserEvent).

(** The trace of the connection: its log calls, its calls of subscribers and
    of close-handlers, and the events of the user code it called.  [Closing]
    records the [open] flag the handler found. *)
Inductive Event : Type :=
| Log (level : LogLevel) (msg : LogMsg)
| Calling (func : ObjId) (self_arg : option ObjId) (data : Data)
| Closing (handler : Handler) (open : bool)
| User (u : UserEvent).

(** Who can log: the connection itself and the user code calling into it. *)
Class LogSink (E : Type) : Type := log_record : LogLevel -> LogMsg -> E.
#[global] Instance Event_sink : LogSink Event := Log.
#[global] Instance UserEvent_sink : LogSink UserEvent := Logged.

Definition Py (E S A : Type) : Type := S -> S * list E * Result A.

Definition ret {E S A} (a : A) : Py E S A := fun s => (s, [], Ok a).

Definition raise {E S A} (e : PyExc) : Py E S A := fun s => (s, [], Raise e).

Definition bind {E S A B} (c : Py E S A) (k : A -> Py E S B) : Py E S B :=
  fun s =>
    match c s with
    | (s1, t1, Ok a) =>
        match k a s1 with
        | (s2, t2, r) => (s2, t1 ++ t2, r)
        end
    | (s1, t1, Raise e) => (s1, t1, Raise e)
    end.

Notation "'let!' x ':=' c 'in' k" := (bind c (fun x => k))
  (at level 10, x name, c at level 100, k at level 200, only parsing).

Definition get {E S} : Py E S S := fun s => (s, [], Ok s).
Definition put {E S} (s : S) : Py E S unit := fun _ => (s, [], Ok tt).
Definition modify {E S} (f : S -> S) : Py E S unit := fun s => (f s, [], Ok tt).
Definition emit {E S} (e : E) : Py E S unit := fun s => (s, [e], Ok tt).

(** [try: body except <catches>: handler(e)] *)
Definition try_except {E S A} (body : Py E S A) (catches : PyExc -> bool)
    (handler : PyExc -> Py E S A) : Py E S A :=
  fun s =>
    match body s with
    | (s1, t1, Ok a) => (s1, t1, Ok a)
    | (s1, t1, Raise e) =>
        if catches e then
          match handler e s1 with
          | (s2, t2, r) => (s2, t1 ++ t2, r)
          end
        else (s1, t1, Raise e)
    end.

(** [for x in xs: body(x)] *)
Fixpoint for_each {E S A} (xs : list A) (body : A -> Py E S unit) : Py E S unit :=
  match xs with
  | [] => ret tt
  | x :: xs' => let! _ := body x in for_each xs' body
  end.

(** The outcome of a call that touches neither the state nor the trace. *)
Definition lift_result {E S A} (r : Result A) : Py E S A :=
  match r with
  | Ok a => ret a
  | Raise e => raise e
  end.

(** User code called by the connection: its events enter the trace as
    [User] events. *)
Definition lift_user {S A} (c : Py UserEvent S A) : Py Event S A :=
  fun s =>
    match c s with
    | (s', t, r) => (s', User <$> t, r)
    end.

Definition state_of {E S A} (r : S * list E * Result A) : S := r.1.1.
Definition trace_of {E S A} (r : S * list E * Result A) : list E := r.1.2.
Definition result_of {E S A} (r : S * list E * Result A) : Result A := r.2.

(** ** Python dictionaries

    A [dict] keeps insertion order; the order is the one in which
    [notify_observers] and [shutdown] walk the registry. *)
Module PyDict.
Section Dict.
Context {K V : Type} `{EqDecision K}.

Definition t : Type := list (K * V).

Definition empty : t := [].

(** [k in d] *)
Fixpoint contains (k : K) (d : t) : bool :=
match d with
| [] => false
| (k', _) :: d' => if decide (k = k') then true else contains k d'
end.

(** [d.get(k)] *)
Fixpoint getitem (k : K) (d : t) : option V :=
  match d with
  | [] => None
  | (k', v) :: d' => if decide (k = k') then Some v else getitem k d'
  end.

(** [d[k] = v]: in place for a present key, at the end for a new one *)
Fixpoint setitem (k : K) (v : V) (d : t) : t :=
match d with
| [] => [(k, v)]
| (k', v') :: d' =>
    if decide (k = k') then (k, v) :: d' else (k', v') :: setitem k v d'
end.

(** [del d[k]], [KeyError] as [None] *)
Fixpoint delitem (k : K) (d : t) : option t :=
match d with
| [] => None
| (k', v') :: d' =>
    if decide (k = k') then Some d'
    else match delitem k d' with
         | Some d'' => Some ((k', v') :: d'')
         | None => None
         end
end.

Definition keys (d : t) : list K := d.*1.

(** [list(d.values())] *)
Definition values (d : t) : list V := d.*2.

(** the well-formedness of a dict: no key twice *)
Definition wf (d : t) : Prop := NoDup (keys d).
End Dict.
Arguments t : clear implicits.
End PyDict.

(** ** Weak references and subscription keys *)

(** [weakref.proxy(o)]: the proxy knows its referent and does not keep it
    alive. *)
Record WeakProxy : Type := weakref_proxy { referent : ObjId }.

#[global] Instance WeakProxy_eq_dec : EqDecision WeakProxy.
Proof. solve_decision. Defined.

(** Whether the type of the subject of a callable supports weak
    references. *)
Definition subject_supports_weakref (observer : Callable) : bool :=
  match observer with
  | MethodOfValue _ _ => false
  | _ => true
  end.

(** Whether the type of the function, or of the callable itself where it
    has no [__func__], supports weak references. *)
Definition function_supports_weakref (observer : Callable) : bool :=
  match observer with
  | CallableValue _ => false
  | _ => true
  end.

(** [weakref.proxy(o)] as the code calls it: [TypeError] ("cannot create
    weak reference to ... object") for an object of a type without weak
    references. *)
Definition proxy (supports_weakref : bool) (o : ObjId) : Result WeakProxy :=
  if supports_weakref then Ok (weakref_proxy o) else Raise TypeError.

(** [six.get_method_self]: [observer.__self__] *)
Definition get_method_self (observer : Callable) : Result ObjId :=
  match observer with
  | BoundMethod self _ => Ok self
  | MethodOfValue self _ => Ok self
  | Function _ => Raise AttributeError
  | CallableValue _ => Raise AttributeError
  end.

(** [six.get_method_function]: [observer.__func__] *)
Definition get_method_function (observer : Callable) : Result ObjId :=
  match observer with
  | BoundMethod _ func => Ok func
  | MethodOfValue _ func => Ok func
  | Function _ => Raise AttributeError
  | CallableValue _ => Raise AttributeError
  end.

(** The object a callable is.  A bound method is never looked at as an
    object of its own: [get_method_function] succeeds on it. *)
Definition callable_object (observer : Callable) : ObjId :=
  match observer with
  | Function func => func
  | BoundMethod _ func => func
  | MethodOfValue _ func => func
  | CallableValue obj => obj
  end.

(** Modelled from the spec: [moler.helpers.instance_id] is not among the
    sources; it gives the identity of an object, which the fixed subject
    identity [0] of free callbacks never equals. *)
Definition instance_id (o : ObjId) : Z := Z.pos o.

Definition observer_key : Type := Z * Z.

Definition observer_value : Type := option WeakProxy * WeakProxy.

(** [try: body except <catches>: handler] where the body only computes *)
Definition try_result {A} (body : Result A) (catches : PyExc -> bool)
    (handler : Result A) : Result A :=
  match body with
  | Ok a => Ok a
  | Raise e => if catches e then handler else Raise e
  end.

(** Only [AttributeError] is caught: the [TypeError] of [weakref.proxy],
    inside the first [try] (line 166) or in the last statement but one
    (line 178), leaves the function. *)
Definition _get_observer_key_value (observer : Callable)
    : Result (observer_key * observer_value) :=
  match
    try_result
      match get_method_self observer with
      | Raise e => Raise e
      | Ok self_or_none =>
          let self_id := instance_id self_or_none in
          match proxy (subject_supports_weakref observer) self_or_none with
          | Raise e => Raise e
          | Ok self_or_none => Ok (self_id, Some self_or_none)
          end
      end
      is_AttributeError
      (Ok (0%Z, None))  (* default for not bound methods *)
  with
  | Raise e => Raise e
  | Ok (self_id, self_or_none) =>
      match
        try_result (get_method_function observer)
          is_AttributeError
          (Ok (callable_object observer))
      with
      | Raise e => Raise e
      | Ok func =>
          let function_id := instance_id func in
          let observer_key := (self_id, function_id) in
          match proxy (function_supports_weakref observer) func with
          | Raise e => Raise e
          | Ok func_proxy =>
              let observer_value := (self_or_none, func_proxy) in
              Ok (observer_key, observer_value)
          end
      end
  end.

(** ** Connection observers *)

Inductive PyAtom : Type :=
| AInt (z : Z)
| AStr (s : string)
| ATime (t : Z).

Inductive PyVal : Type :=
| VNone
| VAtom (a : PyAtom)
| VDict (d : PyDict.t string PyAtom).

(** Modelled from the spec: [moler/connection_observer.py] is not among the
    sources.  The fields of the life cycle and the three transitions to a
    terminal state; the first of them wins and the later ones do nothing. *)
Module ConnectionObserver.
Record t : Type := mk {
  start_time : Z;
  _is_done : bool;
  _is_cancelled : bool;
  _result : option PyVal;
  _exception : option PyExc;
}.

(** a new observer: not armed, not done *)
Definition __init__ : t :=
  {| start_time := 0; _is_done := false; _is_cancelled := false;
     _result := None; _exception := None |}.

Definition done (o : t) : bool := _is_done o.

Definition cancelled (o : t) : bool := _is_cancelled o.

Definition set_start_time (now : Z) (o : t) : t :=
  {| start_time := now; _is_done := _is_done o;
     _is_cancelled := _is_cancelled o;
     _result := _result o; _exception := _exception o |}.

Definition set_result (v : PyVal) (o : t) : t :=
  if done o then o
  else {| start_time := start_time o;
          _is_done := true; _is_cancelled := _is_cancelled o;
          _result := Some v; _exception := _exception o |}.

Definition set_exception (e : PyExc) (o : t) : t :=
  if done o then o
  else {| start_time := start_time o;
          _is_done := true; _is_cancelled := _is_cancelled o;
          _result := _result o; _exception := Some e |}.

Definition cancel (o : t) : t :=
  if done o then o
  else {| start_time := start_time o;
          _is_done := true; _is_cancelled := true;
          _result := _result o; _exception := _exception o |}.

(** [result()]: the stored value; [ResultNotReady] when not done, the
    stored exception when failed. *)
Definition result (o : t) : Result (option PyVal) :=
  if negb (done o) then Raise ResultNotReady
  else match _exception o with
       | Some e => Raise e
       | None => Ok (_result o)
       end.
End ConnectionObserver.

(** The observer objects of the runner tests: a connection observer that
    keeps every chunk it was given ([NetworkDownDetector.__init__]). *)
Record Observer : Type := mkObserver {
  base : ConnectionObserver.t;
  all_data_received : list Data;
}.

Definition Observer__init__ : Observer :=
  {| base := ConnectionObserver.__init__; all_data_received := [] |}.

Definition with_base (f : ConnectionObserver.t -> ConnectionObserver.t)
    (o : Observer) : Observer :=
  {| base := f (base o); all_data_received := all_data_received o |}.

(** ** The state of the program *)

Record ObservableConnection : Type := mkConnection {
  _is_open : bool;
  _observers : PyDict.t observer_key observer_value;
  _connection_closed_handlers : PyDict.t observer_key Handler;
}.

(** [ObservableConnection.__init__]; [Connection.__init__] is not among the
    sources, the spec has a connection open from its construction. *)
Definition ObservableConnection__init__ : ObservableConnection :=
  {| _is_open := true; _observers := PyDict.empty;
     _connection_closed_handlers := PyDict.empty |}.

(** What the runner keeps for a submitted observer: the observer, the shim
    it subscribed for it, the close-handler of that subscription and the
    future it gave to the caller. *)
Record Feeder : Type := mkFeeder {
  feeder_observer : ObjId;
  feeder_shim : ObjId;
  feeder_handler : Handler;
  (** [exception()] of the future [submit] returned *)
  future_exception : option PyExc;
}.

Record Runner : Type := mkRunner {
  shutting_down : bool;
  (** every observer submitted so far *)
  feeders : list Feeder;
}.

Record World : Type := mkWorld {
  moler_conn : ObservableConnection;
  (** the objects not collected yet *)
  live : gset positive;
  (** the observer objects, by identity *)
  objects : gmap positive Observer;
  runner : Runner;
}.

Definition set_conn (c : ObservableConnection) (w : World) : World :=
  {| moler_conn := c; live := live w; objects := objects w; runner := runner w |}.

Definition set_live (l : gset positive) (w : World) : World :=
  {| moler_conn := moler_conn w; live := l; objects := objects w; runner := runner w |}.

Definition set_objects (o : gmap positive Observer) (w : World) : World :=
  {| moler_conn := moler_conn w; live := live w; objects := o; runner := runner w |}.

Definition set_runner (r : Runner) (w : World) : World :=
  {| moler_conn := moler_conn w; live := live w; objects := objects w; runner := r |}.

(** ** [ObservableConnection] *)

Section Connection.
(** The code of the subscribed functions and of the close-handlers: what
    calling the function [func] with the arguments [(data)] or
    [(self, data)] does, and what calling the handler does. *)
Variable call_function : ObjId -> option WeakProxy -> Data -> Py UserEvent World unit.
Variable call_handler : Handler -> Py UserEvent World unit.
(** The decoder the connection was made with. *)
Variable decoder : Data -> Data.

Section Logging.
Context {E : Type} `{LogSink E}.

(** [Connection._log] and [Connection._log_data] are not among the
    sources: a call of them is a record in the trace. *)
Definition _log (level : LogLevel) (msg : LogMsg) : Py E World unit :=
  emit (log_record level msg).

Definition _log_data (msg : Data) (level : LogLevel) : Py E World unit :=
  emit (log_record level (MsgData msg)).

(** [self.logger.exception(msg)] of a connection that has a logger *)
Definition logger_exception (msg : LogMsg) : Py E World unit :=
  emit (log_record ERROR msg).

Definition subscribe (observer : Callable) (connection_closed_handler : Handler)
    : Py E World unit :=
  let! _ := _log TRACE (MsgSubscribe observer) in
  let! key_value := lift_result (_get_observer_key_value observer) in
  let '(observer_key, value) := key_value in
  let! w := get in
  let self := moler_conn w in
  if negb (PyDict.contains observer_key (_observers self)) then
    put (set_conn
           {| _is_open := _is_open self;
              _observers := PyDict.setitem observer_key value (_observers self);
              _connection_closed_handlers :=
                PyDict.setitem observer_key connection_closed_handler
                  (_connection_closed_handlers self) |} w)
  else ret tt.

(** [del d[k]] *)
Definition del {K V} `{EqDecision K} (k : K) (d : PyDict.t K V)
    : Py E World (PyDict.t K V) :=
  match PyDict.delitem k d with
  | Some d' => ret d'
  | None => raise KeyError
  end.

Definition unsubscribe (observer : Callable) (connection_closed_handler : Handler)
    : Py E World unit :=
  let! _ := _log TRACE (MsgUnsubscribe observer) in
  let! key_value := lift_result (_get_observer_key_value observer) in
  let '(observer_key, _) := key_value in
  let! w := get in
  let self := moler_conn w in
  if PyDict.contains observer_key (_observers self)
     && PyDict.contains observer_key (_connection_closed_handlers self) then
    let! observers := del observer_key (_observers self) in
    let! handlers := del observer_key (_connection_closed_handlers self) in
    put (set_conn
           {| _is_open := _is_open self;
              _observers := observers;
              _connection_closed_handlers := handlers |} w)
  else
    _log WARNING (MsgNotBothSubscribed observer connection_closed_handler).
End Logging.

(** [Connection.is_open] *)
Definition is_open : Py Event World bool :=
  let! w := get in ret (_is_open (moler_conn w)).

(** [Connection.decode] *)
Definition decode (data : Data) : Data := decoder data.

(** ['{}'.format(proxy)]: the string of the referent, [ReferenceError]
    when the referent is gone. *)
Definition format_proxy (proxy : WeakProxy) : Py Event World ObjId :=
  let! w := get in
  if decide (referent proxy ∈ live w) then ret (referent proxy)
  else raise ReferenceError.

(** [proxy(args...)]: the call of the referent, [ReferenceError] when it is
    gone.  The arguments are passed as they are, a proxy among them is not
    looked at. *)
Definition call_proxy (proxy : WeakProxy) (self_arg : option WeakProxy)
    (data : Data) : Py Event World unit :=
  let! w := get in
  if decide (referent proxy ∈ live w) then
    let! _ := emit (Calling (referent proxy) (referent <$> self_arg) data) in
    lift_user (call_function (referent proxy) self_arg data)
  else raise ReferenceError.

(** the body of the loop of [notify_observers] *)
Definition notify_observer (data : Data) (subscriber : observer_value)
    : Py Event World unit :=
  let '(self_or_none, observer_function) := subscriber in
  try_except
    (let! func := format_proxy observer_function in
     let! _ := _log TRACE (MsgNotifying func data) in
     try_except
       (match self_or_none with
        | None => call_proxy observer_function None data
        | Some observer_self =>
            call_proxy observer_function (Some observer_self) data
        end)
       is_Exception
       (fun _ =>
          let! func := format_proxy observer_function in
          logger_exception (MsgExceptionInside func data)))
    is_ReferenceError
    (fun _ => ret tt).

Definition notify_observers (data : Data) : Py Event World unit :=
  let! w := get in
  let current_subscribers := PyDict.values (_observers (moler_conn w)) in
  for_each current_subscribers (notify_observer data).

Definition data_received (data : Data) : Py Event World unit :=
  let! open := is_open in
  if negb open then ret tt
  else
    let! _ := _log_data data RAW_DATA in
    let decoded_data := decode data in
    let! _ := _log_data decoded_data INFO in
    notify_observers decoded_data.

(** Modelled from the spec: [Connection.shutdown], which line 116 calls
    through [super], is not among the sources.  After the close-handlers
    the spec has [shutdown] clear the subscriber map, which there holds the
    close-handlers too, and mark the connection closed. *)
Definition Connection_shutdown : Py Event World unit :=
  modify (fun w =>
    set_conn {| _is_open := false;
                _observers := PyDict.empty;
                _connection_closed_handlers := PyDict.empty |} w).

(** [handler()] *)
Definition call_closed_handler (handler : Handler) : Py Event World unit :=
  let! w := get in
  let! _ := emit (Closing handler (_is_open (moler_conn w))) in
  lift_user (call_handler handler).

Definition shutdown : Py Event World unit :=
  let! w := get in
  let! _ := for_each (PyDict.values (_connection_closed_handlers (moler_conn w)))
              call_closed_handler in
  Connection_shutdown.

End Connection.

(** ** The runner

    Modelled from the spec: the runners ([moler/runner.py],
    [moler/asyncio_runner.py]) are not among the sources.  What the spec
    gives of them that does not depend on time: the shim, [submit] and
    [shutdown]. *)

(** a method of the observer object [o], run on the object in the store *)
Definition on_object {A} (o : ObjId) (method : Py UserEvent Observer A)
    : Py UserEvent World A :=
  fun w =>
    match objects w !! o with
    | Some self =>
        match method self with
        | (self', t, r) => (set_objects (<[o := self']> (objects w)) w, By o <$> t, r)
        end
    | None => (w, [], Raise AttributeError)
    end.

Definition observer_done : Py UserEvent Observer bool :=
  let! self := get in ret (ConnectionObserver.done (base self)).

Definition observer_set_exception (e : PyExc) : Py UserEvent Observer unit :=
  modify (with_base (ConnectionObserver.set_exception e)).

Definition observer_set_result (v : PyVal) : Py UserEvent Observer unit :=
  modify (with_base (ConnectionObserver.set_result v)).

Definition observer_cancel : Py UserEvent Observer unit :=
  modify (with_base ConnectionObserver.cancel).

Section Runner.
(** [data_received] of the class of the observer object [o] *)
Variable observer_data_received : ObjId -> Data -> Py UserEvent Observer unit.

(** The shim of the spec:
    [if runner.shutting_down or observer.done: return];
    [try: observer.data_received(text)];
    [except e: observer.set_exception(e); unsubscribe()];
    [if observer.done: unsubscribe()]. *)
Definition secure_data_received (f : Feeder) (data : Data)
    : Py UserEvent World unit :=
  let observer := feeder_observer f in
  let unsubscribe_shim :=
    unsubscribe (Function (feeder_shim f)) (feeder_handler f) in
  let! w := get in
  if shutting_down (runner w) then ret tt
  else
    let! done := on_object observer observer_done in
    if done then ret tt
    else
      let! _ :=
        try_except
          (let! _ := emit (Forwarded observer data) in
           on_object observer (observer_data_received observer data))
          is_Exception
          (fun e =>
             let! _ := on_object observer (observer_set_exception e) in
             unsubscribe_shim) in
      let! done := on_object observer observer_done in
      if done then unsubscribe_shim else ret tt.

(** the close-handler of a submitted observer cancels it *)
Definition cancel_on_close (f : Feeder) : Py UserEvent World unit :=
  on_object (feeder_observer f) observer_cancel.

(** the code of the functions the runner subscribes *)
Definition runner_function (func : ObjId) (self_arg : option WeakProxy)
    (data : Data) : Py UserEvent World unit :=
  let! w := get in
  match List.find (fun f => bool_decide (feeder_shim f = func)) (feeders (runner w)) with
  | Some f => secure_data_received f data
  | None => ret tt
  end.

Definition runner_handler (handler : Handler) : Py UserEvent World unit :=
  let! w := get in
  match List.find (fun f => bool_decide (feeder_handler f = handler)) (feeders (runner w)) with
  | Some f => cancel_on_close f
  | None => ret tt
  end.

(** [submit(observer)]; [shim] and [handler] are the identities of the two
    closures it builds.  The runner holds both, so they stay alive. *)
Definition submit (observer shim : ObjId) (handler : Handler)
    : Py UserEvent World unit :=
  let! w := get in
  if shutting_down (runner w) then raise RunnerClosed
  else
    match objects w !! observer with
    | None => raise AttributeError
    | Some self =>
        if bool_decide (0 < ConnectionObserver.start_time (base self))%Z
           && negb (ConnectionObserver.done (base self)) then
          let f := {| feeder_observer := observer; feeder_shim := shim;
                      feeder_handler := handler; future_exception := None |} in
          let! _ := put (set_live ({[shim]} ∪ live w)
                           (set_runner {| shutting_down := false;
                                          feeders := feeders (runner w) ++ [f] |} w)) in
          subscribe (Function shim) handler
        else raise WrongUsage
    end.

(** [shutdown()]: the shims drop data from now on, the observers still
    running are cancelled, the shims are unsubscribed. *)
Definition Runner_shutdown : Py UserEvent World unit :=
  let! w := get in
  let! _ := put (set_runner {| shutting_down := true;
                               feeders := feeders (runner w) |} w) in
  for_each (feeders (runner w)) (fun f =>
    let! _ := on_object (feeder_observer f) observer_cancel in
    unsubscribe (Function (feeder_shim f)) (feeder_handler f)).

(** the connection of a runner: its subscribers are the shims *)
Definition connection_data_received (data : Data) : Py Event World unit :=
  data_received runner_function (fun x => x) data.

Definition connection_feed (chunks : list Data) : Py Event World unit :=
  for_each chunks connection_data_received.

Definition connection_shutdown : Py Event World unit :=
  shutdown runner_handler.
End Runner.

(** ** The observers of the runner tests *)

(** [needle in s] *)
Fixpoint str_contains (needle s : string) : bool :=
  if String.prefix needle s then true
  else match s with
       | EmptyString => false
       | String _ s' => str_contains needle s'
       end.

(** [NetworkDownDetector.data_received]; [when_detected] is what
    [time.time()] gives. *)
Definition NetworkDownDetector_data_received (when_detected : Z) (data : Data)
    : Py UserEvent Observer unit :=
  let! _ := modify (fun self =>
              {| base := base self;
                 all_data_received := all_data_received self ++ [data] |}) in
  let! done := observer_done in
  if negb done then
    if str_contains "Network is unreachable" data then
      observer_set_result (VAtom (ATime when_detected))
    else ret tt
  else ret tt.

(** [FailingNetworkDownDetector.data_received] *)
Definition FailingNetworkDownDetector_data_received
    (fail_on_data : Data) (fail_by_raising : PyExc)
    (when_detected : Z) (data : Data) : Py UserEvent Observer unit :=
  if decide (data = fail_on_data) then raise fail_by_raising
  else NetworkDownDetector_data_received when_detected data.

(** ** The line parsers *)

(** the compiled patterns of the parsers *)
Inductive Regex : Type :=
| _re_du                        (* (?P<NUMBER>^\d+)\s+(?P<DIRECTORY>\S*$) *)
| _re_sudo_command_not_found    (* sudo:.*command not found *)
| _re_sudo_password             (* \[sudo\] password for.*: , re.I *)
| _re_last_login                (* Last login:\s+(?P<DATE>\S.*\S)\s+from\s+(?P<HOST>\S+) , re.I *)
| compiled (pattern : string).  (* CommandTextualGeneric._calculate_prompt *)

(** a match object: its named groups *)
Record Match : Type := mkMatch { group : string -> string }.

Definition digit_value (c : Ascii.ascii) : option Z :=
  let n := Ascii.nat_of_ascii c in
  if bool_decide (48 <= n <= 57)%nat then Some (Z.of_nat n - 48)%Z else None.

Fixpoint int_digits (acc : Z) (s : string) : Result Z :=
  match s with
  | EmptyString => Ok acc
  | String c s' =>
      match digit_value c with
      | Some d => int_digits (10 * acc + d)%Z s'
      | None => Raise ValueError
      end
  end.

(** [int(s)] on a string of decimal digits, [ValueError] on any other *)
Definition int (s : string) : Result Z :=
  match s with
  | EmptyString => Raise ValueError
  | _ => int_digits 0 s
  end.

(** the command a [Sudo] runs: its command string, what it was given and
    its result so far *)
Record Command : Type := mkCommand {
  command_string : string;
  command_received : list Data;
  command_current_ret : PyVal;
}.

(** a value passed by keyword *)
Inductive PyArg : Type :=
| ArgObject (o : ObjId)
| ArgString (s : option string)
| ArgValue (v : PyVal).

Record Du : Type := mkDu {
  Du_base : ConnectionObserver.t;
  Du_options : option string;
  Du_current_ret : PyDict.t string Z;
}.

Record Sudo : Type := mkSudo {
  Sudo_base : ConnectionObserver.t;
  sudo_password : string;
  cmd_object : option Command;
  _sent_sudo_password : bool;
  _sent_command_string : bool;
  newline_seq : string;
  Sudo_current_ret : PyVal;
}.

Record LastLogin : Type := mkLastLogin {
  LastLogin_base : ConnectionObserver.t;
  LastLogin_current_ret : PyDict.t string PyAtom;
}.

Record ExitConfigure : Type := mkExitConfigure {
  ExitConfigure_base : ConnectionObserver.t;
  ret_required : bool;
  target_newline : string;
  _re_expected_prompt : Regex;
}.

(** the string of a carriage return and a line feed *)
Definition CRLF : string :=
  String (Ascii.ascii_of_nat 13) (String (Ascii.ascii_of_nat 10) EmptyString).

Section Parsers.
(** [re.search] and the searches of [RegexHelper] *)
Variable re_search : Regex -> string -> option Match.
(** [dateutil.parser.parse] and [datetime.datetime.now()] *)
Variable parser_parse : string -> Result Z.
Variable now : Z.
(** the methods of the base classes, which are not among the sources *)
Variable GenericUnixCommand_on_new_line_Du : string -> bool -> Py UserEvent Du unit.
Variable GenericUnixCommand_on_new_line_Sudo : string -> bool -> Py UserEvent Sudo unit.
Variable event_occurred : PyDict.t string PyAtom -> Py UserEvent LastLogin unit.
(** [data_received] of the class of the command a [Sudo] runs *)
Variable Command_data_received : Data -> Py UserEvent Command unit.

(** *** [Du] *)

Definition Du__init__ (options : option string) : Du :=
  {| Du_base := ConnectionObserver.__init__;
     Du_options := options;
     Du_current_ret := PyDict.empty |}.

Definition _parse_du (line : string) : Py UserEvent Du unit :=
  match re_search _re_du line with
  | Some m =>
      let! number := lift_result (int (group m "NUMBER")) in
      let! _ := modify (fun self =>
                  {| Du_base := Du_base self;
                     Du_options := Du_options self;
                     Du_current_ret :=
                       PyDict.setitem (group m "DIRECTORY") number
                         (Du_current_ret self) |}) in
      raise ParsingDone
  | None => ret tt
  end.

Definition Du_on_new_line (line : string) (is_full_line : bool)
    : Py UserEvent Du unit :=
  let! _ :=
    if is_full_line then
      try_except (_parse_du line) is_ParsingDone (fun _ => ret tt)
    else ret tt in
  GenericUnixCommand_on_new_line_Du line is_full_line.

(** *** [Sudo] *)

(** [self.cmd_object.<method>], [AttributeError] on [None] *)
Definition on_cmd_object {A} (method : Py UserEvent Command A)
    : Py UserEvent Sudo A :=
  fun self =>
    match cmd_object self with
    | None => (self, [], Raise AttributeError)
    | Some cmd =>
        match method cmd with
        | (cmd', t, r) =>
            ({| Sudo_base := Sudo_base self;
                sudo_password := sudo_password self;
                cmd_object := Some cmd';
                _sent_sudo_password := _sent_sudo_password self;
                _sent_command_string := _sent_command_string self;
                newline_seq := newline_seq self;
                Sudo_current_ret := Sudo_current_ret self |}, t, r)
        end
    end.

Definition Sudo_set_exception (e : PyExc) : Py UserEvent Sudo unit :=
  modify (fun self =>
    {| Sudo_base := ConnectionObserver.set_exception e (Sudo_base self);
       sudo_password := sudo_password self;
       cmd_object := cmd_object self;
       _sent_sudo_password := _sent_sudo_password self;
       _sent_command_string := _sent_command_string self;
       newline_seq := newline_seq self;
       Sudo_current_ret := Sudo_current_ret self |}).

Definition neither_provided : string :=
  "Neither 'cmd_class_name' nor 'cmd_object' was provided to Sudo constructor. Please specific parameter.".

(** truth value of an optional string: [None] and the empty string are
    false *)
Definition truthy (s : option string) : bool :=
  match s with
  | None | Some EmptyString => false
  | Some _ => true
  end.

(** truth value of [self.cmd_object]: [None] is false, a command is true *)
Definition cmd_object_truthy (self : Sudo) : bool :=
  match cmd_object self with
  | None => false
  | Some _ => true
  end.

Definition Sudo__init__ (connection : ObjId) (sudo_password : string)
    (cmd_object : option Command) (cmd_class_name : option string)
    (cmd_params : option (PyDict.t string PyArg))
    (prompt newline_chars : option string) (runner : option ObjId)
    : Py UserEvent Sudo unit :=
  let! _ := put {| Sudo_base := ConnectionObserver.__init__;
                   sudo_password := sudo_password;
                   cmd_object := cmd_object;
                   _sent_sudo_password := false;
                   _sent_command_string := false;
                   newline_seq := CRLF;
                   Sudo_current_ret := VDict PyDict.empty |} in
  let! _ :=
    if truthy cmd_class_name then
      let params := PyDict.empty in
      let params := match cmd_params with
                    | Some cmd_params => cmd_params
                    | None => params
                    end in
      let params := PyDict.setitem "connection" (ArgObject connection) params in
      let params := PyDict.setitem "prompt" (ArgString prompt) params in
      let params := PyDict.setitem "newline_chars" (ArgString newline_chars) params in
      ret tt
    else ret tt in
  let! self := get in
  if negb (cmd_object_truthy self) then
    Sudo_set_exception (CommandFailure neither_provided)
  else ret tt.

Definition _parse_sudo_password (line : string) : Py UserEvent Sudo unit :=
  match re_search _re_sudo_password line with
  | Some _ =>
      let! self := get in
      let! _ :=
        if negb (_sent_sudo_password self) then
          (* self.connection.sendline(self.sudo_password) *)
          let! _ := emit (Sent (sudo_password self)) in
          modify (fun self =>
            {| Sudo_base := Sudo_base self;
               sudo_password := sudo_password self;
               cmd_object := cmd_object self;
               _sent_sudo_password := true;
               _sent_command_string := _sent_command_string self;
               newline_seq := newline_seq self;
               Sudo_current_ret := Sudo_current_ret self |})
        else ret tt in
      raise ParsingDone
  | None => ret tt
  end.

Definition _parse_command_not_found (line : string) : Py UserEvent Sudo unit :=
  match re_search _re_sudo_command_not_found line with
  | Some _ =>
      let! _ := Sudo_set_exception
                  (CommandFailure ("Command not found in line '" +:+ line +:+ "'")) in
      raise ParsingDone
  | None => ret tt
  end.

Definition _process_embedded_command (line : string) (is_full_line : bool)
    : Py UserEvent Sudo unit :=
  let! self := get in
  let! _ :=
    if negb (_sent_command_string self) then
      let! _ := modify (fun self =>
                  {| Sudo_base := Sudo_base self;
                     sudo_password := sudo_password self;
                     cmd_object := cmd_object self;
                     _sent_sudo_password := _sent_sudo_password self;
                     _sent_command_string := true;
                     newline_seq := newline_seq self;
                     Sudo_current_ret := Sudo_current_ret self |}) in
      let! cmd := on_cmd_object get in
      let cs := command_string cmd +:+ newline_seq self in
      on_cmd_object (Command_data_received cs)
    else ret tt in
  let line := if is_full_line then line +:+ newline_seq self else line in
  let! _ := on_cmd_object (Command_data_received line) in
  let! cmd := on_cmd_object get in
  modify (fun self =>
    {| Sudo_base := Sudo_base self;
       sudo_password := sudo_password self;
       cmd_object := cmd_object self;
       _sent_sudo_password := _sent_sudo_password self;
       _sent_command_string := _sent_command_string self;
       newline_seq := newline_seq self;
       Sudo_current_ret := command_current_ret cmd |}).

Definition Sudo_on_new_line (line : string) (is_full_line : bool)
    : Py UserEvent Sudo unit :=
  let! _ :=
    try_except
      (let! _ := _parse_sudo_password line in
       let! _ := _parse_command_not_found line in
       _process_embedded_command line is_full_line)
      is_ParsingDone
      (fun _ => ret tt) in
  GenericUnixCommand_on_new_line_Sudo line is_full_line.

(** *** [LastLogin] *)

Definition LastLogin__init__ : LastLogin :=
  {| LastLogin_base := ConnectionObserver.__init__;
     LastLogin_current_ret := PyDict.empty |}.

Definition set_current_ret (key : string) (value : PyAtom)
    : Py UserEvent LastLogin unit :=
  modify (fun self =>
    {| LastLogin_base := LastLogin_base self;
       LastLogin_current_ret :=
         PyDict.setitem key value (LastLogin_current_ret self) |}).

Definition _parse_last_login (line : string) : Py UserEvent LastLogin unit :=
  match re_search _re_last_login line with
  | Some m =>
      let! _ := set_current_ret "time" (ATime now) in
      let! _ := set_current_ret "host" (AStr (group m "HOST")) in
      let date_str := group m "DATE" in
      let! _ := set_current_ret "date_raw" (AStr date_str) in
      let! date := lift_result (parser_parse date_str) in
      let! _ := set_current_ret "date" (ATime date) in
      let! self := get in
      let! _ := event_occurred (LastLogin_current_ret self) in
      let! _ := modify (fun self =>
                  {| LastLogin_base := LastLogin_base self;
                     LastLogin_current_ret := PyDict.empty |}) in
      raise ParsingDone
  | None => ret tt
  end.

Definition LastLogin_on_new_line (line : string) (is_full_line : bool)
    : Py UserEvent LastLogin unit :=
  if is_full_line then
    try_except (_parse_last_login line) is_ParsingDone (fun _ => ret tt)
  else ret tt.

(** *** [ExitConfigure] *)

Definition ExitConfigure__init__ (expected_prompt target_newline : string)
    : ExitConfigure :=
  {| ExitConfigure_base := ConnectionObserver.__init__;
     ret_required := false;
     target_newline := target_newline;
     _re_expected_prompt := compiled expected_prompt |}.

Definition _is_target_prompt (line : string) : Py UserEvent ExitConfigure unit :=
  let! self := get in
  match re_search (_re_expected_prompt self) line with
  | Some _ =>
      let! _ := modify (fun self =>
                  {| ExitConfigure_base :=
                       ConnectionObserver.set_result (VDict PyDict.empty)
                         (ExitConfigure_base self);
                     ret_required := ret_required self;
                     target_newline := target_newline self;
                     _re_expected_prompt := _re_expected_prompt self |}) in
      raise ParsingDone
  | None => ret tt
  end.

Definition ExitConfigure_on_new_line (line : string) (is_full_line : bool)
    : Py UserEvent ExitConfigure unit :=
  try_except (_is_target_prompt line) is_ParsingDone (fun _ => ret tt).
End Parsers.

(** ** Calls on an observer, worlds of the examples *)

(** the three calls that end an observer *)
Inductive TerminalCall : Type :=
| SetResult (v : PyVal)
| SetException (e : PyExc)
| Cancel.

Definition call (c : TerminalCall) (o : ConnectionObserver.t) : ConnectionObserver.t :=
  match c with
  | SetResult v => ConnectionObserver.set_result v o
  | SetException e => ConnectionObserver.set_exception e o
  | Cancel => ConnectionObserver.cancel o
  end.

(** the calls of a list, the first one first *)
Definition calls (cs : list TerminalCall) (o : ConnectionObserver.t)
    : ConnectionObserver.t :=
  fold_left (fun o c => call c o) cs o.

(** what is called on an observer in its life: the caller arms it (its
    life time starts at [now]), and the three terminal calls *)
Inductive LifeCall : Type :=
| Arm (now : Z)
| Terminal (c : TerminalCall).

Definition life_call (c : LifeCall) (o : ConnectionObserver.t) : ConnectionObserver.t :=
  match c with
  | Arm now => ConnectionObserver.set_start_time now o
  | Terminal c => call c o
  end.

(** the observer after the calls of [history], the first one first, on a
    new observer *)
Definition life (history : list LifeCall) : ConnectionObserver.t :=
  fold_left (fun o c => life_call c o) history ConnectionObserver.__init__.

(** an observer whose life time has started *)
Definition armed : Observer :=
  with_base (ConnectionObserver.set_start_time 100) Observer__init__.

(** two armed observers [1] and [2] on a new connection, a new runner *)
Definition world0 : World :=
  {| moler_conn := ObservableConnection__init__;
     live := {[1%positive; 2%positive]};
     objects := <[1%positive := armed]> (<[2%positive := armed]> ∅);
     runner := {| shutting_down := false; feeders := [] |} |}.

(** every observer is a [NetworkDownDetector]; the clock shows [123] *)
Definition detector (o : ObjId) (data : Data) : Py UserEvent Observer unit :=
  NetworkDownDetector_data_received 123 data.

(** the observer [1] is a [FailingNetworkDownDetector], as the tests make
    it, the others are [NetworkDownDetector]s *)
Definition failing_detector (o : ObjId) (data : Data) : Py UserEvent Observer unit :=
  if decide (o = 1%positive) then
    FailingNetworkDownDetector_data_received "zero bytes"
      (UserException "unknown format") 123 data
  else NetworkDownDetector_data_received 123 data.


(** [world0] after both observers were submitted *)
Definition world_submitted : World :=
  state_of ((let! _ := submit 1 11 21 in submit 2 12 22) world0).

(** ... and after the chunks that end both of them *)
Definition world_detected : World :=
  state_of (connection_feed detector
              ["61 bytes"; "ping: Network is unreachable"] world_submitted).

(** a [NetworkDownDetector] that has detected *)
Definition detected : Observer :=
  {| base := {| ConnectionObserver.start_time := 100;
                ConnectionObserver._is_done := true;
                ConnectionObserver._is_cancelled := false;
                ConnectionObserver._result := Some (VAtom (ATime 123));
                ConnectionObserver._exception := None |};
     all_data_received := ["61 bytes"; "ping: Network is unreachable"] |}.

(** the three tests of the data path, as programs: the chunks collected by
    the observers [1] and [2] at the end *)
Definition collected (w : World) : list (list Data) :=
  (fun o => default [] (all_data_received <$> objects w !! o)) <$> [1%positive; 2%positive].

Definition test_data_after_observer_is_done : World :=
  state_of (connection_feed detector
              ["61 bytes"; "ping: Network is unreachable"; "62 bytes"] world_submitted).

Definition test_data_after_runner_shutdown : World :=
  state_of ((let! _ := connection_feed detector ["61 bytes"] in
             let! _ := lift_user Runner_shutdown in
             connection_feed detector ["62 bytes"]) world_submitted).

Definition test_exception_raised_inside_observer : World * list Event * Result unit :=
  connection_feed failing_detector
    ["61 bytes"; "zero bytes"; "ping: Network is unreachable"] world_submitted.

(** a subscribed function [11] that raises on every chunk, next to
    functions that return *)
Definition raising_function (func : ObjId) (self_arg : option WeakProxy)
    (data : Data) : Py UserEvent World unit :=
  if decide (func = 11%positive) then raise (UserException "unknown format")
  else ret tt.


(** [TheObserver.on_new_data] of the docstring of
    [_get_observer_key_value]: [self.received_data.append(data)], with
    [received_data] kept as the chunks of the object.  Reading an attribute
    through the proxy of a collected object raises [ReferenceError]. *)
Definition TheObserver_on_new_data (func : ObjId) (self_arg : option WeakProxy)
    (data : Data) : Py UserEvent World unit :=
  match self_arg with
  | None => raise TypeError
  | Some self =>
      let! w := get in
      if decide (referent self ∈ live w) then
        on_object (referent self)
          (modify (fun self =>
             {| base := base self;
                all_data_received := all_data_received self ++ [data] |}))
      else raise ReferenceError
  end.

(** the garbage collector takes the object [o] *)
Definition collect (o : ObjId) (w : World) : World :=
  set_objects (delete o (objects w)) (set_live (live w ∖ {[o]}) w).

(** the objects [1] and [2] of a class whose function [on_new_data] is the
    object [5], both subscribed with their bound method *)
Definition world_bound : World :=
  state_of ((let! _ := subscribe (E:=Event) (BoundMethod 1 5) 21 in
             subscribe (E:=Event) (BoundMethod 2 5) 22)
              (set_live {[1%positive; 2%positive; 5%positive]} world0)).

(** ... of which the object [1] was collected since *)
Definition world_subject_collected : World := collect 1 world_bound.

(** two free functions [11] and [12] subscribed, [11] collected since *)
Definition world_function_collected : World :=
  collect 11
    (state_of ((let! _ := subscribe (E:=Event) (Function 11) 21 in
                subscribe (E:=Event) (Function 12) 22)
                 (set_live {[11%positive; 12%positive]} world0))).


(** [world0] after [subscribe(f11, h21)] of a free function *)
Definition world_subscribed : World :=
  state_of (subscribe (E:=Event) (Function 11) 21 world0).


(** [world0] after [subscribe(f11, h21)] and [subscribe(f12, h22)] *)
Definition world_subscribed_twice : World :=
  state_of (subscribe (E:=Event) (Function 12) 22 world_subscribed).

(** the calls that change the registry *)
Inductive RegistryCall : Type :=
| Subscribe (observer : Callable) (connection_closed_handler : Handler)
| Unsubscribe (observer : Callable) (connection_closed_handler : Handler).

Definition registry_call (c : RegistryCall) : Py Event World unit :=
  match c with
  | Subscribe observer handler => subscribe observer handler
  | Unsubscribe observer handler => unsubscribe observer handler
  end.

Definition registry_callable (c : RegistryCall) : Callable :=
  match c with
  | Subscribe observer _ => observer
  | Unsubscribe observer _ => observer
  end.

(** the line of [COMMAND_OUTPUT_DU] that [_re_du] matches first, and the
    groups of the match *)
Definition du_line : string := "4       ./directory/directory2".

Definition du_search (r : Regex) (line : string) : option Match :=
  match r with
  | _re_du =>
      if decide (line = du_line) then
        Some {| group := fun name =>
                  if decide (name = "NUMBER") then "4"
                  else "./directory/directory2" |}
      else None
  | _ => None
  end.

(** ** What the properties are stated with *)

(** A registry is well formed when no key is there twice and the
    subscribers and the close-handlers are kept under the same keys, in the
    same order: [subscribe] and [unsubscribe] write both together. *)
Definition conn_wf (c : ObservableConnection) : Prop :=
  PyDict.wf (_observers c) /\
  PyDict.keys (_observers c) = PyDict.keys (_connection_closed_handlers c).

(** the calls of subscribers in a trace *)
Definition callings (t : list Event) : list (ObjId * option ObjId * Data) :=
  omap (fun ev => match ev with
                  | Calling func self_arg data => Some (func, self_arg, data)
                  | _ => None
                  end) t.

(** the calls of close-handlers in a trace, each with the [open] flag the
    handler found *)
Definition closings (t : list Event) : list (Handler * bool) :=
  omap (fun ev => match ev with
                  | Closing handler open => Some (handler, open)
                  | _ => None
                  end) t.

(** the calls a delivery of [data] makes when nothing is collected while
    it runs: one for each subscriber of the snapshot whose function is
    alive *)
Definition expected_callings (alive : gset positive) (data : Data)
    (subscribers : list (option WeakProxy * WeakProxy))
    : list (ObjId * option ObjId * Data) :=
  omap (fun subscriber : option WeakProxy * WeakProxy =>
          let '(self_or_none, observer_function) := subscriber in
          if decide (referent observer_function ∈ alive)
          then Some (referent observer_function, referent <$> self_or_none, data)
          else None) subscribers.

(** the records of a trace logged at warning level or above *)
Definition loud (ev : Event) : bool :=
  match ev with
  | Log WARNING _ | Log ERROR _ => true
  | User (Logged WARNING _) | User (Logged ERROR _) => true
  | _ => false
  end.

(** the event of the shim forwarding a chunk to the observer [o] *)
Definition forwards_to (o : ObjId) (ev : Event) : Prop :=
  exists data, ev = User (Forwarded o data).

Definition forwards (ev : Event) : Prop :=
  exists o, forwards_to o ev.

(** [c] keeps the invariant [I] of the state and adds only events of [T] to
    the trace, whether it returns or raises. *)
Definition preserves {E S A} (I : S -> Prop) (T : E -> Prop) (c : Py E S A) : Prop :=
  forall s, I s -> I (state_of (c s)) /\ Forall T (trace_of (c s)).

(** [c] never raises an exception of [bad]. *)
Definition never_raises {E S A} (bad : PyExc -> bool) (c : Py E S A) : Prop :=
  forall s e, result_of (c s) = Raise e -> bad e = false.

(** the records of the inbound data in a trace, as the connection logged
    them *)
Definition data_logs (t : list Event) : list (LogLevel * Data) :=
  omap (fun ev => match ev with
                  | Log level (MsgData data) => Some (level, data)
                  | _ => None
                  end) t.

(** the call of the subscriber [subscriber] with [data], as [callings]
    shows it *)
Definition calling_of (subscriber : option WeakProxy * WeakProxy) (data : Data)
    : ObjId * option ObjId * Data :=
  (referent subscriber.2, referent <$> subscriber.1, data).

(** a subscribed function [11] that is interrupted from the keyboard, next
    to functions that return *)
Definition interrupted_function (func : ObjId) (self_arg : option WeakProxy)
    (data : Data) : Py UserEvent World unit :=
  if decide (func = 11%positive) then raise KeyboardInterrupt else ret tt.

(** [world_subscribed_twice] with both subscribed functions alive *)
Definition world_two_functions : World :=
  set_live {[11%positive; 12%positive]} world_subscribed_twice.

(** ** More of the parsers *)

(** [Du.build_command_string] *)
Definition Du_build_command_string (self : Du) : string :=
  let cmd := "du" in
  if truthy (Du_options self) then cmd +:+ " " +:+ default "" (Du_options self)
  else cmd.

(** [Sudo.build_command_string] *)
Definition Sudo_build_command_string : Py UserEvent Sudo string :=
  let! cmd := on_cmd_object get in
  ret ("sudo " +:+ command_string cmd).

(** [ExitConfigure.build_command_string] *)
Definition ExitConfigure_build_command_string (self : ExitConfigure) : string :=
  "exit".

(** the lines a [Sudo] is given, one after the other, each with its
    [is_full_line] *)
Definition Sudo_on_new_lines
    (re_search : Regex -> string -> option Match)
    (GenericUnixCommand_on_new_line_Sudo : string -> bool -> Py UserEvent Sudo unit)
    (Command_data_received : Data -> Py UserEvent Command unit)
    (lines : list (string * bool)) : Py UserEvent Sudo unit :=
  for_each lines (fun line =>
    Sudo_on_new_line re_search GenericUnixCommand_on_new_line_Sudo
      Command_data_received line.1 line.2).

(** what a trace sends over the connection *)
Definition sent (t : list UserEvent) : list Data :=
  omap (fun u => match u with Sent data => Some data | _ => None end) t.

(** how many times a [Sudo] may still send its password *)
Definition password_budget (self : Sudo) : nat :=
  if _sent_sudo_password self then 0%nat else 1%nat.

(** [c] sends no more than the budget of the state allows, and what it
    leaves of the budget is what it did not send *)
Definition spends {S A} (budget : S -> nat) (c : Py UserEvent S A) : Prop :=
  forall s, (length (sent (trace_of (c s))) + budget (state_of (c s)) <= budget s)%nat.

(** a search that finds the prompt for the password and the complaint of
    [sudo] in the lines of the examples *)
Definition sudo_search (r : Regex) (line : string) : option Match :=
  match r with
  | _re_sudo_password =>
      if str_contains "[sudo] password for" line
      then Some {| group := fun _ => "" |} else None
  | _re_sudo_command_not_found =>
      if str_contains "command not found" line
      then Some {| group := fun _ => "" |} else None
  | _ => None
  end.

(** the command [pwd], which keeps what it is given *)
Definition pwd_command : Command :=
  {| command_string := "pwd"; command_received := [];
     command_current_ret := VDict PyDict.empty |}.

Definition recording_data_received (data : Data) : Py UserEvent Command unit :=
  modify (fun cmd =>
    {| command_string := command_string cmd;
       command_received := command_received cmd ++ [data];
       command_current_ret := command_current_ret cmd |}).

(** a [Sudo] of [pwd] as its constructor leaves it *)
Definition sudo_pwd : Sudo :=
  {| Sudo_base := ConnectionObserver.__init__;
     sudo_password := "pass";
     cmd_object := Some pwd_command;
     _sent_sudo_password := false;
     _sent_command_string := false;
     newline_seq := CRLF;
     Sudo_current_ret := VDict PyDict.empty |}.

(** a [Sudo] as its constructor leaves it when no command is given *)
Definition sudo_without_command : Sudo :=
  state_of (Sudo__init__ 1%positive "pass" None (Some "Pwd") None None None None
              sudo_pwd).

(** the line of [EVENT_OUTPUT], the groups of its match and the date its
    string stands for, in seconds *)
Definition last_login_line : string :=
  "Last login: Tue Jun 12 08:54:44 2018 from 127.0.0.1".

Definition last_login_search (r : Regex) (line : string) : option Match :=
  match r with
  | _re_last_login =>
      if decide (line = last_login_line) then
        Some {| group := fun name =>
                  if decide (name = "HOST") then "127.0.0.1"
                  else "Tue Jun 12 08:54:44 2018" |}
      else None
  | _ => None
  end.

Definition last_login_parse (date_str : string) : Result Z :=
  if decide (date_str = "Tue Jun 12 08:54:44 2018") then Ok 1528793684%Z
  else Raise ValueError.

(** the text a [NetworkDownDetector] waits for *)
Definition network_is_down (data : Data) : bool :=
  str_contains "Network is unreachable" data.

(** the chunks up to the first that says the network is down, that one
    included *)
Fixpoint until_network_is_down (chunks : list Data) : list Data :=
  match chunks with
  | [] => []
  | data :: chunks' =>
      if network_is_down data then [data]
      else data :: until_network_is_down chunks'
  end.

(** what [submit] keeps for the observer [o] *)
Definition feeder_of (o shim : ObjId) (handler : Handler) : Feeder :=
  {| feeder_observer := o; feeder_shim := shim; feeder_handler := handler;
     future_exception := None |}.

(** an open connection with the shim [shim] as its only subscriber *)
Definition connection_of (shim : ObjId) (handler : Handler) : ObservableConnection :=
  {| _is_open := true;
     _observers := [((0%Z, instance_id shim), (None, weakref_proxy shim))];
     _connection_closed_handlers := [((0%Z, instance_id shim), handler)] |}.

(** a [NetworkDownDetector] after the chunk [data], when it was not done *)
Definition detector_after (when_detected : Z) (data : Data) (self : Observer)
    : Observer :=
  {| base := if network_is_down data
             then ConnectionObserver.set_result (VAtom (ATime when_detected)) (base self)
             else base self;
     all_data_received := all_data_received self ++ [data] |}.

(** every observer is a [NetworkDownDetector] *)
Definition detectors (when_detected : Z) (observer : ObjId) (data : Data)
    : Py UserEvent Observer unit :=
  NetworkDownDetector_data_received when_detected data.

(** the observer [o] is subscribed with its shim, which is alive, in a
    runner that has nothing else, and it is not done *)
Definition Running (o shim : ObjId) (handler : Handler) (w : World)
    (self : Observer) : Prop :=
  moler_conn w = connection_of shim handler /\
  shim ∈ live w /\
  runner w = {| shutting_down := false; feeders := [feeder_of o shim handler] |} /\
  objects w !! o = Some self /\
  ConnectionObserver.done (base self) = false.

(** a line as [_process_embedded_command] gives it to the command: a full
    line with the newline sequence after it *)
Definition given_line (newline_seq : string) (line : string * bool) : Data :=
  if line.2 then line.1 +:+ newline_seq else line.1.

(** * Properties *)

(** ** The monad *)

Section PyLemmas.
Context {E S : Type}.

Lemma bind_ok {A B} (c : Py E S A) (k : A -> Py E S B) s s1 t1 a :
  c s = (s1, t1, Ok a) ->
  bind c k s = (state_of (k a s1), t1 ++ trace_of (k a s1), result_of (k a s1)).
Proof.
  intros Hc. unfold bind. rewrite Hc.
  destruct (k a s1) as [[s2 t2] r]. reflexivity.
Qed.

Lemma run_eq {A} (r : S * list E * Result A) :
  r = (state_of r, trace_of r, result_of r).
Proof. destruct r as [[s t] res]. reflexivity. Qed.

Lemma bind_get {B} (k : S -> Py E S B) s : bind get k s = k s s.
Proof. unfold bind, get. destruct (k s s) as [[s2 t2] r]. reflexivity. Qed.

Lemma try_except_caught {A} (body : Py E S A) catches handler s s1 t1 e :
  body s = (s1, t1, Raise e) -> catches e = true ->
  try_except body catches handler s =
    (state_of (handler e s1), t1 ++ trace_of (handler e s1), result_of (handler e s1)).
Proof.
  intros Hb Hc. unfold try_except. rewrite Hb, Hc.
  destruct (handler e s1) as [[s2 t2] r]. reflexivity.
Qed.

Lemma preserves_ret {A} (I : S -> Prop) (T : E -> Prop) (a : A) :
  preserves I T (ret a).
Proof. intros s Hs. split; [exact Hs | constructor]. Qed.

Lemma preserves_raise {A} (I : S -> Prop) (T : E -> Prop) e :
  preserves I T (@raise E S A e).
Proof. intros s Hs. split; [exact Hs | constructor]. Qed.

Lemma preserves_emit (I : S -> Prop) (T : E -> Prop) ev :
  T ev -> preserves I T (emit ev).
Proof. intros Hev s Hs. split; [exact Hs | repeat constructor; exact Hev]. Qed.

Lemma preserves_bind {A B} (I : S -> Prop) (T : E -> Prop)
    (c : Py E S A) (k : A -> Py E S B) :
  preserves I T c -> (forall a, preserves I T (k a)) -> preserves I T (bind c k).
Proof.
  intros Hc Hk s Hs. destruct (Hc s Hs) as [Hs1 Ht1].
  unfold bind. destruct (c s) as [[s1 t1] [a | e]]; cbn in *.
  - destruct (Hk a s1 Hs1) as [Hs2 Ht2].
    destruct (k a s1) as [[s2 t2] r]; cbn in *.
    split; [exact Hs2 | apply Forall_app; split; assumption].
  - split; assumption.
Qed.

(** the state read by [get] is one the invariant holds of *)
Lemma preserves_get {B} (I : S -> Prop) (T : E -> Prop) (k : S -> Py E S B) :
  (forall s, I s -> I (state_of (k s s)) /\ Forall T (trace_of (k s s))) ->
  preserves I T (bind get k).
Proof.
  intros Hk s Hs. destruct (Hk s Hs) as [Hs2 Ht2].
  unfold bind, get. destruct (k s s) as [[s2 t2] r]; cbn in *.
  split; assumption.
Qed.

Lemma preserves_try_except {A} (I : S -> Prop) (T : E -> Prop)
    (body : Py E S A) catches handler :
  preserves I T body -> (forall e, preserves I T (handler e)) ->
  preserves I T (try_except body catches handler).
Proof.
  intros Hb Hh s Hs. destruct (Hb s Hs) as [Hs1 Ht1].
  unfold try_except. destruct (body s) as [[s1 t1] [a | e]]; cbn in *.
  - split; assumption.
  - destruct (catches e); [| split; assumption].
    destruct (Hh e s1 Hs1) as [Hs2 Ht2].
    destruct (handler e s1) as [[s2 t2] r]; cbn in *.
    split; [exact Hs2 | apply Forall_app; split; assumption].
Qed.

Lemma preserves_for_each {A} (I : S -> Prop) (T : E -> Prop)
    (xs : list A) (body : A -> Py E S unit) :
  (forall x, x ∈ xs -> preserves I T (body x)) ->
  preserves I T (for_each xs body).
Proof.
  induction xs as [| x xs IH]; intros Hbody; cbn [for_each].
  - apply preserves_ret.
  - apply preserves_bind.
    + apply Hbody. left.
    + intros _. apply IH. intros y Hy. apply Hbody. right. exact Hy.
Qed.

(** a [try] that catches [bad] and whose handler does not raise it never
    lets it out *)
Lemma try_except_never_raises {A} (body : Py E S A) bad handler :
  (forall e, never_raises bad (handler e)) ->
  never_raises bad (try_except body bad handler).
Proof.
  intros Hh s e. unfold try_except.
  destruct (body s) as [[s1 t1] [a | e1]]; cbn; [discriminate |].
  destruct (bad e1) eqn:Hbad.
  - specialize (Hh e1 s1 e). destruct (handler e1 s1) as [[s2 t2] r]; cbn in *.
    exact Hh.
  - intros [= <-]. exact Hbad.
Qed.

Lemma bind_never_raises {A B} (c : Py E S A) (k : A -> Py E S B) bad :
  never_raises bad c -> (forall a, never_raises bad (k a)) ->
  never_raises bad (bind c k).
Proof.
  intros Hc Hk s e. unfold bind. specialize (Hc s).
  destruct (c s) as [[s1 t1] [a | e1]]; cbn in *.
  - specialize (Hk a s1 e). destruct (k a s1) as [[s2 t2] r]; cbn in *. exact Hk.
  - intros [= <-]. apply Hc. reflexivity.
Qed.

Lemma ret_never_raises {A} (a : A) bad : never_raises bad (@ret E S A a).
Proof. intros s e. cbn. discriminate. Qed.
End PyLemmas.

Lemma preserves_lift_user {S A} (I : S -> Prop) (T : Event -> Prop)
    (c : Py UserEvent S A) :
  preserves I (fun u => T (User u)) c -> preserves I T (lift_user c).
Proof.
  intros Hc s Hs. destruct (Hc s Hs) as [Hs1 Ht1].
  unfold lift_user. destruct (c s) as [[s1 t1] r]; cbn in *.
  split; [exact Hs1 |]. apply Forall_fmap. exact Ht1.
Qed.

(** ** Dictionaries *)

Section DictLemmas.
Context {K V : Type} `{EqDecision K}.
Implicit Types (d : PyDict.t K V) (k : K) (v : V).

Lemma contains_keys k d : PyDict.contains k d = true <-> k ∈ PyDict.keys d.
Proof.
  induction d as [| [k' v'] d IH]; cbn.
  - split; [discriminate | intros Hin; inversion Hin].
  - destruct (decide (k = k')) as [-> | Hne].
    + split; [intros _; left | reflexivity].
    + rewrite IH. split; [intros Hin; right; exact Hin |].
      intros Hin. inversion Hin; subst; [contradiction | assumption].
Qed.

Lemma not_contains_keys k d : PyDict.contains k d = false <-> k ∉ PyDict.keys d.
Proof.
  rewrite <- contains_keys. destruct (PyDict.contains k d); split; congruence.
Qed.

Lemma contains_setitem k v d : PyDict.contains k (PyDict.setitem k v d) = true.
Proof.
  induction d as [| [k' v'] d IH]; cbn.
  - rewrite decide_True; reflexivity.
  - destruct (decide (k = k')) as [-> | Hne]; cbn.
    + rewrite decide_True; reflexivity.
    + rewrite decide_False; assumption.
Qed.

(** a new key goes to the end *)
Lemma setitem_new k v d :
  PyDict.contains k d = false -> PyDict.setitem k v d = d ++ [(k, v)].
Proof.
  induction d as [| [k' v'] d IH]; cbn; [reflexivity |].
  destruct (decide (k = k')) as [-> | Hne]; [discriminate |].
  intros Hd. rewrite IH; [reflexivity | exact Hd].
Qed.

Lemma keys_setitem_new k v d :
  PyDict.contains k d = false ->
  PyDict.keys (PyDict.setitem k v d) = PyDict.keys d ++ [k].
Proof.
  intros Hd. rewrite setitem_new by exact Hd.
  unfold PyDict.keys. rewrite fmap_app. reflexivity.
Qed.

Lemma delitem_last k v d :
  PyDict.contains k d = false -> PyDict.delitem k (d ++ [(k, v)]) = Some d.
Proof.
  induction d as [| [k' v'] d IH]; cbn.
  - rewrite decide_True; reflexivity.
  - destruct (decide (k = k')) as [-> | Hne]; [discriminate |].
    intros Hd. rewrite IH; [reflexivity | exact Hd].
Qed.

(** [del] of a present key does not raise ... *)
Lemma delitem_contains k d :
  PyDict.contains k d = true -> is_Some (PyDict.delitem k d).
Proof.
  induction d as [| [k' v'] d IH]; cbn; [discriminate |].
  destruct (decide (k = k')) as [-> | Hne]; [eauto |].
  intros Hd. destruct (IH Hd) as [d' ->]. eauto.
Qed.

(** ... and [del] of an absent one does *)
Lemma delitem_absent k d :
  PyDict.contains k d = false -> PyDict.delitem k d = None.
Proof.
  induction d as [| [k' v'] d IH]; cbn; [reflexivity |].
  destruct (decide (k = k')) as [-> | Hne]; [discriminate |].
  intros Hd. rewrite IH; [reflexivity | exact Hd].
Qed.

Lemma keys_delitem k d d' :
  PyDict.delitem k d = Some d' ->
  exists l1 l2, PyDict.keys d = l1 ++ k :: l2 /\ PyDict.keys d' = l1 ++ l2 /\ k ∉ l1.
Proof.
  revert d'. induction d as [| [k' v'] d IH]; cbn; intros d'; [discriminate |].
  destruct (decide (k = k')) as [-> | Hne].
  - intros [= <-]. exists [], (PyDict.keys d). repeat split. apply not_elem_of_nil.
  - destruct (PyDict.delitem k d) as [d'' |] eqn:Hdel; [| discriminate].
    intros [= <-]. destruct (IH d'' eq_refl) as (l1 & l2 & H1 & H2 & H3).
    exists (k' :: l1), l2. cbn. unfold PyDict.keys in *. rewrite H1, H2.
    repeat split. intros Hin. inversion Hin; subst; contradiction.
Qed.

(** the keys of two dicts kept together stay together under [del] *)
Lemma keys_delitem_same {V'} k d (d2 : PyDict.t K V') d' (d2' : PyDict.t K V') :
  PyDict.keys d = PyDict.keys d2 ->
  PyDict.delitem k d = Some d' -> PyDict.delitem k d2 = Some d2' ->
  PyDict.keys d' = PyDict.keys d2'.
Proof.
  revert d2 d' d2'. induction d as [| [k1 v1] d IH]; intros [| [k2 v2] d2] d' d2';
    cbn; try discriminate.
  intros [= <- Hk]. destruct (decide (k = k1)) as [-> | Hne].
  - intros [= <-] [= <-]. exact Hk.
  - destruct (PyDict.delitem k d) as [e |] eqn:He; [| discriminate].
    destruct (PyDict.delitem k d2) as [e2 |] eqn:He2; [| discriminate].
    intros [= <-] [= <-]. cbn. f_equal. eapply IH; eauto.
Qed.

Lemma wf_delitem k d d' :
  PyDict.wf d -> PyDict.delitem k d = Some d' ->
  PyDict.wf d' /\ PyDict.contains k d' = false.
Proof.
  unfold PyDict.wf. intros Hwf Hdel.
  destruct (keys_delitem k d d' Hdel) as (l1 & l2 & H1 & H2 & H3).
  rewrite H1 in Hwf. rewrite not_contains_keys, H2.
  apply NoDup_app in Hwf as (Hl1 & Hdisj & Hl2).
  apply NoDup_cons in Hl2 as [Hk Hl2].
  split.
  - apply NoDup_app. repeat split; [exact Hl1 | | exact Hl2].
    intros x Hx Hx2. apply (Hdisj x Hx). right. exact Hx2.
  - rewrite elem_of_app. intros [Hin | Hin]; contradiction.
Qed.

Lemma wf_setitem_new k v d :
  PyDict.wf d -> PyDict.contains k d = false -> PyDict.wf (PyDict.setitem k v d).
Proof.
  unfold PyDict.wf. intros Hwf Hd. rewrite keys_setitem_new by exact Hd.
  apply NoDup_app. repeat split; [exact Hwf | | apply NoDup_singleton].
  intros x Hx Hx2. apply list_elem_of_singleton in Hx2 as ->.
  apply not_contains_keys in Hd. contradiction.
Qed.
End DictLemmas.

(** ** The subscriber registry *)

Lemma conn_wf_handlers c k :
  conn_wf c ->
  PyDict.contains k (_connection_closed_handlers c) = PyDict.contains k (_observers c).
Proof.
  intros [_ Hkeys].
  destruct (PyDict.contains k (_observers c)) eqn:Hc.
  - apply contains_keys. rewrite <- Hkeys. apply contains_keys. exact Hc.
  - apply not_contains_keys. rewrite <- Hkeys. apply not_contains_keys. exact Hc.
Qed.

Lemma conn_wf_init : conn_wf ObservableConnection__init__.
Proof. split; [apply NoDup_nil_2 | reflexivity]. Qed.

Section Registry.
Context {E : Type} `{LogSink E}.

(** the key and the value of a function and of a bound method *)
Lemma key_value_Function (func : ObjId) :
  _get_observer_key_value (Function func)
  = Ok ((0%Z, instance_id func), (None, weakref_proxy func)).
Proof. reflexivity. Qed.

Lemma key_value_BoundMethod (self func : ObjId) :
  _get_observer_key_value (BoundMethod self func)
  = Ok ((instance_id self, instance_id func),
        (Some (weakref_proxy self), weakref_proxy func)).
Proof. reflexivity. Qed.

(** [_get_observer_key_value] returns, or raises the [TypeError] of
    [weakref.proxy] *)
Lemma key_value_cases (observer : Callable) :
  (exists key value, _get_observer_key_value observer = Ok (key, value)) \/
  _get_observer_key_value observer = Raise TypeError.
Proof.
  destruct observer; cbn; [left | left | right | right]; eauto.
Qed.

Lemma subscribe_new observer handler w key value :
  _get_observer_key_value observer = Ok (key, value) ->
  PyDict.contains key (_observers (moler_conn w)) = false ->
  subscribe (E:=E) observer handler w =
    (set_conn
       {| _is_open := _is_open (moler_conn w);
          _observers := PyDict.setitem key value (_observers (moler_conn w));
          _connection_closed_handlers :=
            PyDict.setitem key handler (_connection_closed_handlers (moler_conn w)) |} w,
     [log_record TRACE (MsgSubscribe observer)], Ok tt).
Proof.
  intros Hkv Hc. unfold subscribe. rewrite Hkv.
  unfold bind, _log, emit, get. cbn. rewrite Hc. reflexivity.
Qed.

Lemma subscribe_present observer handler w key value :
  _get_observer_key_value observer = Ok (key, value) ->
  PyDict.contains key (_observers (moler_conn w)) = true ->
  subscribe (E:=E) observer handler w =
    (w, [log_record TRACE (MsgSubscribe observer)], Ok tt).
Proof.
  intros Hkv Hc. unfold subscribe. rewrite Hkv.
  unfold bind, _log, emit, get. cbn. rewrite Hc. reflexivity.
Qed.

(** the [TypeError] of [weakref.proxy] leaves [subscribe] after its log
    record and before the registry is looked at *)
Lemma subscribe_raises observer handler w e :
  _get_observer_key_value observer = Raise e ->
  subscribe (E:=E) observer handler w =
    (w, [log_record TRACE (MsgSubscribe observer)], Raise e).
Proof.
  intros Hkv. unfold subscribe. rewrite Hkv. reflexivity.
Qed.

Lemma unsubscribe_present observer handler w key value observers handlers :
  _get_observer_key_value observer = Ok (key, value) ->
  PyDict.delitem key (_observers (moler_conn w)) = Some observers ->
  PyDict.delitem key (_connection_closed_handlers (moler_conn w)) = Some handlers ->
  unsubscribe (E:=E) observer handler w =
    (set_conn {| _is_open := _is_open (moler_conn w);
                 _observers := observers;
                 _connection_closed_handlers := handlers |} w,
     [log_record TRACE (MsgUnsubscribe observer)], Ok tt).
Proof.
  intros Hkv Ho Hh. unfold unsubscribe. rewrite Hkv.
  unfold bind, _log, emit, get. cbn.
  destruct (PyDict.contains key (_observers (moler_conn w))) eqn:Hc1;
    [| rewrite delitem_absent in Ho by exact Hc1; discriminate].
  destruct (PyDict.contains key (_connection_closed_handlers (moler_conn w))) eqn:Hc2;
    [| rewrite delitem_absent in Hh by exact Hc2; discriminate].
  cbn. unfold del. rewrite Ho, Hh. reflexivity.
Qed.

Lemma unsubscribe_absent observer handler w key value :
  _get_observer_key_value observer = Ok (key, value) ->
  PyDict.contains key (_observers (moler_conn w))
    && PyDict.contains key (_connection_closed_handlers (moler_conn w)) = false ->
  unsubscribe (E:=E) observer handler w =
    (w, [log_record TRACE (MsgUnsubscribe observer);
         log_record WARNING (MsgNotBothSubscribed observer handler)], Ok tt).
Proof.
  intros Hkv Hc. unfold unsubscribe. rewrite Hkv.
  unfold bind, _log, emit, get. cbn. rewrite Hc. reflexivity.
Qed.

(** the [TypeError] of [weakref.proxy] leaves [unsubscribe] at line 99,
    before the registry is looked at: nothing is removed and no warning is
    logged *)
Lemma unsubscribe_raises observer handler w e :
  _get_observer_key_value observer = Raise e ->
  unsubscribe (E:=E) observer handler w =
    (w, [log_record TRACE (MsgUnsubscribe observer)], Raise e).
Proof.
  intros Hkv. unfold unsubscribe. rewrite Hkv. reflexivity.
Qed.

(** [unsubscribe] changes the connection only, and there the two dicts; it
    returns when the key can be computed *)
Lemma unsubscribe_frame observer handler w :
  let w' := state_of (unsubscribe (E:=E) observer handler w) in
  live w' = live w /\ objects w' = objects w /\ runner w' = runner w /\
  _is_open (moler_conn w') = _is_open (moler_conn w) /\
  (forall key value, _get_observer_key_value observer = Ok (key, value) ->
   result_of (unsubscribe (E:=E) observer handler w) = Ok tt).
Proof.
  destruct (key_value_cases observer) as [(key & value & Hkv) | Hkv].
  - destruct (PyDict.contains key (_observers (moler_conn w))
              && PyDict.contains key (_connection_closed_handlers (moler_conn w))) eqn:Hc.
    + apply andb_true_iff in Hc as [Hc1 Hc2].
      destruct (delitem_contains _ _ Hc1) as [d1 Hd1].
      destruct (delitem_contains _ _ Hc2) as [d2 Hd2].
      rewrite (unsubscribe_present _ _ _ _ _ _ _ Hkv Hd1 Hd2). cbn. repeat split.
    + rewrite (unsubscribe_absent _ _ _ _ _ Hkv Hc). cbn. repeat split.
  - rewrite (unsubscribe_raises _ _ _ _ Hkv). cbn. repeat split.
    intros key value Hok. rewrite Hok in Hkv. discriminate.
Qed.

Lemma subscribe_frame observer handler w :
  let w' := state_of (subscribe (E:=E) observer handler w) in
  live w' = live w /\ objects w' = objects w /\ runner w' = runner w /\
  _is_open (moler_conn w') = _is_open (moler_conn w) /\
  (forall key value, _get_observer_key_value observer = Ok (key, value) ->
   result_of (subscribe (E:=E) observer handler w) = Ok tt).
Proof.
  destruct (key_value_cases observer) as [(key & value & Hkv) | Hkv].
  - destruct (PyDict.contains key (_observers (moler_conn w))) eqn:Hc.
    + rewrite (subscribe_present _ _ _ _ _ Hkv Hc). cbn. repeat split.
    + rewrite (subscribe_new _ _ _ _ _ Hkv Hc). cbn. repeat split.
  - rewrite (subscribe_raises _ _ _ _ Hkv). cbn. repeat split.
    intros key value Hok. rewrite Hok in Hkv. discriminate.
Qed.

(** the registry stays well formed *)
Lemma subscribe_wf observer handler w :
  conn_wf (moler_conn w) ->
  conn_wf (moler_conn (state_of (subscribe (E:=E) observer handler w))).
Proof.
  intros Hwf.
  destruct (key_value_cases observer) as [(key & value & Hkv) | Hkv];
    [| rewrite (subscribe_raises _ _ _ _ Hkv); exact Hwf].
  destruct (PyDict.contains key (_observers (moler_conn w))) eqn:Hc.
  - rewrite (subscribe_present _ _ _ _ _ Hkv Hc). exact Hwf.
  - rewrite (subscribe_new _ _ _ _ _ Hkv Hc).
    pose proof (conn_wf_handlers _ key Hwf) as Hh.
    rewrite Hc in Hh. destruct Hwf as [Hnd Hkeys].
    split; cbn -[PyDict.keys PyDict.setitem PyDict.wf].
    + apply wf_setitem_new; assumption.
    + rewrite !keys_setitem_new by assumption. rewrite Hkeys. reflexivity.
Qed.

Lemma unsubscribe_wf observer handler w :
  conn_wf (moler_conn w) ->
  conn_wf (moler_conn (state_of (unsubscribe (E:=E) observer handler w))).
Proof.
  intros Hwf.
  destruct (key_value_cases observer) as [(key & value & Hkv) | Hkv];
    [| rewrite (unsubscribe_raises _ _ _ _ Hkv); exact Hwf].
  destruct (PyDict.contains key (_observers (moler_conn w))
            && PyDict.contains key (_connection_closed_handlers (moler_conn w))) eqn:Hc.
  - apply andb_true_iff in Hc as [Hc1 Hc2].
    destruct (delitem_contains _ _ Hc1) as [d1 Hd1].
    destruct (delitem_contains _ _ Hc2) as [d2 Hd2].
    rewrite (unsubscribe_present _ _ _ _ _ _ _ Hkv Hd1 Hd2).
    destruct Hwf as [Hnd Hkeys].
    split; cbn -[PyDict.keys PyDict.delitem PyDict.wf].
    + eapply wf_delitem; eassumption.
    + eapply keys_delitem_same; eassumption.
  - rewrite (unsubscribe_absent _ _ _ _ _ Hkv Hc). exact Hwf.
Qed.
End Registry.

(** a call of the registry leaves the world but for the two dicts, keeps
    the registry well formed, and returns or raises [TypeError] *)
Lemma registry_call_wf (c : RegistryCall) (w : World) :
  conn_wf (moler_conn w) ->
  let r := registry_call c w in
  conn_wf (moler_conn (state_of r)) /\
  _is_open (moler_conn (state_of r)) = _is_open (moler_conn w) /\
  (result_of r = Ok tt \/ result_of r = Raise TypeError) /\
  (forall key value,
     _get_observer_key_value (registry_callable c) = Ok (key, value) ->
     result_of r = Ok tt).
Proof.
  intros Hwf r. unfold r.
  destruct c as [observer handler | observer handler];
    cbn [registry_call registry_callable].
  - split; [apply subscribe_wf, Hwf |].
    split; [apply subscribe_frame |].
    split; [| apply subscribe_frame].
    destruct (key_value_cases observer) as [(key & value & Hkv) | Hkv].
    + left. exact (proj2 (proj2 (proj2 (proj2 (subscribe_frame observer handler w))))
                     key value Hkv).
    + right. rewrite (subscribe_raises _ _ _ _ Hkv). reflexivity.
  - split; [apply unsubscribe_wf, Hwf |].
    split; [apply unsubscribe_frame |].
    split; [| apply unsubscribe_frame].
    destruct (key_value_cases observer) as [(key & value & Hkv) | Hkv].
    + left. exact (proj2 (proj2 (proj2 (proj2 (unsubscribe_frame observer handler w))))
                     key value Hkv).
    + right. rewrite (unsubscribe_raises _ _ _ _ Hkv). reflexivity.
Qed.

(** every registry made by [subscribe] and [unsubscribe] from that of a new
    connection is well formed *)
Lemma registry_calls_wf (cs : list RegistryCall) (w : World) :
  conn_wf (moler_conn w) ->
  conn_wf (moler_conn (state_of (for_each cs registry_call w))).
Proof.
  revert w. induction cs as [| c cs IH]; intros w Hwf; [exact Hwf |].
  cbn [for_each].
  destruct (registry_call_wf c w Hwf) as (Hwf1 & _ & _ & _).
  unfold bind. destruct (registry_call c w) as [[w1 t1] [[] | e]]; cbn in Hwf1.
  - specialize (IH w1 Hwf1).
    destruct (for_each cs registry_call w1) as [[w2 t2] res]. exact IH.
  - exact Hwf1.
Qed.

Lemma new_registry_wf (cs : list RegistryCall) (w : World) :
  moler_conn w = ObservableConnection__init__ ->
  conn_wf (moler_conn (state_of (for_each cs registry_call w))).
Proof.
  intros Hnew. apply registry_calls_wf. rewrite Hnew. apply conn_wf_init.
Qed.

(** C4.  [subscribe] is idempotent under the key [(subject id, function
    id)]: subscribing the method [func] bound to [self] a second time leaves
    the state as the first call left it, and from a registry without the key
    the two calls add exactly one subscription; the same method bound to two
    different subjects has two different keys and adds two subscriptions; a
    free function is kept under the subject identity [0], which is the
    identity of no object. *)
Theorem subscribe_idempotent_under_key {E : Type} `{LogSink E}
    (w : World) (self self' func free : ObjId) (h1 h2 h3 : Handler) :
  let key : observer_key := (instance_id self, instance_id func) in
  let value : observer_value := (Some (weakref_proxy self), weakref_proxy func) in
  let key' : observer_key := (instance_id self', instance_id func) in
  let value' : observer_value := (Some (weakref_proxy self'), weakref_proxy func) in
  let w1 := state_of (subscribe (E:=E) (BoundMethod self func) h1 w) in
  let w2 := state_of (subscribe (E:=E) (BoundMethod self func) h2 w1) in
  let w3 := state_of (subscribe (E:=E) (BoundMethod self' func) h3 w1) in
  _get_observer_key_value (BoundMethod self func) = Ok (key, value) /\
  _get_observer_key_value (BoundMethod self' func) = Ok (key', value') /\
  w2 = w1 /\
  (PyDict.contains key (_observers (moler_conn w)) = false ->
   _observers (moler_conn w2) = _observers (moler_conn w) ++ [(key, value)]) /\
  (self <> self' -> key <> key') /\
  (self <> self' ->
   PyDict.contains key (_observers (moler_conn w)) = false ->
   PyDict.contains key' (_observers (moler_conn w)) = false ->
   _observers (moler_conn w3) =
     _observers (moler_conn w) ++ [(key, value); (key', value')]) /\
  _get_observer_key_value (Function free)
    = Ok ((0%Z, instance_id free), (None, weakref_proxy free)) /\
  (forall o : ObjId, instance_id o <> 0%Z).
Proof.
  intros key value key' value' w1 w2 w3.
  pose proof (key_value_BoundMethod self func) as Hkv. fold key value in Hkv.
  pose proof (key_value_BoundMethod self' func) as Hkv'. fold key' value' in Hkv'.
  assert (Hin1 : PyDict.contains key (_observers (moler_conn w1)) = true).
  { unfold w1.
    destruct (PyDict.contains key (_observers (moler_conn w))) eqn:Hc.
    - rewrite (subscribe_present _ _ _ _ _ Hkv Hc). exact Hc.
    - rewrite (subscribe_new _ _ _ _ _ Hkv Hc). apply contains_setitem. }
  assert (H21 : w2 = w1).
  { unfold w2. rewrite (subscribe_present _ _ _ _ _ Hkv Hin1). reflexivity. }
  assert (Hne : self <> self' -> key <> key').
  { intros Hs. unfold key, key', instance_id. intros [= Heq]. exact (Hs Heq). }
  assert (Hw1 : PyDict.contains key (_observers (moler_conn w)) = false ->
                _observers (moler_conn w1) = _observers (moler_conn w) ++ [(key, value)]).
  { intros Hc. unfold w1. rewrite (subscribe_new _ _ _ _ _ Hkv Hc).
    cbn -[PyDict.setitem]. apply setitem_new. exact Hc. }
  split; [exact Hkv |]. split; [exact Hkv' |].
  split; [exact H21 |].
  split; [intros Hc; rewrite H21; apply Hw1, Hc |].
  split; [exact Hne |].
  split; [| split; [reflexivity | intros o; unfold instance_id; discriminate]].
  intros Hs Hc Hc'.
  assert (Hc1 : PyDict.contains key' (_observers (moler_conn w1)) = false).
  { rewrite (Hw1 Hc). apply not_contains_keys. unfold PyDict.keys.
    rewrite fmap_app, elem_of_app. cbn.
    intros [Hin | Hin].
    - apply not_contains_keys in Hc'. contradiction.
    - apply list_elem_of_singleton in Hin. apply (Hne Hs). symmetry. exact Hin. }
  unfold w3. rewrite (subscribe_new _ _ _ _ _ Hkv' Hc1). cbn -[PyDict.setitem].
  rewrite setitem_new by exact Hc1. rewrite (Hw1 Hc), <- app_assoc. reflexivity.
Qed.

(** C7, refuted as it stands.  A method bound to a subject of a type
    without weak references was never subscribed, so its key is absent; yet
    [unsubscribe] raises: the [TypeError] of [weakref.proxy] leaves
    [_get_observer_key_value] at line 99, before the registry is looked at,
    and no warning is logged.  The same holds of a callable object of such a
    type. *)
Lemma unsubscribe_raises_TypeError :
  _observers (moler_conn world0) = [] /\
  _get_observer_key_value (MethodOfValue 7 5) = Raise TypeError /\
  unsubscribe (E:=Event) (MethodOfValue 7 5) 21 world0
  = (world0, [Log TRACE (MsgUnsubscribe (MethodOfValue 7 5))], Raise TypeError) /\
  unsubscribe (E:=Event) (CallableValue 7) 21 world0
  = (world0, [Log TRACE (MsgUnsubscribe (CallableValue 7))], Raise TypeError).
Proof. repeat split. Qed.

(** C7, amended.  For a callable of which [weakref.proxy] accepts the
    subject and the function, so that its key is computed, [unsubscribe]
    raises nothing: when the key is in the registry (of a well-formed
    connection) it is deleted from the subscribers and from the
    close-handlers and nothing is logged above trace level; when it is not,
    the state is left as it was and a warning is logged.  For any other
    callable the exception of the key computation, a [TypeError], leaves
    [unsubscribe]: the state is left as it was and no warning is logged. *)
Theorem unsubscribe_removes_or_warns {E : Type} `{LogSink E}
    (w : World) (observer : Callable) (handler : Handler) :
  conn_wf (moler_conn w) ->
  let r := unsubscribe (E:=E) observer handler w in
  (forall key value,
     _get_observer_key_value observer = Ok (key, value) ->
     result_of r = Ok tt /\
     (PyDict.contains key (_observers (moler_conn w)) = true ->
      PyDict.delitem key (_observers (moler_conn w))
        = Some (_observers (moler_conn (state_of r))) /\
      PyDict.delitem key (_connection_closed_handlers (moler_conn w))
        = Some (_connection_closed_handlers (moler_conn (state_of r))) /\
      PyDict.contains key (_observers (moler_conn (state_of r))) = false /\
      PyDict.contains key (_connection_closed_handlers (moler_conn (state_of r))) = false /\
      trace_of r = [log_record TRACE (MsgUnsubscribe observer)]) /\
     (PyDict.contains key (_observers (moler_conn w)) = false ->
      state_of r = w /\
      trace_of r = [log_record TRACE (MsgUnsubscribe observer);
                    log_record WARNING (MsgNotBothSubscribed observer handler)])) /\
  (forall e,
     _get_observer_key_value observer = Raise e ->
     e = TypeError /\
     r = (w, [log_record TRACE (MsgUnsubscribe observer)], Raise TypeError)) /\
  ((exists key value, _get_observer_key_value observer = Ok (key, value)) <->
   subject_supports_weakref observer && function_supports_weakref observer = true).
Proof.
  intros Hwf r. split; [| split].
  - intros key value Hkv.
    split; [exact (proj2 (proj2 (proj2 (proj2 (unsubscribe_frame observer handler w))))
                     key value Hkv) |].
    split.
    + intros Hc1.
      assert (Hc2 : PyDict.contains key (_connection_closed_handlers (moler_conn w)) = true).
      { rewrite conn_wf_handlers by exact Hwf. exact Hc1. }
      destruct (delitem_contains _ _ Hc1) as [d1 Hd1].
      destruct (delitem_contains _ _ Hc2) as [d2 Hd2].
      unfold r. rewrite (unsubscribe_present _ _ _ _ _ _ _ Hkv Hd1 Hd2).
      cbn -[PyDict.delitem PyDict.contains].
      destruct Hwf as [Hnd Hkeys].
      destruct (wf_delitem _ _ _ Hnd Hd1) as [Hnd1 Hout1].
      assert (Hnd' : PyDict.wf (_connection_closed_handlers (moler_conn w))).
      { unfold PyDict.wf. rewrite <- Hkeys. exact Hnd. }
      destruct (wf_delitem _ _ _ Hnd' Hd2) as [_ Hout2].
      repeat split; assumption.
    + intros Hc1. unfold r. rewrite (unsubscribe_absent _ _ _ _ _ Hkv).
      * split; reflexivity.
      * rewrite Hc1. reflexivity.
  - intros e Hkv.
    assert (He : e = TypeError).
    { destruct (key_value_cases observer) as [(key & value & Hok) | Hr];
        rewrite Hkv in *; [discriminate | injection Hr as ->; reflexivity]. }
    subst e. split; [reflexivity |].
    unfold r. apply unsubscribe_raises, Hkv.
  - destruct observer; cbn; split; intros Hx;
      try reflexivity; try discriminate; eauto.
    destruct Hx as (key & value & Hx). discriminate.
    destruct Hx as (key & value & Hx). discriminate.
Qed.

(** C9.  On a well-formed connection that has no subscription under the key
    of [f], [subscribe(f, h)] followed by [unsubscribe(f, h)] gives back the
    state before: the subscribers, the close-handlers and all the rest.  The
    key of [f] is the one [_get_observer_key_value] returns; a callable for
    which it raises has no key. *)
Theorem subscribe_unsubscribe_round_trip {E : Type} `{LogSink E}
    (w : World) (f : Callable) (h : Handler)
    (key : observer_key) (value : observer_value) :
  _get_observer_key_value f = Ok (key, value) ->
  conn_wf (moler_conn w) ->
  PyDict.contains key (_observers (moler_conn w)) = false ->
  let w1 := state_of (subscribe (E:=E) f h w) in
  let r := unsubscribe (E:=E) f h w1 in
  state_of r = w /\ result_of r = Ok tt /\
  _observers (moler_conn (state_of r)) = _observers (moler_conn w) /\
  _connection_closed_handlers (moler_conn (state_of r))
    = _connection_closed_handlers (moler_conn w).
Proof.
  intros Hkv Hwf Hc w1 r.
  assert (Hh : PyDict.contains key
                 (_connection_closed_handlers (moler_conn w)) = false).
  { rewrite conn_wf_handlers by exact Hwf. exact Hc. }
  assert (Hr : r = (w, [log_record TRACE (MsgUnsubscribe f)], Ok tt)).
  { unfold r, w1. rewrite (subscribe_new _ _ _ _ _ Hkv Hc).
    rewrite (unsubscribe_present _ _ _ _ _ (_observers (moler_conn w))
               (_connection_closed_handlers (moler_conn w)) Hkv).
    - destruct w as [[open observers handlers] alive objs rn]. reflexivity.
    - cbn -[PyDict.delitem PyDict.setitem].
      rewrite setitem_new by exact Hc. apply delitem_last, Hc.
    - cbn -[PyDict.delitem PyDict.setitem].
      rewrite setitem_new by exact Hh. apply delitem_last, Hh. }
  rewrite Hr. repeat split.
Qed.

Lemma subscribe_unsubscribe_round_trip_witness :
  state_of (unsubscribe (E:=Event) (BoundMethod 1 5) 21
              (state_of (subscribe (E:=Event) (BoundMethod 1 5) 21 world0)))
  = world0.
Proof.
  apply (subscribe_unsubscribe_round_trip world0 (BoundMethod 1 5) 21
           (instance_id 1, instance_id 5)
           (Some (weakref_proxy 1), weakref_proxy 5)).
  - reflexivity.
  - split; [apply NoDup_nil_2 | reflexivity].
  - reflexivity.
Defined.

Lemma unsubscribe_removes_or_warns_witness :
  result_of (unsubscribe (E:=Event) (Function 11) 21 world0) = Ok tt.
Proof.
  assert (Hwf : conn_wf (moler_conn world0))
    by (split; [apply NoDup_nil_2 | reflexivity]).
  destruct (unsubscribe_removes_or_warns (E:=Event) world0 (Function 11) 21 Hwf)
    as [Hreturns _].
  destruct (Hreturns (0%Z, instance_id 11) (None, weakref_proxy 11) eq_refl)
    as [Hres _].
  exact Hres.
Defined.

(** ** The life cycle of an observer *)

Lemma call_done c o : ConnectionObserver.done o = true -> call c o = o.
Proof.
  intros Hd. destruct c; cbn;
    unfold ConnectionObserver.set_result, ConnectionObserver.set_exception,
      ConnectionObserver.cancel; rewrite Hd; reflexivity.
Qed.

Lemma calls_done cs o : ConnectionObserver.done o = true -> calls cs o = o.
Proof.
  revert o. induction cs as [| c cs IH]; intros o Hd; cbn; [reflexivity |].
  rewrite (call_done c o Hd). apply IH, Hd.
Qed.

Lemma call_sets_done c o : ConnectionObserver.done (call c o) = true.
Proof.
  destruct (ConnectionObserver.done o) eqn:Hd.
  - rewrite call_done; assumption.
  - destruct c; cbn;
      unfold ConnectionObserver.set_result, ConnectionObserver.set_exception,
        ConnectionObserver.cancel; rewrite Hd; reflexivity.
Qed.

(** an observer that is not done holds no exception and no result: a
    terminal call is what stores them, and it sets [done] *)
Lemma life_not_done history :
  ConnectionObserver.done (life history) = false ->
  ConnectionObserver._exception (life history) = None /\
  ConnectionObserver._result (life history) = None.
Proof.
  unfold life.
  assert (Hgen : forall o,
            (ConnectionObserver.done o = false ->
             ConnectionObserver._exception o = None /\
             ConnectionObserver._result o = None) ->
            ConnectionObserver.done (fold_left (fun o c => life_call c o) history o) = false ->
            ConnectionObserver._exception (fold_left (fun o c => life_call c o) history o) = None /\
            ConnectionObserver._result (fold_left (fun o c => life_call c o) history o) = None).
  { induction history as [| c cs IH]; intros o Ho Hd; [exact (Ho Hd) |].
    cbn [fold_left] in *. apply IH; [| exact Hd].
    destruct c as [now | c]; cbn [life_call].
    - exact Ho.
    - intros Hc. rewrite call_sets_done in Hc. discriminate. }
  apply Hgen. intros _. split; reflexivity.
Qed.

(** C5.  Of the calls [set_result], [set_exception] and [cancel] on an
    observer, new or armed, the first one wins: it sets [done], whatever is
    called later changes nothing, and after a first [set_result(v1)] the
    result stays [v1].  [history] is what was called on the observer since
    it was made; while the observer is not done these are the calls that
    arm it. *)
Theorem first_terminal_call_wins
    (history : list LifeCall) (first : TerminalCall)
    (later : list TerminalCall) (v1 : PyVal) :
  let o := life history in
  ConnectionObserver.done o = false ->
  ConnectionObserver.done (call first o) = true /\
  calls (first :: later) o = call first o /\
  ConnectionObserver.result (calls (SetResult v1 :: later) o) = Ok (Some v1).
Proof.
  intros o Hd. split; [apply call_sets_done |]. split.
  - change (calls (first :: later) o) with (calls later (call first o)).
    apply calls_done, call_sets_done.
  - change (calls (SetResult v1 :: later) o)
      with (calls later (call (SetResult v1) o)).
    rewrite calls_done by apply call_sets_done.
    destruct (life_not_done history Hd) as [Hexc _]. fold o in Hexc.
    cbn [call]. unfold ConnectionObserver.set_result, ConnectionObserver.result.
    rewrite Hd. cbn. rewrite Hexc. reflexivity.
Qed.

Lemma first_terminal_call_wins_witness :
  ConnectionObserver.result
    (calls [SetResult (VAtom (AInt 1)); SetResult (VAtom (AInt 2));
            SetException (UserException "late"); Cancel]
       (base armed))
  = Ok (Some (VAtom (AInt 1))).
Proof.
  apply (first_terminal_call_wins [Arm 100] Cancel
           [SetResult (VAtom (AInt 2)); SetException (UserException "late"); Cancel]
           (VAtom (AInt 1))).
  reflexivity.
Defined.

(** ** The parsers *)

Lemma never_raises_if {E S A} (b : bool) (c1 c2 : Py E S A) bad :
  never_raises bad c1 -> never_raises bad c2 ->
  never_raises bad (if b then c1 else c2).
Proof. destruct b; intros; assumption. Qed.

(** the parse methods do raise the sentinel when their pattern matches *)
Lemma _parse_du_raises re_search line m n self :
  re_search _re_du line = Some m -> int (group m "NUMBER") = Ok n ->
  _parse_du re_search line self =
    ({| Du_base := Du_base self; Du_options := Du_options self;
        Du_current_ret :=
          PyDict.setitem (group m "DIRECTORY") n (Du_current_ret self) |},
     [], Raise ParsingDone).
Proof.
  intros Hm Hn. unfold _parse_du. rewrite Hm, Hn. reflexivity.
Qed.

Lemma _is_target_prompt_raises re_search line m self :
  re_search (_re_expected_prompt self) line = Some m ->
  result_of (_is_target_prompt re_search line self) = Raise ParsingDone.
Proof.
  intros Hm. unfold _is_target_prompt, bind, get. cbn. rewrite Hm. reflexivity.
Qed.

Lemma _parse_sudo_password_raises re_search line m self :
  re_search _re_sudo_password line = Some m ->
  result_of (_parse_sudo_password re_search line self) = Raise ParsingDone.
Proof.
  intros Hm. unfold _parse_sudo_password. rewrite Hm.
  unfold bind, get. cbn. destruct (_sent_sudo_password self); reflexivity.
Qed.

Lemma _parse_command_not_found_raises re_search line m self :
  re_search _re_sudo_command_not_found line = Some m ->
  result_of (_parse_command_not_found re_search line self) = Raise ParsingDone.
Proof.
  intros Hm. unfold _parse_command_not_found. rewrite Hm. reflexivity.
Qed.

(** C8.  Whatever the patterns match and whatever the methods called
    inside the [try] do, [on_new_line] of [Du], [Sudo], [LastLogin] and
    [ExitConfigure] never raises [ParsingDone]: the sentinel of a parse
    method is caught.  For [Du] and [Sudo] the last statement calls
    [on_new_line] of the base class outside the [try]; that method is not
    among the sources and is taken not to raise the sentinel itself. *)
Theorem ParsingDone_never_escapes_on_new_line
    (re_search : Regex -> string -> option Match)
    (parser_parse : string -> Result Z) (now : Z)
    (GenericUnixCommand_on_new_line_Du : string -> bool -> Py UserEvent Du unit)
    (GenericUnixCommand_on_new_line_Sudo : string -> bool -> Py UserEvent Sudo unit)
    (event_occurred : PyDict.t string PyAtom -> Py UserEvent LastLogin unit)
    (Command_data_received : Data -> Py UserEvent Command unit)
    (line : string) (is_full_line : bool) :
  never_raises is_ParsingDone (GenericUnixCommand_on_new_line_Du line is_full_line) ->
  never_raises is_ParsingDone (GenericUnixCommand_on_new_line_Sudo line is_full_line) ->
  never_raises is_ParsingDone
    (Du_on_new_line re_search GenericUnixCommand_on_new_line_Du line is_full_line) /\
  never_raises is_ParsingDone
    (Sudo_on_new_line re_search GenericUnixCommand_on_new_line_Sudo
       Command_data_received line is_full_line) /\
  never_raises is_ParsingDone
    (LastLogin_on_new_line re_search parser_parse now event_occurred
       line is_full_line) /\
  never_raises is_ParsingDone (ExitConfigure_on_new_line re_search line is_full_line).
Proof.
  intros HDu HSudo. repeat split.
  - unfold Du_on_new_line. apply bind_never_raises; [| intros _; exact HDu].
    apply never_raises_if; [| apply ret_never_raises].
    apply try_except_never_raises. intros _. apply ret_never_raises.
  - unfold Sudo_on_new_line. apply bind_never_raises; [| intros _; exact HSudo].
    apply try_except_never_raises. intros _. apply ret_never_raises.
  - unfold LastLogin_on_new_line.
    apply never_raises_if; [| apply ret_never_raises].
    apply try_except_never_raises. intros _. apply ret_never_raises.
  - unfold ExitConfigure_on_new_line.
    apply try_except_never_raises. intros _. apply ret_never_raises.
Qed.

Lemma ParsingDone_never_escapes_on_new_line_witness :
  never_raises is_ParsingDone
    (Du_on_new_line du_search (fun _ _ => ret tt) du_line true) /\
  result_of (_parse_du du_search du_line (Du__init__ None)) = Raise ParsingDone /\
  Du_on_new_line du_search (fun _ _ => ret tt) du_line true (Du__init__ None)
  = ({| Du_base := ConnectionObserver.__init__; Du_options := None;
        Du_current_ret := [("./directory/directory2", 4%Z)] |}, [], Ok tt).
Proof.
  split; [| split; reflexivity].
  apply (ParsingDone_never_escapes_on_new_line
           du_search (fun _ => Raise ValueError) 0%Z
           (fun _ _ => ret tt) (fun _ _ => ret tt) (fun _ => ret tt) (fun _ => ret tt)
           du_line true).
  - intros s e. cbn. discriminate.
  - intros s e. cbn. discriminate.
Defined.

(** C10.  A [Sudo] constructed with [cmd_object=None] has
    [set_exception(CommandFailure(...))] called on it by the constructor,
    whatever [cmd_class_name] and [cmd_params] are: the observer leaves the
    constructor done, with that exception stored. *)
Theorem Sudo_without_cmd_object_fails
    (connection : ObjId) (password : string)
    (cmd_class_name : option string) (cmd_params : option (PyDict.t string PyArg))
    (prompt newline_chars : option string) (runner : option ObjId) (self : Sudo) :
  let r := Sudo__init__ connection password None cmd_class_name cmd_params
             prompt newline_chars runner self in
  result_of r = Ok tt /\
  cmd_object (state_of r) = None /\
  Sudo_base (state_of r)
    = ConnectionObserver.set_exception (CommandFailure neither_provided)
        ConnectionObserver.__init__ /\
  ConnectionObserver._exception (Sudo_base (state_of r))
    = Some (CommandFailure neither_provided) /\
  ConnectionObserver.done (Sudo_base (state_of r)) = true.
Proof.
  unfold Sudo__init__. destruct (truthy cmd_class_name); repeat split.
Qed.

(** ** [shutdown] of the connection *)



Lemma callings_app t1 t2 : callings (t1 ++ t2) = callings t1 ++ callings t2.
Proof. apply omap_app. Qed.

Lemma callings_user (t : list UserEvent) : callings (User <$> t) = [].
Proof. induction t as [| u t IH]; [reflexivity | exact IH]. Qed.


Section Shutdown.
Variable call_handler : Handler -> Py UserEvent World unit.
Hypothesis handlers_return : forall h w, result_of (call_handler h w) = Ok tt.



(** handlers that leave the [open] flag alone find it as [shutdown] found
    it *)
Hypothesis handlers_keep_flag :
  forall h w, _is_open (moler_conn (state_of (call_handler h w))) = _is_open (moler_conn w).

End Shutdown.







(** closing the connection of a runner cancels the observers it has
    submitted, and the registry is cleared *)
Lemma connection_shutdown_cancels_observers :
  let r := connection_shutdown world_submitted in
  result_of r = Ok tt /\
  closings (trace_of r) = [(21%positive, true); (22%positive, true)] /\
  (ConnectionObserver.cancelled <$> (base <$> objects (state_of r) !! 1%positive))
    = Some true /\
  (ConnectionObserver.cancelled <$> (base <$> objects (state_of r) !! 2%positive))
    = Some true /\
  _observers (moler_conn (state_of r)) = PyDict.empty.
Proof. vm_compute. repeat split. Qed.

(** ** Delivery to the subscribers *)

Section Notify.
Variable call_function : ObjId -> option WeakProxy -> Data -> Py UserEvent World unit.
Variable decoder : Data -> Data.

(** a subscriber whose function is gone is passed over: nothing is
    called, nothing is logged, nothing is raised *)
Lemma notify_observer_dead_function data self_or_none observer_function w :
  referent observer_function ∉ live w ->
  notify_observer call_function data (self_or_none, observer_function) w
  = (w, [], Ok tt).
Proof.
  intros Hdead. unfold notify_observer, try_except, bind, format_proxy, get. cbn.
  rewrite decide_False by exact Hdead. reflexivity.
Qed.

(** a subscriber whose function is alive is called, also when its subject
    is gone; an [Exception] it raises is logged and goes no further *)
Lemma notify_observer_live_function data self_or_none observer_function w :
  referent observer_function ∈ live w ->
  let func := referent observer_function in
  let r := call_function func self_or_none data w in
  live (state_of r) = live w ->
  (forall e, result_of r = Raise e -> is_Exception e = true) ->
  notify_observer call_function data (self_or_none, observer_function) w
  = (state_of r,
     [Log TRACE (MsgNotifying func data);
      Calling func (referent <$> self_or_none) data]
     ++ (User <$> trace_of r)
     ++ match result_of r with
        | Ok _ => []
        | Raise _ => [Log ERROR (MsgExceptionInside func data)]
        end,
     Ok tt).
Proof.
  intros Hlive func r Hl Hexc.
  assert (Hcall : (match self_or_none with
                   | None => call_proxy call_function observer_function None data
                   | Some observer_self =>
                       call_proxy call_function observer_function (Some observer_self) data
                   end) = call_proxy call_function observer_function self_or_none data).
  { destruct self_or_none; reflexivity. }
  unfold notify_observer. rewrite Hcall.
  unfold try_except, bind, format_proxy, call_proxy, get, _log, emit, lift_user,
    logger_exception, log_record, Event_sink. cbn.
  rewrite decide_True by exact Hlive. cbn.
  rewrite decide_True by exact Hlive. cbn.
  fold func. fold r. destruct r as [[w' t] [[] | e]] eqn:Hr; cbn in *.
  - rewrite app_nil_r. reflexivity.
  - rewrite (Hexc e eq_refl).
    rewrite decide_True by (rewrite Hl; exact Hlive). reflexivity.
Qed.

Hypothesis raises_Exception :
  forall func self_arg data w e,
    result_of (call_function func self_arg data w) = Raise e -> is_Exception e = true.
Hypothesis nothing_collected :
  forall func self_arg data w,
    live (state_of (call_function func self_arg data w)) = live w.

Lemma notify_observer_contained data subscriber w :
  let r := notify_observer call_function data subscriber w in
  result_of r = Ok tt /\ live (state_of r) = live w /\
  callings (trace_of r) = expected_callings (live w) data [subscriber].
Proof.
  destruct subscriber as [self_or_none observer_function].
  unfold expected_callings. cbn [omap list_omap].
  destruct (decide (referent observer_function ∈ live w)) as [Hlive | Hdead].
  - rewrite (notify_observer_live_function data self_or_none observer_function w Hlive
               (nothing_collected _ _ _ _) (raises_Exception _ _ _ _)).
    cbn [result_of state_of trace_of fst snd].
    split; [reflexivity |]. split; [apply nothing_collected |].
    cbn. rewrite callings_app, callings_user.
    destruct (result_of _); reflexivity.
  - rewrite (notify_observer_dead_function data self_or_none observer_function w Hdead).
    repeat split.
Qed.

Lemma for_each_notify_contained data subscribers w :
  let r := for_each subscribers (notify_observer call_function data) w in
  result_of r = Ok tt /\ live (state_of r) = live w /\
  callings (trace_of r) = expected_callings (live w) data subscribers.
Proof.
  revert w. induction subscribers as [| sub subs IH]; intros w; cbn [for_each].
  - repeat split.
  - destruct (notify_observer_contained data sub w) as (Hr1 & Hl1 & Hc1).
    cbn zeta in *.
    destruct (notify_observer call_function data sub w) as [[w1 t1] r1] eqn:Hn.
    unfold result_of, state_of, trace_of in Hr1, Hl1, Hc1.
    cbn [fst snd] in Hr1, Hl1, Hc1. subst r1.
    rewrite (bind_ok _ _ _ _ _ _ Hn). cbn [result_of state_of trace_of fst snd].
    destruct (IH w1) as (Hr2 & Hl2 & Hc2). cbn zeta in *.
    split; [exact Hr2 |]. split; [congruence |].
    rewrite callings_app, Hc1, Hc2, Hl1.
    unfold expected_callings. change (sub :: subs) with ([sub] ++ subs).
    rewrite omap_app. reflexivity.
Qed.

Lemma data_received_contained data w :
  let r := data_received call_function decoder data w in
  result_of r = Ok tt /\
  callings (trace_of r) =
    if _is_open (moler_conn w)
    then expected_callings (live w) (decoder data)
           (PyDict.values (_observers (moler_conn w)))
    else [].
Proof.
  unfold data_received, is_open, notify_observers, bind, get, ret, _log_data, emit. cbn.
  destruct (_is_open (moler_conn w)); cbn; [| split; reflexivity].
  destruct (for_each_notify_contained (decoder data)
              (PyDict.values (_observers (moler_conn w))) w) as (Hr & _ & Hc).
  cbn zeta in *.
  destruct (for_each _ _ w) as [[w1 t1] r1]. cbn in *. split; assumption.
Qed.
End Notify.

(** a delivery keeps every invariant that the subscribed functions keep *)
Section DeliveryPreserves.
Variable call_function : ObjId -> option WeakProxy -> Data -> Py UserEvent World unit.
Variable decoder : Data -> Data.
Variable I : World -> Prop.
Variable T : Event -> Prop.
Hypothesis T_log : forall level msg, T (Log level msg).
Hypothesis T_calling : forall func self_arg data, T (Calling func self_arg data).
Hypothesis call_preserves :
  forall func self_arg data,
    preserves I (fun u => T (User u)) (call_function func self_arg data).

Lemma format_proxy_preserves proxy : preserves I T (format_proxy proxy).
Proof.
  unfold format_proxy. apply preserves_get. intros w Hw.
  destruct (decide (referent proxy ∈ live w));
    [apply preserves_ret | apply preserves_raise]; exact Hw.
Qed.

Lemma call_proxy_preserves proxy self_arg data :
  preserves I T (call_proxy call_function proxy self_arg data).
Proof.
  unfold call_proxy. apply preserves_get. intros w Hw.
  destruct (decide (referent proxy ∈ live w)); [| apply preserves_raise; exact Hw].
  refine (preserves_bind I T _ _ _ _ w Hw).
  - apply preserves_emit, T_calling.
  - intros _. apply preserves_lift_user, call_preserves.
Qed.

Lemma notify_observer_preserves data subscriber :
  preserves I T (notify_observer call_function data subscriber).
Proof.
  destruct subscriber as [self_or_none observer_function]. unfold notify_observer.
  apply preserves_try_except; [| intros _; apply preserves_ret].
  apply preserves_bind; [apply format_proxy_preserves |]. intros func.
  apply preserves_bind; [apply preserves_emit, T_log |]. intros _.
  apply preserves_try_except.
  - destruct self_or_none; apply call_proxy_preserves.
  - intros _. apply preserves_bind; [apply format_proxy_preserves |].
    intros func'. apply preserves_emit, T_log.
Qed.

Lemma data_received_preserves data :
  preserves I T (data_received call_function decoder data).
Proof.
  unfold data_received, is_open.
  apply preserves_bind.
  - apply preserves_get. intros w Hw. apply preserves_ret. exact Hw.
  - intros open. destruct (negb open); [apply preserves_ret |].
    apply preserves_bind; [apply preserves_emit, T_log |]. intros _.
    apply preserves_bind; [apply preserves_emit, T_log |]. intros _.
    unfold notify_observers. apply preserves_get. intros w Hw.
    refine (preserves_for_each I T _ _ _ w Hw).
    intros sub _. apply notify_observer_preserves.
Qed.
End DeliveryPreserves.

(** ** The runner *)

Lemma unsubscribe_preserves {E : Type} `{LogSink E}
    (I : World -> Prop) (T : E -> Prop) observer handler :
  (forall w c, I w -> I (set_conn c w)) ->
  (forall level msg, T (log_record level msg)) ->
  preserves I T (unsubscribe (E:=E) observer handler).
Proof.
  intros HI HT w Hw.
  destruct (key_value_cases observer) as [(key & value & Hkv) | Hkv];
    [| rewrite (unsubscribe_raises _ _ _ _ Hkv);
       split; [exact Hw | repeat constructor; apply HT]].
  destruct (PyDict.contains key (_observers (moler_conn w))
            && PyDict.contains key (_connection_closed_handlers (moler_conn w))) eqn:Hc.
  - apply andb_true_iff in Hc as [Hc1 Hc2].
    destruct (delitem_contains _ _ Hc1) as [d1 Hd1].
    destruct (delitem_contains _ _ Hc2) as [d2 Hd2].
    rewrite (unsubscribe_present _ _ _ _ _ _ _ Hkv Hd1 Hd2).
    split; [apply HI, Hw | repeat constructor; apply HT].
  - rewrite (unsubscribe_absent _ _ _ _ _ Hkv Hc).
    split; [exact Hw | repeat constructor; apply HT].
Qed.

Lemma on_object_eq {A} o (method : Py UserEvent Observer A) w self :
  objects w !! o = Some self ->
  on_object o method w =
    (set_objects (<[o := state_of (method self)]> (objects w)) w,
     By o <$> trace_of (method self), result_of (method self)).
Proof.
  intros Ho. unfold on_object. rewrite Ho.
  destruct (method self) as [[self' t] r]. reflexivity.
Qed.

(** a method of another object leaves the object [o] alone *)
Lemma on_object_other {A} o o' self (T : UserEvent -> Prop)
    (method : Py UserEvent Observer A) :
  o' <> o -> (forall u, T (By o' u)) ->
  preserves (fun w => objects w !! o = Some self) T (on_object o' method).
Proof.
  intros Hne HT w Hw. unfold on_object.
  destruct (objects w !! o') as [self' |]; [| split; [exact Hw | constructor]].
  destruct (method self') as [[self'' t] r]. cbn. split.
  - rewrite lookup_insert_ne by exact Hne. exact Hw.
  - apply Forall_fmap, Forall_forall. intros u _. apply HT.
Qed.

Section RunnerLemmas.
Variable observer_data_received : ObjId -> Data -> Py UserEvent Observer unit.

(** the shim of a runner in shutdown drops the chunk *)
Lemma secure_data_received_in_shutdown f data w :
  shutting_down (runner w) = true ->
  secure_data_received observer_data_received f data w = (w, [], Ok tt).
Proof.
  intros Hs. unfold secure_data_received. rewrite bind_get, Hs. reflexivity.
Qed.

(** the shim of an observer that is done drops the chunk *)
Lemma secure_data_received_done f data w self :
  objects w !! feeder_observer f = Some self ->
  ConnectionObserver.done (base self) = true ->
  secure_data_received observer_data_received f data w = (w, [], Ok tt).
Proof.
  intros Ho Hd. unfold secure_data_received. rewrite bind_get.
  destruct (shutting_down (runner w)); [reflexivity |].
  rewrite (bind_ok _ _ _ _ _ _ (on_object_eq _ observer_done w self Ho)).
  cbn. rewrite Hd. cbn. rewrite insert_id by exact Ho.
  destruct w. reflexivity.
Qed.

Lemma runner_function_in_shutdown func self_arg data w :
  shutting_down (runner w) = true ->
  runner_function observer_data_received func self_arg data w = (w, [], Ok tt).
Proof.
  intros Hs. unfold runner_function. rewrite bind_get.
  destruct (List.find _ _); [| reflexivity].
  apply secure_data_received_in_shutdown, Hs.
Qed.

(** no shim gives a chunk to an observer that is done, and none touches
    the object of another observer *)
Lemma secure_data_received_keeps_done f data o self :
  ConnectionObserver.done (base self) = true ->
  preserves (fun w => objects w !! o = Some self)
    (fun u => ~ forwards_to o (User u))
    (secure_data_received observer_data_received f data).
Proof.
  intros Hd w Hw.
  destruct (decide (feeder_observer f = o)) as [Heq | Hne].
  - subst o. rewrite (secure_data_received_done f data w self) by assumption.
    split; [exact Hw | constructor].
  - revert w Hw. change (preserves (fun w => objects w !! o = Some self)
                           (fun u => ~ forwards_to o (User u))
                           (secure_data_received observer_data_received f data)).
    assert (Hby : forall u, ~ forwards_to o (User (By (feeder_observer f) u))).
    { intros u [d Hu]. discriminate. }
    assert (Hun : preserves (fun w => objects w !! o = Some self)
                    (fun u => ~ forwards_to o (User u))
                    (unsubscribe (E:=UserEvent) (Function (feeder_shim f))
                       (feeder_handler f))).
    { apply unsubscribe_preserves.
      - intros w c Hw. exact Hw.
      - intros level msg [d Hu]. discriminate. }
    pose (I := fun w : World => objects w !! o = Some self).
    pose (T := fun u : UserEvent => ~ forwards_to o (User u)).
    unfold secure_data_received. apply preserves_get. intros w Hw.
    destruct (shutting_down (runner w)); [exact (preserves_ret I T tt w Hw) |].
    refine (preserves_bind I T _ _ _ _ w Hw).
    { apply on_object_other; assumption. }
    intros done. destruct done; [apply preserves_ret |].
    apply preserves_bind.
    + apply preserves_try_except.
      * apply preserves_bind.
        -- apply preserves_emit. intros [d [= Ho _]]. exact (Hne Ho).
        -- intros _. apply on_object_other; assumption.
      * intros e. apply preserves_bind; [apply on_object_other; assumption |].
        intros _. exact Hun.
    + intros _. apply preserves_bind; [apply on_object_other; assumption |].
      intros done. destruct done; [exact Hun | apply preserves_ret].
Qed.

Lemma runner_function_keeps_done func self_arg data o self :
  ConnectionObserver.done (base self) = true ->
  preserves (fun w => objects w !! o = Some self)
    (fun u => ~ forwards_to o (User u))
    (runner_function observer_data_received func self_arg data).
Proof.
  intros Hd. unfold runner_function. apply preserves_get. intros w Hw.
  destruct (List.find _ _) as [f |].
  - apply secure_data_received_keeps_done; assumption.
  - exact (preserves_ret (fun w : World => objects w !! o = Some self)
             (fun u : UserEvent => ~ forwards_to o (User u)) tt w Hw).
Qed.

Lemma runner_function_keeps_shutdown func self_arg data objs :
  preserves (fun w => shutting_down (runner w) = true /\ objects w = objs)
    (fun u => ~ forwards (User u))
    (runner_function observer_data_received func self_arg data).
Proof.
  intros w [Hs Ho]. rewrite runner_function_in_shutdown by exact Hs.
  split; [split; assumption | constructor].
Qed.

(** [shutdown] of the runner leaves it in shutdown *)
Lemma Runner_shutdown_flag w :
  shutting_down (runner (state_of (Runner_shutdown w))) = true.
Proof.
  unfold Runner_shutdown. rewrite bind_get.
  set (w1 := set_runner {| shutting_down := true; feeders := feeders (runner w) |} w).
  assert (Hput : put (E:=UserEvent) w1 w = (w1, [], Ok tt)) by reflexivity.
  rewrite (bind_ok _ _ _ _ _ _ Hput). cbn [state_of fst].
  assert (Hp : preserves (fun w => shutting_down (runner w) = true) (fun _ : UserEvent => True)
            (for_each (feeders (runner w)) (fun f =>
               let! _ := on_object (feeder_observer f) observer_cancel in
               unsubscribe (Function (feeder_shim f)) (feeder_handler f)))).
  { apply preserves_for_each. intros f _. apply preserves_bind.
    - intros s Hs. unfold on_object.
      destruct (objects s !! feeder_observer f) as [self |];
        [| split; [exact Hs | constructor]].
      destruct (observer_cancel self) as [[self' t] r]. cbn.
      split; [exact Hs | apply Forall_forall; intros; exact Logic.I].
    - intros _. apply unsubscribe_preserves; [intros s c Hs; exact Hs | intros; exact Logic.I]. }
  apply (Hp w1). reflexivity.
Qed.
End RunnerLemmas.

Lemma connection_feed_preserves observer_data_received (I : World -> Prop)
    (T : Event -> Prop) chunks :
  (forall level msg, T (Log level msg)) ->
  (forall func self_arg data, T (Calling func self_arg data)) ->
  (forall func self_arg data,
     preserves I (fun u => T (User u))
       (runner_function observer_data_received func self_arg data)) ->
  preserves I T (connection_feed observer_data_received chunks).
Proof.
  intros Hlog Hcalling Hcall. unfold connection_feed.
  apply preserves_for_each. intros data _.
  exact (data_received_preserves (runner_function observer_data_received)
           (fun x => x) I T Hlog Hcalling Hcall data).
Qed.

(** C1.  Once the runner was shut down, whatever is fed into the connection
    is forwarded to no observer and the observer objects, with the data they
    collected, stay as they are; and whatever is fed into the connection,
    nothing is forwarded to an observer that is done and its object stays
    as it is. *)
Theorem no_data_after_done_or_shutdown
    (observer_data_received : ObjId -> Data -> Py UserEvent Observer unit)
    (w : World) (chunks : list Data) :
  (let w1 := state_of (Runner_shutdown w) in
   let r := connection_feed observer_data_received chunks w1 in
   objects (state_of r) = objects w1 /\
   Forall (fun ev => ~ forwards ev) (trace_of r)) /\
  (forall (o : ObjId) (self : Observer),
     objects w !! o = Some self ->
     ConnectionObserver.done (base self) = true ->
     let r := connection_feed observer_data_received chunks w in
     objects (state_of r) !! o = Some self /\
     Forall (fun ev => ~ forwards_to o ev) (trace_of r)).
Proof.
  split.
  - intros w1 r.
    destruct (connection_feed_preserves observer_data_received
                (fun w => shutting_down (runner w) = true /\ objects w = objects w1)
                (fun ev => ~ forwards ev) chunks) with (s := w1) as [[_ Ho] Ht].
    + intros level msg (o & d & Hev). discriminate.
    + intros func self_arg data (o & d & Hev). discriminate.
    + intros func self_arg data. apply runner_function_keeps_shutdown.
    + split; [apply Runner_shutdown_flag | reflexivity].
    + split; assumption.
  - intros o self Ho Hd r.
    apply (connection_feed_preserves observer_data_received
             (fun w => objects w !! o = Some self)
             (fun ev => ~ forwards_to o ev) chunks).
    + intros level msg (d & Hev). discriminate.
    + intros func self_arg data (d & Hev). discriminate.
    + intros func self_arg data. apply runner_function_keeps_done, Hd.
    + exact Ho.
Qed.

Lemma no_data_after_done_or_shutdown_witness :
  objects world_detected !! 1%positive = Some detected /\
  objects (state_of (connection_feed detector ["62 bytes"] world_detected)) !! 1%positive
  = Some detected.
Proof.
  assert (Ho : objects world_detected !! 1%positive = Some detected)
    by (vm_compute; reflexivity).
  split; [exact Ho |].
  destruct (no_data_after_done_or_shutdown detector world_detected ["62 bytes"])
    as [_ Hdone].
  apply (Hdone 1%positive detected Ho eq_refl).
Defined.

(** the tests of the data path *)
Lemma test_runner_secures_observer_against_additional_data_after_observer_is_done :
  collected test_data_after_observer_is_done
  = [["61 bytes"; "ping: Network is unreachable"];
     ["61 bytes"; "ping: Network is unreachable"]].
Proof. vm_compute. reflexivity. Qed.

Lemma test_runner_secures_observer_against_additional_data_after_runner_shutdown :
  collected test_data_after_runner_shutdown = [["61 bytes"]; ["61 bytes"]].
Proof. vm_compute. reflexivity. Qed.

(** ** Exceptions raised by an observer *)

Section ShimLemmas.
Variable observer_data_received : ObjId -> Data -> Py UserEvent Observer unit.

Lemma on_object_done_eq o w self :
  objects w !! o = Some self ->
  on_object o observer_done w = (w, [], Ok (ConnectionObserver.done (base self))).
Proof.
  intros Ho. rewrite (on_object_eq o observer_done w self Ho). cbn.
  rewrite insert_id by exact Ho. destruct w. reflexivity.
Qed.

(** the runner unsubscribes its shims, which are functions *)
Lemma unsubscribe_run shim handler w :
  exists w' t,
    unsubscribe (E:=UserEvent) (Function shim) handler w = (w', t, Ok tt) /\
    live w' = live w /\ objects w' = objects w /\ runner w' = runner w.
Proof.
  destruct (unsubscribe_frame (E:=UserEvent) (Function shim) handler w)
    as (Hl & Ho & Hr & _ & Hres).
  exists (state_of (unsubscribe (E:=UserEvent) (Function shim) handler w)),
    (trace_of (unsubscribe (E:=UserEvent) (Function shim) handler w)).
  split; [| repeat split; assumption].
  rewrite (run_eq (unsubscribe (Function shim) handler w)) at 1.
  rewrite (Hres _ _ (key_value_Function shim)). reflexivity.
Qed.

End ShimLemmas.




(** the tests of the exception raised inside the observer: the first chunk
    is collected, the exception is stored on the observer, the second
    observer detects, and no future has an exception *)
Lemma test_runner_sets_observer_exception_result_for_exception_raised_inside_observer :
  let w := state_of test_exception_raised_inside_observer in
  result_of test_exception_raised_inside_observer = Ok tt /\
  collected w = [["61 bytes"];
                 ["61 bytes"; "zero bytes"; "ping: Network is unreachable"]] /\
  (ConnectionObserver._exception <$> (base <$> objects w !! 1%positive))
    = Some (Some (UserException "unknown format")) /\
  (ConnectionObserver._result <$> (base <$> objects w !! 2%positive))
    = Some (Some (VAtom (ATime 123))) /\
  future_exception <$> feeders (runner w) = [None; None].
Proof. vm_compute. repeat split. Qed.

(** ** Subscribers collected before the delivery *)

(** a subscriber whose function was collected is passed over in silence,
    the others get the chunk *)
Lemma collected_function_is_skipped :
  data_received raising_function (fun x => x) "61 bytes" world_function_collected
  = (world_function_collected,
     [Log RAW_DATA (MsgData "61 bytes"); Log INFO (MsgData "61 bytes");
      Log TRACE (MsgNotifying 12 "61 bytes"); Calling 12 None "61 bytes"],
     Ok tt).
Proof. vm_compute. reflexivity. Qed.

(** C6 at a subscription whose subject was collected and whose function is
    alive: the subscription is not passed over.  The function is called
    with the dead proxy, the [ReferenceError] it raises is caught by the
    inner handler for [Exception] and logged with [logger.exception]; the
    handler for [ReferenceError], which ignores it, is never reached.  The
    other subscriber gets the chunk and nothing is raised. *)
Theorem collected_subject_is_called_and_logged :
  let r := data_received TheObserver_on_new_data (fun x => x) "61 bytes"
             world_subject_collected in
  result_of r = Ok tt /\
  trace_of r =
    [Log RAW_DATA (MsgData "61 bytes"); Log INFO (MsgData "61 bytes");
     Log TRACE (MsgNotifying 5 "61 bytes");
     Calling 5 (Some 1%positive) "61 bytes";
     Log ERROR (MsgExceptionInside 5 "61 bytes");
     Log TRACE (MsgNotifying 5 "61 bytes");
     Calling 5 (Some 2%positive) "61 bytes"] /\
  filter (fun ev => loud ev = true) (trace_of r)
    = [Log ERROR (MsgExceptionInside 5 "61 bytes")] /\
  collected (state_of r) = [[]; ["61 bytes"]].
Proof. vm_compute. repeat split. Qed.

(** ** More of the connection *)

(** what a delivery adds to the trace: the two records of
    [notify_observers], the calls, and what the subscribers add *)
Section DeliveryEvents.
Variable call_function : ObjId -> option WeakProxy -> Data -> Py UserEvent World unit.
Variable I : World -> Prop.
Variable T : Event -> Prop.
Hypothesis T_notifying : forall func data, T (Log TRACE (MsgNotifying func data)).
Hypothesis T_inside : forall func data, T (Log ERROR (MsgExceptionInside func data)).
Hypothesis T_calling : forall func self_arg data, T (Calling func self_arg data).
Hypothesis call_preserves :
  forall func self_arg data,
    preserves I (fun u => T (User u)) (call_function func self_arg data).

Lemma notify_observers_events data :
  preserves I T (notify_observers call_function data).
Proof.
  assert (Hformat : forall proxy, preserves I T (format_proxy proxy)).
  { intros proxy. unfold format_proxy. apply preserves_get. intros w Hw.
    destruct (decide (referent proxy ∈ live w)).
    - exact (preserves_ret I T (referent proxy) w Hw).
    - exact (preserves_raise I T ReferenceError w Hw). }
  assert (Hcall : forall proxy self_arg,
            preserves I T (call_proxy call_function proxy self_arg data)).
  { intros proxy self_arg. unfold call_proxy. apply preserves_get. intros w Hw.
    destruct (decide (referent proxy ∈ live w)).
    - refine (preserves_bind I T _ _ _ _ w Hw).
      + apply preserves_emit, T_calling.
      + intros _. apply preserves_lift_user, call_preserves.
    - exact (preserves_raise I T ReferenceError w Hw). }
  unfold notify_observers. apply preserves_get. intros w Hw.
  refine (preserves_for_each I T _ _ _ w Hw).
  intros [self_or_none observer_function] _. unfold notify_observer.
  apply preserves_try_except; [| intros _; apply preserves_ret].
  apply preserves_bind; [apply Hformat |]. intros func.
  apply preserves_bind; [apply preserves_emit, T_notifying |]. intros _.
  apply preserves_try_except.
  - destruct self_or_none; apply Hcall.
  - intros _. apply preserves_bind; [apply Hformat |].
    intros func'. apply preserves_emit, T_inside.
Qed.
End DeliveryEvents.

Lemma data_logs_none (t : list Event) :
  Forall (fun ev => data_logs [ev] = []) t -> data_logs t = [].
Proof.
  induction 1 as [| ev t Hev _ IH]; [reflexivity |].
  change (ev :: t) with ([ev] ++ t). unfold data_logs in *.
  rewrite omap_app, Hev, IH. reflexivity.
Qed.

(** X1.  Whatever the subscribers do, [data_received] on an open connection
    logs the chunk once at raw level and its decoded form once at info
    level, both before anything else, and logs no other data record; on a
    connection that is not open it does nothing at all: no record, no call,
    the state as it was. *)
Theorem data_received_logs_data_once
    (call_function : ObjId -> option WeakProxy -> Data -> Py UserEvent World unit)
    (decoder : Data -> Data) (data : Data) (w : World) :
  let r := data_received call_function decoder data w in
  if _is_open (moler_conn w) then
    exists rest,
      trace_of r = Log RAW_DATA (MsgData data)
                   :: Log INFO (MsgData (decoder data)) :: rest /\
      data_logs rest = [] /\
      data_logs (trace_of r) = [(RAW_DATA, data); (INFO, decoder data)]
  else r = (w, [], Ok tt).
Proof.
  cbn zeta. unfold data_received.
  assert (Hio : is_open w = (w, [], Ok (_is_open (moler_conn w)))) by reflexivity.
  rewrite (bind_ok _ _ _ _ _ _ Hio). cbn [state_of trace_of result_of fst snd].
  destruct (_is_open (moler_conn w)); cbn [negb]; [| reflexivity].
  assert (Hraw : _log_data (E:=Event) data RAW_DATA w
                 = (w, [Log RAW_DATA (MsgData data)], Ok tt)) by reflexivity.
  assert (Hinfo : _log_data (E:=Event) (decode decoder data) INFO w
                  = (w, [Log INFO (MsgData (decoder data))], Ok tt)) by reflexivity.
  rewrite (bind_ok _ _ _ _ _ _ Hraw). cbn [state_of trace_of result_of fst snd].
  rewrite (bind_ok _ _ _ _ _ _ Hinfo). cbn [state_of trace_of result_of fst snd].
  destruct (notify_observers_events call_function (fun _ => True)
              (fun ev => data_logs [ev] = []))
    with (data := decode decoder data) (s := w) as [_ Ht].
  - reflexivity.
  - reflexivity.
  - reflexivity.
  - intros func self_arg d s _. split; [exact Logic.I |].
    apply Forall_forall. intros u _. reflexivity.
  - exact Logic.I.
  - pose proof (data_logs_none _ Ht) as Hnone.
    exists (trace_of (notify_observers call_function (decode decoder data) w)).
    split; [reflexivity |]. split; [exact Hnone |].
    cbn [app]. unfold data_logs in *. cbn [omap list_omap]. rewrite Hnone.
    reflexivity.
Qed.

(** X2.  The key tells the callables apart: two callables whose keys are
    computed have the same key exactly when they are the same function, or
    the same function bound to the same subject; a free function and a bound
    method never share a key. *)
Theorem observer_key_identifies_callable (observer1 observer2 : Callable)
    (key1 key2 : observer_key) (value1 value2 : observer_value) :
  _get_observer_key_value observer1 = Ok (key1, value1) ->
  _get_observer_key_value observer2 = Ok (key2, value2) ->
  key1 = key2 <-> observer1 = observer2.
Proof.
  intros H1 H2. split.
  - intros <-.
    destruct observer1 as [f1 | s1 f1 | s1 f1 | o1],
             observer2 as [f2 | s2 f2 | s2 f2 | o2];
      unfold instance_id in *; cbn in H1, H2; simplify_eq; reflexivity.
  - intros <-. rewrite H1 in H2. injection H2 as -> _. reflexivity.
Qed.

Lemma observer_key_identifies_callable_witness :
  ((instance_id 1, instance_id 5) : observer_key) = (0%Z, instance_id 5)
  <-> BoundMethod 1 5 = Function 5.
Proof.
  apply (observer_key_identifies_callable (BoundMethod 1 5) (Function 5)
           (instance_id 1, instance_id 5) (0%Z, instance_id 5)
           (Some (weakref_proxy 1), weakref_proxy 5) (None, weakref_proxy 5));
    reflexivity.
Defined.




(** X4.  The subscribers are called in the order they subscribed: on an
    open connection, a delivery after [subscribe] of a callable whose key,
    as [_get_observer_key_value] returns it, was not in the registry and
    whose function is alive makes the calls it made before and then, last,
    the call of the new subscriber.  The subscribed functions raise nothing
    but [Exception]s and collect nothing. *)
Theorem new_subscriber_is_called_last
    (call_function : ObjId -> option WeakProxy -> Data -> Py UserEvent World unit)
    (decoder : Data -> Data) (observer : Callable) (handler : Handler)
    (key : observer_key) (value : observer_value)
    (data : Data) (w : World) :
  (forall func self_arg d w' e,
     result_of (call_function func self_arg d w') = Raise e -> is_Exception e = true) ->
  (forall func self_arg d w',
     live (state_of (call_function func self_arg d w')) = live w') ->
  _is_open (moler_conn w) = true ->
  _get_observer_key_value observer = Ok (key, value) ->
  PyDict.contains key (_observers (moler_conn w)) = false ->
  callable_object observer ∈ live w ->
  let w1 := state_of (subscribe (E:=Event) observer handler w) in
  callings (trace_of (data_received call_function decoder data w1))
  = callings (trace_of (data_received call_function decoder data w))
    ++ [calling_of value (decoder data)].
Proof.
  intros Hexc Hlive Hopen Hkv Hnew Halive w1.
  destruct (data_received_contained call_function decoder Hexc Hlive data w) as [_ Hc].
  destruct (data_received_contained call_function decoder Hexc Hlive data w1) as [_ Hc1].
  cbn zeta in Hc, Hc1. rewrite Hc, Hc1, Hopen.
  unfold w1. rewrite (subscribe_new _ _ _ _ _ Hkv Hnew).
  cbn [state_of fst moler_conn set_conn _is_open _observers live].
  rewrite Hopen, setitem_new by exact Hnew.
  unfold PyDict.values, expected_callings. rewrite fmap_app, omap_app. f_equal.
  destruct observer as [func | self func | self func | obj]; cbn in *;
    simplify_eq; cbn; rewrite decide_True by exact Halive; reflexivity.
Qed.

Lemma new_subscriber_is_called_last_witness :
  callings (trace_of (data_received raising_function (fun x => x) "61 bytes"
                        (state_of (subscribe (E:=Event) (BoundMethod 1 5) 23
                                     (set_live {[5%positive; 11%positive]}
                                        world_subscribed)))))
  = callings (trace_of (data_received raising_function (fun x => x) "61 bytes"
                          (set_live {[5%positive; 11%positive]} world_subscribed)))
    ++ [(5%positive, Some 1%positive, "61 bytes")].
Proof.
  apply (new_subscriber_is_called_last raising_function (fun x => x)
           (BoundMethod 1 5) 23
           (instance_id 1, instance_id 5) (Some (weakref_proxy 1), weakref_proxy 5)
           "61 bytes"
           (set_live {[5%positive; 11%positive]} world_subscribed)).
  - intros func self_arg d w' e. unfold raising_function.
    destruct (decide (func = 11%positive)); cbn; intros [= <-]; reflexivity.
  - intros func self_arg d w'. unfold raising_function.
    destruct (decide (func = 11%positive)); reflexivity.
  - reflexivity.
  - reflexivity.
  - reflexivity.
  - vm_compute. reflexivity.
Defined.

Lemma bind_ok_inv {E S A B} (c : Py E S A) (k : A -> Py E S B) s s2 t b :
  bind c k s = (s2, t, Ok b) ->
  exists s1 t1 a t2,
    c s = (s1, t1, Ok a) /\ k a s1 = (s2, t2, Ok b) /\ t = t1 ++ t2.
Proof.
  unfold bind. destruct (c s) as [[s1 t1] [a | e]]; [| discriminate].
  destruct (k a s1) as [[s2' t2] r] eqn:Hk. intros [= -> <- ->].
  exists s1, t1, a, t2. repeat split. exact Hk.
Qed.

(** a loop over [xs ++ ys] whose part over [xs] returns goes on with [ys] *)
Lemma for_each_app_ok {E S A} (xs ys : list A) (body : A -> Py E S unit) s s1 t1 :
  for_each xs body s = (s1, t1, Ok tt) ->
  for_each (xs ++ ys) body s
  = (state_of (for_each ys body s1), t1 ++ trace_of (for_each ys body s1),
     result_of (for_each ys body s1)).
Proof.
  revert s t1. induction xs as [| x xs IH]; intros s t1; cbn [for_each app].
  - intros [= <- <-]. apply run_eq.
  - intros Hb. apply bind_ok_inv in Hb as (s' & t' & [] & t2 & Hx & Hxs & ->).
    rewrite (bind_ok _ _ _ _ _ _ Hx), (IH _ _ Hxs).
    cbn [state_of trace_of result_of fst snd]. rewrite app_assoc. reflexivity.
Qed.

(** X5.  An exception that is no [Exception], as [KeyboardInterrupt], is
    not contained: when the subscribers before it have returned and a
    subscriber whose function is alive raises it, [data_received] raises it
    too, and the subscribers after that one are not called. *)
Theorem interrupt_ends_delivery
    (call_function : ObjId -> option WeakProxy -> Data -> Py UserEvent World unit)
    (decoder : Data -> Data) (data : Data) (w w' : World)
    (before after : list (option WeakProxy * WeakProxy))
    (subscriber : option WeakProxy * WeakProxy) (t : list Event) (e : PyExc) :
  _is_open (moler_conn w) = true ->
  PyDict.values (_observers (moler_conn w)) = before ++ subscriber :: after ->
  for_each before (notify_observer call_function (decoder data)) w = (w', t, Ok tt) ->
  referent subscriber.2 ∈ live w' ->
  result_of (call_function (referent subscriber.2) subscriber.1 (decoder data) w')
    = Raise e ->
  is_Exception e = false ->
  let r := data_received call_function decoder data w in
  result_of r = Raise e /\
  callings (trace_of r) = callings t ++ [calling_of subscriber (decoder data)].
Proof.
  intros Hopen Hvalues Hbefore Hlive Hraise Hexc.
  destruct subscriber as [self_or_none observer_function]. cbn [fst snd] in *.
  assert (Href : is_ReferenceError e = false) by (destruct e; try reflexivity; discriminate).
  set (c := call_function (referent observer_function) self_or_none (decoder data) w') in *.
  assert (Hone : notify_observer call_function (decoder data)
                   (self_or_none, observer_function) w'
                 = (state_of c,
                    [Log TRACE (MsgNotifying (referent observer_function) (decoder data));
                     Calling (referent observer_function) (referent <$> self_or_none)
                       (decoder data)] ++ (User <$> trace_of c),
                    Raise e)).
  { assert (Hcall : (match self_or_none with
                     | None => call_proxy call_function observer_function None (decoder data)
                     | Some observer_self =>
                         call_proxy call_function observer_function (Some observer_self)
                           (decoder data)
                     end) = call_proxy call_function observer_function self_or_none
                              (decoder data)).
    { destruct self_or_none; reflexivity. }
    unfold notify_observer. rewrite Hcall.
    unfold try_except, bind, format_proxy, call_proxy, get, _log, emit, lift_user,
      log_record, Event_sink. cbn.
    rewrite decide_True by exact Hlive. cbn.
    rewrite decide_True by exact Hlive. cbn.
    fold c. destruct c as [[w2 t2] r2]. cbn in Hraise. subst r2.
    cbn. rewrite Hexc, Href. reflexivity. }
  assert (Hloop : for_each (before ++ (self_or_none, observer_function) :: after)
                    (notify_observer call_function (decoder data)) w
                  = (state_of c,
                     t ++ [Log TRACE (MsgNotifying (referent observer_function) (decoder data));
                           Calling (referent observer_function) (referent <$> self_or_none)
                             (decoder data)] ++ (User <$> trace_of c),
                     Raise e)).
  { rewrite (for_each_app_ok _ _ _ _ _ _ Hbefore). cbn [for_each].
    unfold bind at 1 2 3. rewrite Hone. reflexivity. }
  cbn zeta. unfold data_received.
  assert (Hio : is_open w = (w, [], Ok true)).
  { unfold is_open, bind, get, ret. cbn. rewrite Hopen. reflexivity. }
  rewrite (bind_ok _ _ _ _ _ _ Hio). cbn [state_of trace_of result_of fst snd negb].
  assert (Hraw : _log_data (E:=Event) data RAW_DATA w
                 = (w, [Log RAW_DATA (MsgData data)], Ok tt)) by reflexivity.
  assert (Hinfo : _log_data (E:=Event) (decode decoder data) INFO w
                  = (w, [Log INFO (MsgData (decoder data))], Ok tt)) by reflexivity.
  rewrite (bind_ok _ _ _ _ _ _ Hraw). cbn [state_of trace_of result_of fst snd].
  rewrite (bind_ok _ _ _ _ _ _ Hinfo). cbn [state_of trace_of result_of fst snd].
  unfold notify_observers. rewrite bind_get. cbn zeta. unfold decode.
  rewrite Hvalues. unfold observer_value. rewrite Hloop.
  cbn [state_of trace_of result_of fst snd]. split; [reflexivity |].
  cbn [app]. unfold callings at 1. cbn [omap list_omap]. fold (callings (t ++
    Log TRACE (MsgNotifying (referent observer_function) (decoder data))
    :: Calling (referent observer_function) (referent <$> self_or_none) (decoder data)
    :: (User <$> trace_of c))).
  rewrite callings_app. f_equal. cbn. fold (callings (User <$> trace_of c)).
  rewrite callings_user. reflexivity.
Qed.

Lemma interrupt_ends_delivery_witness :
  let r := data_received interrupted_function (fun x => x) "61 bytes"
             world_two_functions in
  result_of r = Raise KeyboardInterrupt /\
  callings (trace_of r) = [(11%positive, None, "61 bytes")].
Proof.
  apply (interrupt_ends_delivery interrupted_function (fun x => x) "61 bytes"
           world_two_functions world_two_functions
           [] [(None, weakref_proxy 12)] (None, weakref_proxy 11) []
           KeyboardInterrupt).
  - reflexivity.
  - reflexivity.
  - reflexivity.
  - vm_compute. reflexivity.
  - reflexivity.
  - reflexivity.
Defined.

(** X6.  [unsubscribe] does not look at the close-handler it is given: on
    a well-formed connection without the key of [f], as
    [_get_observer_key_value] returns it, [subscribe(f, h)] followed by
    [unsubscribe(f, h')] with any handler [h'] gives back the state before,
    so the handler [h] is gone with the subscription. *)
Theorem unsubscribe_does_not_check_handler {E : Type} `{LogSink E}
    (w : World) (f : Callable) (h h' : Handler)
    (key : observer_key) (value : observer_value) :
  _get_observer_key_value f = Ok (key, value) ->
  conn_wf (moler_conn w) ->
  PyDict.contains key (_observers (moler_conn w)) = false ->
  let w1 := state_of (subscribe (E:=E) f h w) in
  unsubscribe (E:=E) f h' w1 = (w, [log_record TRACE (MsgUnsubscribe f)], Ok tt).
Proof.
  intros Hkv Hwf Hc w1.
  assert (Hh : PyDict.contains key
                 (_connection_closed_handlers (moler_conn w)) = false).
  { rewrite conn_wf_handlers by exact Hwf. exact Hc. }
  unfold w1. rewrite (subscribe_new _ _ _ _ _ Hkv Hc).
  rewrite (unsubscribe_present _ _ _ _ _ (_observers (moler_conn w))
             (_connection_closed_handlers (moler_conn w)) Hkv).
  - destruct w as [[open observers handlers] alive objs rn]. reflexivity.
  - cbn -[PyDict.delitem PyDict.setitem].
    rewrite setitem_new by exact Hc. apply delitem_last, Hc.
  - cbn -[PyDict.delitem PyDict.setitem].
    rewrite setitem_new by exact Hh. apply delitem_last, Hh.
Qed.

Lemma unsubscribe_does_not_check_handler_witness :
  unsubscribe (E:=Event) (BoundMethod 1 5) 99
    (state_of (subscribe (E:=Event) (BoundMethod 1 5) 21 world_subscribed))
  = (world_subscribed, [Log TRACE (MsgUnsubscribe (BoundMethod 1 5))], Ok tt).
Proof.
  apply (unsubscribe_does_not_check_handler world_subscribed (BoundMethod 1 5) 21 99
           (instance_id 1, instance_id 5) (Some (weakref_proxy 1), weakref_proxy 5)).
  - reflexivity.
  - split; [apply NoDup_singleton | reflexivity].
  - reflexivity.
Defined.

(** X7.  A delivery reads the registry and never writes it: when the
    subscribed functions leave the connection as it is, so does
    [data_received], whether it returns or raises.  So the entry of a
    subscriber that was collected stays where it is, that of a collected
    function, which is passed over, and that of a collected subject, whose
    function is still called. *)
Theorem delivery_keeps_registry
    (call_function : ObjId -> option WeakProxy -> Data -> Py UserEvent World unit)
    (decoder : Data -> Data) (data : Data) (w : World) :
  (forall func self_arg d w',
     moler_conn (state_of (call_function func self_arg d w')) = moler_conn w') ->
  moler_conn (state_of (data_received call_function decoder data w)) = moler_conn w.
Proof.
  intros Hframe.
  apply (data_received_preserves call_function decoder
           (fun w' => moler_conn w' = moler_conn w) (fun _ => True)).
  - intros. exact Logic.I.
  - intros. exact Logic.I.
  - intros func self_arg d w' Hw'. split.
    + rewrite Hframe. exact Hw'.
    + apply Forall_forall. intros. exact Logic.I.
  - reflexivity.
Qed.

Lemma delivery_keeps_registry_witness :
  moler_conn (state_of (data_received TheObserver_on_new_data (fun x => x) "61 bytes"
                          world_subject_collected))
  = moler_conn world_subject_collected.
Proof.
  apply (delivery_keeps_registry TheObserver_on_new_data (fun x => x) "61 bytes"
           world_subject_collected).
  intros func self_arg d w'. unfold TheObserver_on_new_data.
  destruct self_arg as [self |]; [| reflexivity].
  rewrite bind_get. destruct (decide (referent self ∈ live w')); [| reflexivity].
  unfold on_object. destruct (objects w' !! referent self); reflexivity.
Defined.

(** X8.  Subscribers whose function was collected are passed over in
    silence: on an open connection whose subscribed functions are all gone,
    [data_received] logs the chunk, calls nobody, logs nothing else, raises
    nothing and leaves the state as it was, whatever the functions would
    have done. *)
Theorem collected_functions_are_passed_over
    (call_function : ObjId -> option WeakProxy -> Data -> Py UserEvent World unit)
    (decoder : Data -> Data) (data : Data) (w : World) :
  _is_open (moler_conn w) = true ->
  (forall subscriber : option WeakProxy * WeakProxy,
     subscriber ∈ PyDict.values (_observers (moler_conn w)) ->
     referent subscriber.2 ∉ live w) ->
  data_received call_function decoder data w
  = (w, [Log RAW_DATA (MsgData data); Log INFO (MsgData (decoder data))], Ok tt).
Proof.
  intros Hopen Hdead.
  assert (Hloop : forall subscribers : list (option WeakProxy * WeakProxy),
            (forall subscriber, subscriber ∈ subscribers ->
                                referent subscriber.2 ∉ live w) ->
            for_each subscribers (notify_observer call_function (decoder data)) w
            = (w, [], Ok tt)).
  { induction subscribers as [| [self_or_none observer_function] subscribers IH];
      intros Hall; [reflexivity |].
    cbn [for_each].
    rewrite (bind_ok _ _ _ _ _ _
               (notify_observer_dead_function call_function (decoder data)
                  self_or_none observer_function w
                  (Hall (self_or_none, observer_function) (list_elem_of_here _ _)))).
    rewrite IH; [reflexivity |].
    intros subscriber Hin. apply Hall. right. exact Hin. }
  unfold data_received.
  assert (Hio : is_open w = (w, [], Ok true)).
  { unfold is_open, bind, get, ret. cbn. rewrite Hopen. reflexivity. }
  rewrite (bind_ok _ _ _ _ _ _ Hio). cbn [state_of trace_of result_of fst snd negb].
  assert (Hraw : _log_data (E:=Event) data RAW_DATA w
                 = (w, [Log RAW_DATA (MsgData data)], Ok tt)) by reflexivity.
  assert (Hinfo : _log_data (E:=Event) (decode decoder data) INFO w
                  = (w, [Log INFO (MsgData (decoder data))], Ok tt)) by reflexivity.
  rewrite (bind_ok _ _ _ _ _ _ Hraw). cbn [state_of trace_of result_of fst snd].
  rewrite (bind_ok _ _ _ _ _ _ Hinfo). cbn [state_of trace_of result_of fst snd].
  unfold notify_observers. rewrite bind_get. cbn zeta. unfold decode.
  pose proof (Hloop (PyDict.values (_observers (moler_conn w))) Hdead) as Hl.
  unfold observer_value, observer_key in Hl |- *. rewrite Hl. reflexivity.
Qed.

Lemma collected_functions_are_passed_over_witness :
  data_received raising_function (fun x => x) "61 bytes" world_subscribed_twice
  = (world_subscribed_twice,
     [Log RAW_DATA (MsgData "61 bytes"); Log INFO (MsgData "61 bytes")], Ok tt).
Proof.
  apply (collected_functions_are_passed_over raising_function (fun x => x) "61 bytes"
           world_subscribed_twice).
  - reflexivity.
  - intros subscriber Hin.
    assert (Hsub : subscriber ∈ [(None, weakref_proxy 11); (None, weakref_proxy 12)])
      by exact Hin.
    apply elem_of_cons in Hsub as [-> | Hsub];
      [| apply list_elem_of_singleton in Hsub as ->]; vm_compute; discriminate.
Defined.

(** ** More of the parsers *)

Lemma bind_raise_eq {E S A B} (c : Py E S A) (k : A -> Py E S B) s s1 t1 e :
  c s = (s1, t1, Raise e) -> bind c k s = (s1, t1, Raise e).
Proof. intros Hc. unfold bind. rewrite Hc. reflexivity. Qed.

Lemma bind_modify {E S B} (f : S -> S) (k : unit -> Py E S B) s :
  bind (modify f) k s = k tt (f s).
Proof. unfold bind, modify. destruct (k tt (f s)) as [[s2 t2] r]. reflexivity. Qed.

Lemma bind_ret {E S A B} (a : A) (k : A -> Py E S B) s : bind (ret a) k s = k a s.
Proof. unfold bind, ret. destruct (k a s) as [[s2 t2] r]. reflexivity. Qed.

Lemma try_except_ok_eq {E S A} (body : Py E S A) catches handler s s1 t1 a :
  body s = (s1, t1, Ok a) -> try_except body catches handler s = (s1, t1, Ok a).
Proof. intros Hb. unfold try_except. rewrite Hb. reflexivity. Qed.

Lemma sent_app t1 t2 : sent (t1 ++ t2) = sent t1 ++ sent t2.
Proof. apply omap_app. Qed.

Lemma sent_none_Forall (P : Data -> Prop) (t : list UserEvent) :
  sent t = [] -> Forall (fun u => forall data, u = Sent data -> P data) t.
Proof.
  induction t as [| u t IH]; intros Ht; constructor.
  - intros data ->. discriminate.
  - apply IH. destruct u; try exact Ht. discriminate.
Qed.

Section Spends.
Context {S : Type} (budget : S -> nat).

Lemma spends_ret {A} (a : A) : spends budget (ret a).
Proof. intros s. cbn. lia. Qed.

Lemma spends_raise {A} e : spends budget (@raise UserEvent S A e).
Proof. intros s. cbn. lia. Qed.

Lemma spends_bind {A B} (c : Py UserEvent S A) (k : A -> Py UserEvent S B) :
  spends budget c -> (forall a, spends budget (k a)) -> spends budget (bind c k).
Proof.
  intros Hc Hk s. specialize (Hc s). unfold bind.
  destruct (c s) as [[s1 t1] [a | e]];
    unfold trace_of, state_of in *; cbn [fst snd] in *; [| exact Hc].
  specialize (Hk a s1). destruct (k a s1) as [[s2 t2] r].
  unfold trace_of, state_of in Hk. cbn [fst snd] in *.
  rewrite sent_app, length_app. lia.
Qed.

Lemma spends_get {B} (k : S -> Py UserEvent S B) :
  (forall s, (length (sent (trace_of (k s s))) + budget (state_of (k s s))
              <= budget s)%nat) ->
  spends budget (bind get k).
Proof. intros Hk s. rewrite bind_get. apply Hk. Qed.

Lemma spends_try_except {A} (body : Py UserEvent S A) catches handler :
  spends budget body -> (forall e, spends budget (handler e)) ->
  spends budget (try_except body catches handler).
Proof.
  intros Hb Hh s. specialize (Hb s). unfold try_except.
  destruct (body s) as [[s1 t1] [a | e]];
    unfold trace_of, state_of in *; cbn [fst snd] in *; [exact Hb |].
  destruct (catches e); [| exact Hb].
  specialize (Hh e s1). destruct (handler e s1) as [[s2 t2] r].
  unfold trace_of, state_of in Hh. cbn [fst snd] in *.
  rewrite sent_app, length_app. lia.
Qed.

Lemma spends_for_each {A} (xs : list A) (body : A -> Py UserEvent S unit) :
  (forall x, spends budget (body x)) -> spends budget (for_each xs body).
Proof.
  intros Hbody. induction xs as [| x xs IH]; cbn [for_each].
  - apply spends_ret.
  - apply spends_bind; [apply Hbody | intros _; exact IH].
Qed.

Lemma spends_modify f :
  (forall s, (budget (f s) <= budget s)%nat) -> spends budget (modify f).
Proof. intros Hf s. cbn. apply Hf. Qed.
End Spends.

Section SudoLemmas.
Variable re_search : Regex -> string -> option Match.
Variable GenericUnixCommand_on_new_line_Sudo : string -> bool -> Py UserEvent Sudo unit.
Variable Command_data_received : Data -> Py UserEvent Command unit.
Hypothesis command_sends_nothing :
  forall data cmd, sent (trace_of (Command_data_received data cmd)) = [].

Lemma on_cmd_object_spends {A} (method : Py UserEvent Command A) :
  (forall cmd, sent (trace_of (method cmd)) = []) ->
  spends password_budget (on_cmd_object method).
Proof.
  intros Hm self. unfold on_cmd_object.
  destruct (cmd_object self) as [cmd |];
    [| exact (spends_raise password_budget AttributeError self)].
  specialize (Hm cmd). destruct (method cmd) as [[cmd' t] r].
  unfold trace_of, state_of in *. cbn [fst snd] in *. rewrite Hm.
  unfold password_budget. cbn [_sent_sudo_password length]. lia.
Qed.

Lemma _parse_sudo_password_spends line :
  spends password_budget (_parse_sudo_password re_search line).
Proof.
  unfold _parse_sudo_password.
  destruct (re_search _re_sudo_password line); [| apply spends_ret].
  apply spends_get. intros self. unfold password_budget.
  destruct (_sent_sudo_password self) eqn:Hsent; cbn; rewrite ?Hsent; cbn; lia.
Qed.

Lemma _parse_command_not_found_spends line :
  spends password_budget (_parse_command_not_found re_search line).
Proof.
  unfold _parse_command_not_found.
  destruct (re_search _re_sudo_command_not_found line); [| apply spends_ret].
  apply spends_bind; [| intros _; apply spends_raise].
  apply spends_modify. intros self. unfold password_budget. cbn. lia.
Qed.

Lemma _process_embedded_command_spends line is_full_line :
  spends password_budget
    (_process_embedded_command Command_data_received line is_full_line).
Proof.
  assert (Hget : spends password_budget (on_cmd_object (get (E:=UserEvent)))).
  { apply on_cmd_object_spends. intros cmd. reflexivity. }
  assert (Hdata : forall data,
            spends password_budget (on_cmd_object (Command_data_received data))).
  { intros data. apply on_cmd_object_spends. intros cmd.
    apply command_sends_nothing. }
  unfold _process_embedded_command.
  apply spends_bind; [intros s; cbn; lia |]. intros self.
  apply spends_bind.
  - destruct (negb (_sent_command_string self)); [| apply spends_ret].
    apply spends_bind.
    + apply spends_modify. intros s. unfold password_budget. cbn. lia.
    + intros _. apply spends_bind; [exact Hget |]. intros cmd. apply Hdata.
  - intros _. apply spends_bind; [apply Hdata |]. intros _.
    apply spends_bind; [exact Hget |]. intros cmd.
    apply spends_modify. intros s. unfold password_budget. cbn. lia.
Qed.

Hypothesis base_spends :
  forall line is_full_line,
    spends password_budget (GenericUnixCommand_on_new_line_Sudo line is_full_line).

Lemma Sudo_on_new_line_spends line is_full_line :
  spends password_budget
    (Sudo_on_new_line re_search GenericUnixCommand_on_new_line_Sudo
       Command_data_received line is_full_line).
Proof.
  unfold Sudo_on_new_line. apply spends_bind; [| intros _; apply base_spends].
  apply spends_try_except; [| intros _; apply spends_ret].
  apply spends_bind; [apply _parse_sudo_password_spends |]. intros _.
  apply spends_bind; [apply _parse_command_not_found_spends |]. intros _.
  apply _process_embedded_command_spends.
Qed.
End SudoLemmas.

(** X9.  However many lines a [Sudo] is given and however many of them
    ask for the password, the password is sent at most once, and not at all
    when it was sent before; this holds when the embedded command sends
    nothing and [on_new_line] of the base class neither sends nor clears
    the mark that the password was sent. *)
Theorem sudo_password_is_sent_at_most_once
    (re_search : Regex -> string -> option Match)
    (GenericUnixCommand_on_new_line_Sudo : string -> bool -> Py UserEvent Sudo unit)
    (Command_data_received : Data -> Py UserEvent Command unit)
    (lines : list (string * bool)) (self : Sudo) :
  (forall data cmd, sent (trace_of (Command_data_received data cmd)) = []) ->
  (forall line is_full_line,
     spends password_budget (GenericUnixCommand_on_new_line_Sudo line is_full_line)) ->
  let r := Sudo_on_new_lines re_search GenericUnixCommand_on_new_line_Sudo
             Command_data_received lines self in
  (length (sent (trace_of r)) <= 1)%nat /\
  (_sent_sudo_password self = true -> sent (trace_of r) = []) /\
  (sent (trace_of r) <> [] -> _sent_sudo_password (state_of r) = true).
Proof.
  intros Hcmd Hbase r.
  assert (Hs : (length (sent (trace_of r)) + password_budget (state_of r)
                <= password_budget self)%nat).
  { apply (spends_for_each password_budget). intros line.
    apply Sudo_on_new_line_spends; assumption. }
  unfold password_budget in Hs. split; [| split].
  - destruct (_sent_sudo_password self), (_sent_sudo_password (state_of r)); lia.
  - intros Hsent. rewrite Hsent in Hs.
    destruct (sent (trace_of r)); [reflexivity | cbn in Hs; lia].
  - intros Hne. destruct (_sent_sudo_password (state_of r)); [reflexivity |].
    destruct (sent (trace_of r)); [contradiction |].
    cbn in Hs. destruct (_sent_sudo_password self); lia.
Qed.

Lemma sudo_password_is_sent_at_most_once_witness :
  let r := Sudo_on_new_lines sudo_search (fun _ _ => ret tt) recording_data_received
             [("[sudo] password for user:", false);
              ("[sudo] password for user:", false);
              ("/home/user", true)] sudo_pwd in
  (length (sent (trace_of r)) <= 1)%nat /\ sent (trace_of r) = ["pass"].
Proof.
  split; [| reflexivity].
  apply (sudo_password_is_sent_at_most_once sudo_search (fun _ _ => ret tt)
           recording_data_received
           [("[sudo] password for user:", false);
            ("[sudo] password for user:", false);
            ("/home/user", true)] sudo_pwd).
  - intros data cmd. reflexivity.
  - intros line is_full_line s. cbn. lia.
Defined.

(** X10.  A line with the prompt for the password, or a line with the
    complaint that the command was not found, is not given to the embedded
    command: the command, the mark that its command string was given and
    the result of the [Sudo] stay as they are.  The prompt sends the
    password when it was not sent before and changes nothing else; the
    complaint calls [set_exception] with a [CommandFailure] naming the
    line.  In both cases [on_new_line] of the base class runs next. *)
Theorem sudo_own_lines_do_not_reach_the_command
    (re_search : Regex -> string -> option Match)
    (GenericUnixCommand_on_new_line_Sudo : string -> bool -> Py UserEvent Sudo unit)
    (Command_data_received : Data -> Py UserEvent Command unit)
    (line : string) (is_full_line : bool) (self : Sudo) :
  re_search _re_sudo_password line <> None \/
  re_search _re_sudo_command_not_found line <> None ->
  exists self1 t1,
    Sudo_on_new_line re_search GenericUnixCommand_on_new_line_Sudo
      Command_data_received line is_full_line self
    = (state_of (GenericUnixCommand_on_new_line_Sudo line is_full_line self1),
       t1 ++ trace_of (GenericUnixCommand_on_new_line_Sudo line is_full_line self1),
       result_of (GenericUnixCommand_on_new_line_Sudo line is_full_line self1)) /\
    cmd_object self1 = cmd_object self /\
    _sent_command_string self1 = _sent_command_string self /\
    Sudo_current_ret self1 = Sudo_current_ret self /\
    (re_search _re_sudo_password line <> None ->
     Sudo_base self1 = Sudo_base self /\
     _sent_sudo_password self1 = true /\
     t1 = if _sent_sudo_password self then [] else [Sent (sudo_password self)]) /\
    (re_search _re_sudo_password line = None ->
     Sudo_base self1
       = ConnectionObserver.set_exception
           (CommandFailure ("Command not found in line '" +:+ line +:+ "'"))
           (Sudo_base self) /\
     _sent_sudo_password self1 = _sent_sudo_password self /\
     t1 = []).
Proof.
  intros Hown. unfold Sudo_on_new_line.
  destruct (re_search _re_sudo_password line) as [m |] eqn:Hpw.
  - (* the prompt for the password *)
    set (self1 := {| Sudo_base := Sudo_base self;
                     sudo_password := sudo_password self;
                     cmd_object := cmd_object self;
                     _sent_sudo_password := true;
                     _sent_command_string := _sent_command_string self;
                     newline_seq := newline_seq self;
                     Sudo_current_ret := Sudo_current_ret self |}).
    exists (if _sent_sudo_password self then self else self1),
      (if _sent_sudo_password self then [] else [Sent (sudo_password self)]).
    assert (Htry :
      try_except
        (let! _ := _parse_sudo_password re_search line in
         let! _ := _parse_command_not_found re_search line in
         _process_embedded_command Command_data_received line is_full_line)
        is_ParsingDone (fun _ => ret tt) self
      = (if _sent_sudo_password self then self else self1,
         (if _sent_sudo_password self then [] else [Sent (sudo_password self)]) ++ [],
         Ok tt)).
    { assert (Hbody : _parse_sudo_password re_search line self
                      = (if _sent_sudo_password self then self else self1,
                         if _sent_sudo_password self then []
                         else [Sent (sudo_password self)],
                         Raise ParsingDone)).
      { unfold _parse_sudo_password. rewrite Hpw, bind_get.
        destruct (_sent_sudo_password self); reflexivity. }
      rewrite (try_except_caught _ _ _ _ _ _ _
                 (bind_raise_eq _ _ _ _ _ _ Hbody) eq_refl).
      reflexivity. }
    rewrite (bind_ok _ _ _ _ _ _ Htry). rewrite app_nil_r.
    split; [reflexivity |].
    split; [destruct (_sent_sudo_password self); reflexivity |].
    split; [destruct (_sent_sudo_password self); reflexivity |].
    split; [destruct (_sent_sudo_password self); reflexivity |].
    split; [| discriminate].
    intros _. destruct (_sent_sudo_password self) eqn:Hsent; repeat split.
    exact Hsent.
  - (* the complaint of sudo *)
    destruct Hown as [Hown | Hnf]; [contradiction |].
    destruct (re_search _re_sudo_command_not_found line) as [m |] eqn:Hnot;
      [| contradiction].
    set (failure := CommandFailure ("Command not found in line '" +:+ line +:+ "'")).
    set (self1 := {| Sudo_base := ConnectionObserver.set_exception failure (Sudo_base self);
                     sudo_password := sudo_password self;
                     cmd_object := cmd_object self;
                     _sent_sudo_password := _sent_sudo_password self;
                     _sent_command_string := _sent_command_string self;
                     newline_seq := newline_seq self;
                     Sudo_current_ret := Sudo_current_ret self |}).
    exists self1, [].
    assert (Htry :
      try_except
        (let! _ := _parse_sudo_password re_search line in
         let! _ := _parse_command_not_found re_search line in
         _process_embedded_command Command_data_received line is_full_line)
        is_ParsingDone (fun _ => ret tt) self
      = (self1, [] ++ [], Ok tt)).
    { assert (Hfirst : _parse_sudo_password re_search line self = (self, [], Ok tt)).
      { unfold _parse_sudo_password. rewrite Hpw. reflexivity. }
      assert (Hsecond : _parse_command_not_found re_search line self
                        = (self1, [], Raise ParsingDone)).
      { unfold _parse_command_not_found. rewrite Hnot. reflexivity. }
      assert (Hbody : (let! _ := _parse_sudo_password re_search line in
                       let! _ := _parse_command_not_found re_search line in
                       _process_embedded_command Command_data_received line
                         is_full_line) self
                      = (self1, [], Raise ParsingDone)).
      { rewrite (bind_ok _ _ _ _ _ _ Hfirst).
        cbn [state_of trace_of result_of fst snd app].
        rewrite (bind_raise_eq _ _ _ _ _ _ Hsecond). reflexivity. }
      rewrite (try_except_caught _ _ _ _ _ _ _ Hbody eq_refl). reflexivity. }
    rewrite (bind_ok _ _ _ _ _ _ Htry).
    split; [reflexivity |]. split; [reflexivity |]. split; [reflexivity |].
    split; [reflexivity |]. split.
    + intros Hsome. exfalso. apply Hsome. reflexivity.
    + intros _. repeat split.
Qed.

Lemma sudo_own_lines_do_not_reach_the_command_witness :
  exists self1 t1,
    Sudo_on_new_line sudo_search (fun _ _ => ret tt) recording_data_received
      "sudo: pwdd: command not found" true sudo_pwd
    = (self1, t1 ++ [], Ok tt) /\
    cmd_object self1 = Some pwd_command.
Proof.
  destruct (sudo_own_lines_do_not_reach_the_command sudo_search (fun _ _ => ret tt)
              recording_data_received "sudo: pwdd: command not found" true sudo_pwd)
    as (self1 & t1 & Hrun & Hcmd & _).
  - right. vm_compute. discriminate.
  - exists self1, t1. split; [exact Hrun | exact Hcmd].
Defined.

(** X11.  A [Sudo] that has no command cannot take a line of output: on a
    line that is neither the prompt for the password nor the complaint of
    [sudo], [on_new_line] raises [AttributeError] after it has marked the
    command string as given, and [on_new_line] of the base class is not
    reached; [build_command_string] raises [AttributeError] as well. *)
Theorem sudo_without_command_cannot_parse
    (re_search : Regex -> string -> option Match)
    (GenericUnixCommand_on_new_line_Sudo : string -> bool -> Py UserEvent Sudo unit)
    (Command_data_received : Data -> Py UserEvent Command unit)
    (line : string) (is_full_line : bool) (self : Sudo) :
  cmd_object self = None ->
  re_search _re_sudo_password line = None ->
  re_search _re_sudo_command_not_found line = None ->
  Sudo_on_new_line re_search GenericUnixCommand_on_new_line_Sudo
    Command_data_received line is_full_line self
  = ({| Sudo_base := Sudo_base self;
        sudo_password := sudo_password self;
        cmd_object := None;
        _sent_sudo_password := _sent_sudo_password self;
        _sent_command_string := true;
        newline_seq := newline_seq self;
        Sudo_current_ret := Sudo_current_ret self |}, [], Raise AttributeError) /\
  Sudo_build_command_string self = (self, [], Raise AttributeError).
Proof.
  intros Hcmd Hpw Hnf. split.
  - unfold Sudo_on_new_line.
    apply bind_raise_eq. unfold try_except, bind.
    unfold _parse_sudo_password, _parse_command_not_found. rewrite Hpw, Hnf.
    cbn. unfold _process_embedded_command, bind, get, modify, ret, on_cmd_object.
    cbn. destruct self as [b pw cmd sent_pw sent_cs nl cr]. cbn in *. subst cmd.
    destruct sent_cs; reflexivity.
  - unfold Sudo_build_command_string, bind, on_cmd_object. rewrite Hcmd. reflexivity.
Qed.

Lemma sudo_without_command_cannot_parse_witness :
  result_of (Sudo_on_new_line sudo_search (fun _ _ => ret tt) recording_data_received
               "/home/user" true sudo_without_command)
  = Raise AttributeError.
Proof.
  destruct (sudo_without_command_cannot_parse sudo_search (fun _ _ => ret tt)
              recording_data_received "/home/user" true sudo_without_command)
    as [Hrun _]; [reflexivity | reflexivity | reflexivity |].
  rewrite Hrun. reflexivity.
Defined.

Lemma getitem_setitem_eq {K V} `{EqDecision K} (k : K) (v : V) (d : PyDict.t K V) :
  PyDict.getitem k (PyDict.setitem k v d) = Some v.
Proof.
  induction d as [| [k' v'] d IH]; cbn.
  - rewrite decide_True; reflexivity.
  - destruct (decide (k = k')) as [-> | Hne]; cbn.
    + rewrite decide_True; reflexivity.
    + rewrite decide_False by exact Hne. exact IH.
Qed.

Lemma getitem_setitem_ne {K V} `{EqDecision K} (k k' : K) (v : V) (d : PyDict.t K V) :
  k <> k' -> PyDict.getitem k (PyDict.setitem k' v d) = PyDict.getitem k d.
Proof.
  intros Hne. induction d as [| [k2 v2] d IH]; cbn.
  - rewrite decide_False by exact Hne. reflexivity.
  - destruct (decide (k' = k2)) as [-> | Hne2]; cbn.
    + rewrite !decide_False by exact Hne. reflexivity.
    + rewrite IH. reflexivity.
Qed.

(** X12.  [Du.on_new_line] hands every line to [on_new_line] of the base
    class.  Before that, for a full line the pattern matches with a number
    that [int] reads, it stores the number under the directory, in place of
    an earlier number of that directory and next to the numbers of the other
    directories; a line that is not full, or that the pattern does not
    match, reaches the base class with the parser as it was. *)
Theorem Du_stores_the_size_and_calls_the_base
    (re_search : Regex -> string -> option Match)
    (GenericUnixCommand_on_new_line_Du : string -> bool -> Py UserEvent Du unit)
    (line : string) (is_full_line : bool) (self : Du) :
  (forall m n,
     is_full_line = true -> re_search _re_du line = Some m ->
     int (group m "NUMBER") = Ok n ->
     exists self1,
       Du_on_new_line re_search GenericUnixCommand_on_new_line_Du line is_full_line self
       = GenericUnixCommand_on_new_line_Du line is_full_line self1 /\
       PyDict.getitem (group m "DIRECTORY") (Du_current_ret self1) = Some n /\
       (forall directory, directory <> group m "DIRECTORY" ->
          PyDict.getitem directory (Du_current_ret self1)
          = PyDict.getitem directory (Du_current_ret self)) /\
       Du_base self1 = Du_base self /\ Du_options self1 = Du_options self) /\
  (is_full_line = false \/ re_search _re_du line = None ->
   Du_on_new_line re_search GenericUnixCommand_on_new_line_Du line is_full_line self
   = GenericUnixCommand_on_new_line_Du line is_full_line self).
Proof.
  split.
  - intros m n -> Hm Hn.
    exists {| Du_base := Du_base self; Du_options := Du_options self;
              Du_current_ret :=
                PyDict.setitem (group m "DIRECTORY") n (Du_current_ret self) |}.
    split; [| split; [| split; [| split]]].
    + unfold Du_on_new_line.
      assert (Htry : try_except (_parse_du re_search line) is_ParsingDone
                       (fun _ => ret tt) self
                     = ({| Du_base := Du_base self; Du_options := Du_options self;
                           Du_current_ret :=
                             PyDict.setitem (group m "DIRECTORY") n
                               (Du_current_ret self) |}, [], Ok tt)).
      { rewrite (try_except_caught _ _ _ _ _ _ _
                   (_parse_du_raises re_search line m n self Hm Hn) eq_refl).
        reflexivity. }
      rewrite (bind_ok _ _ _ _ _ _ Htry).
      cbn [state_of trace_of result_of fst snd app]. symmetry. apply run_eq.
    + apply getitem_setitem_eq.
    + intros directory Hne. apply getitem_setitem_ne. exact Hne.
    + reflexivity.
    + reflexivity.
  - intros Hnot. unfold Du_on_new_line.
    assert (Htry : (if is_full_line
                    then try_except (_parse_du re_search line) is_ParsingDone
                           (fun _ => ret tt)
                    else ret tt) self = (self, [], Ok tt)).
    { destruct is_full_line; [| reflexivity].
      destruct Hnot as [Hfull | Hnone]; [discriminate |].
      unfold try_except, _parse_du. rewrite Hnone. reflexivity. }
    rewrite (bind_ok _ _ _ _ _ _ Htry).
    cbn [state_of trace_of result_of fst snd app]. symmetry. apply run_eq.
Qed.

Lemma Du_stores_the_size_and_calls_the_base_witness :
  exists self1,
    Du_on_new_line du_search (fun _ _ => ret tt) du_line true
      {| Du_base := ConnectionObserver.__init__; Du_options := None;
         Du_current_ret := [("./directory/directory2", 7%Z); (".", 12%Z)] |}
    = (self1, [], Ok tt) /\
    PyDict.getitem "./directory/directory2" (Du_current_ret self1) = Some 4%Z /\
    PyDict.getitem "." (Du_current_ret self1) = Some 12%Z.
Proof.
  destruct (Du_stores_the_size_and_calls_the_base du_search (fun _ _ => ret tt)
              du_line true
              {| Du_base := ConnectionObserver.__init__; Du_options := None;
                 Du_current_ret := [("./directory/directory2", 7%Z); (".", 12%Z)] |})
    as [Hmatch _].
  destruct (Hmatch {| group := fun name =>
                        if decide (name = "NUMBER") then "4"
                        else "./directory/directory2" |} 4%Z
              eq_refl eq_refl eq_refl) as (self1 & Hrun & Hdir & Hother & _).
  exists self1. split; [exact Hrun |]. split; [exact Hdir |].
  rewrite (Hother "."); [reflexivity | discriminate].
Defined.

Section LastLoginLemmas.
Variable re_search : Regex -> string -> option Match.
Variable parser_parse : string -> Result Z.
Variable now : Z.
Variable event_occurred : PyDict.t string PyAtom -> Py UserEvent LastLogin unit.

(** the parser after the first three entries were written *)
Lemma _parse_last_login_entries line m self :
  re_search _re_last_login line = Some m ->
  LastLogin_current_ret self = PyDict.empty ->
  _parse_last_login re_search parser_parse now event_occurred line self
  = (let! date := lift_result (parser_parse (group m "DATE")) in
     let! _ := set_current_ret "date" (ATime date) in
     let! self := get in
     let! _ := event_occurred (LastLogin_current_ret self) in
     let! _ := modify (fun self =>
                 {| LastLogin_base := LastLogin_base self;
                    LastLogin_current_ret := PyDict.empty |}) in
     raise ParsingDone)
      {| LastLogin_base := LastLogin_base self;
         LastLogin_current_ret :=
           [("time", ATime now); ("host", AStr (group m "HOST"));
            ("date_raw", AStr (group m "DATE"))] |}.
Proof.
  intros Hm Hempty. unfold _parse_last_login. rewrite Hm.
  unfold set_current_ret.
  rewrite bind_modify. cbn beta. rewrite bind_modify. cbn beta.
  rewrite bind_modify. cbn beta.
  match goal with
  | |- _ ?s1 = _ ?s2 => replace s1 with s2; [reflexivity |]
  end.
  cbn [LastLogin_base LastLogin_current_ret]. rewrite Hempty. reflexivity.
Qed.
End LastLoginLemmas.

(** X13.  On a full line that the pattern of the last login matches and
    whose date can be parsed, a [LastLogin] with nothing collected gives
    [event_occurred] the four entries [time], [host], [date_raw] and [date],
    in that order, and, when [event_occurred] returns, starts again with an
    empty [current_ret] and returns.  A line that is not full leaves the
    parser as it was. *)
Theorem LastLogin_reports_the_login_and_starts_again
    (re_search : Regex -> string -> option Match)
    (parser_parse : string -> Result Z) (now : Z)
    (event_occurred : PyDict.t string PyAtom -> Py UserEvent LastLogin unit)
    (line : string) (m : Match) (date : Z) (self : LastLogin) :
  re_search _re_last_login line = Some m ->
  parser_parse (group m "DATE") = Ok date ->
  LastLogin_current_ret self = PyDict.empty ->
  let event_data :=
    [("time", ATime now); ("host", AStr (group m "HOST"));
     ("date_raw", AStr (group m "DATE")); ("date", ATime date)] in
  let r := event_occurred event_data
             {| LastLogin_base := LastLogin_base self;
                LastLogin_current_ret := event_data |} in
  result_of r = Ok tt ->
  LastLogin_on_new_line re_search parser_parse now event_occurred line true self
  = ({| LastLogin_base := LastLogin_base (state_of r);
        LastLogin_current_ret := PyDict.empty |}, trace_of r, Ok tt) /\
  LastLogin_on_new_line re_search parser_parse now event_occurred line false self
  = (self, [], Ok tt).
Proof.
  intros Hm Hdate Hempty event_data r Hr. split; [| reflexivity].
  unfold LastLogin_on_new_line.
  assert (Hbody : _parse_last_login re_search parser_parse now event_occurred line self
                  = ({| LastLogin_base := LastLogin_base (state_of r);
                        LastLogin_current_ret := PyDict.empty |},
                     trace_of r, Raise ParsingDone)).
  { assert (Hev : event_occurred event_data
                    {| LastLogin_base := LastLogin_base self;
                       LastLogin_current_ret := event_data |}
                  = (state_of r, trace_of r, Ok tt)).
    { fold r. rewrite (run_eq r) at 1. rewrite Hr. reflexivity. }
    rewrite (_parse_last_login_entries _ _ _ _ line m self Hm Hempty), Hdate.
    cbn [lift_result]. rewrite bind_ret.
    unfold set_current_ret. rewrite bind_modify. cbn beta. rewrite bind_get.
    cbn [LastLogin_base LastLogin_current_ret PyDict.setitem].
    repeat (rewrite decide_False by discriminate).
    rewrite (bind_ok _ _ _ _ _ _ Hev).
    cbn [state_of trace_of result_of fst snd]. rewrite bind_modify.
    cbn. rewrite app_nil_r. reflexivity. }
  rewrite (try_except_caught _ _ _ _ _ _ _ Hbody eq_refl).
  cbn. rewrite app_nil_r. reflexivity.
Qed.

Lemma LastLogin_reports_the_login_and_starts_again_witness :
  LastLogin_on_new_line last_login_search last_login_parse 1547471568
    (fun _ => ret tt) last_login_line true (LastLogin__init__)
  = (LastLogin__init__, [], Ok tt).
Proof.
  apply (LastLogin_reports_the_login_and_starts_again last_login_search
           last_login_parse 1547471568 (fun _ => ret tt) last_login_line
           {| group := fun name =>
                if decide (name = "HOST") then "127.0.0.1"
                else "Tue Jun 12 08:54:44 2018" |}
           1528793684 LastLogin__init__); reflexivity.
Defined.

(** X14.  When the date of a matching full line cannot be parsed, the
    exception of the date parser leaves [on_new_line]: [event_occurred] is
    not called, and the three entries written before the date stay in
    [current_ret]. *)
Theorem LastLogin_unparsable_date_escapes
    (re_search : Regex -> string -> option Match)
    (parser_parse : string -> Result Z) (now : Z)
    (event_occurred : PyDict.t string PyAtom -> Py UserEvent LastLogin unit)
    (line : string) (m : Match) (e : PyExc) (self : LastLogin) :
  re_search _re_last_login line = Some m ->
  parser_parse (group m "DATE") = Raise e ->
  is_ParsingDone e = false ->
  LastLogin_current_ret self = PyDict.empty ->
  LastLogin_on_new_line re_search parser_parse now event_occurred line true self
  = ({| LastLogin_base := LastLogin_base self;
        LastLogin_current_ret :=
          [("time", ATime now); ("host", AStr (group m "HOST"));
           ("date_raw", AStr (group m "DATE"))] |}, [], Raise e).
Proof.
  intros Hm Hdate Hother Hempty. unfold LastLogin_on_new_line, try_except.
  rewrite (_parse_last_login_entries _ _ _ _ line m self Hm Hempty), Hdate.
  cbn [lift_result].
  rewrite (bind_raise_eq _ _ _ _ _ _ (eq_refl (raise (E:=UserEvent) e _))).
  rewrite Hother. reflexivity.
Qed.

Lemma LastLogin_unparsable_date_escapes_witness :
  result_of (LastLogin_on_new_line last_login_search (fun _ => Raise ValueError)
               1547471568 (fun _ => raise KeyboardInterrupt)
               last_login_line true LastLogin__init__)
  = Raise ValueError.
Proof.
  rewrite (LastLogin_unparsable_date_escapes last_login_search
             (fun _ => Raise ValueError) 1547471568 (fun _ => raise KeyboardInterrupt)
             last_login_line
             {| group := fun name =>
                  if decide (name = "HOST") then "127.0.0.1"
                  else "Tue Jun 12 08:54:44 2018" |}
             ValueError LastLogin__init__); reflexivity.
Defined.

(** ** An observer from [submit] to its result *)

Section SubmittedObserver.
Variable observer_data_received : ObjId -> Data -> Py UserEvent Observer unit.

(** the shim gives the chunk to an observer that is running and
    unsubscribes when the observer is done with it *)
Lemma secure_data_received_returning f data w self self' t :
  shutting_down (runner w) = false ->
  objects w !! feeder_observer f = Some self ->
  ConnectionObserver.done (base self) = false ->
  observer_data_received (feeder_observer f) data self = (self', t, Ok tt) ->
  let w2 := set_objects (<[feeder_observer f := self']> (objects w)) w in
  exists t',
    secure_data_received observer_data_received f data w
    = (if ConnectionObserver.done (base self')
       then state_of (unsubscribe (E:=UserEvent) (Function (feeder_shim f))
                        (feeder_handler f) w2)
       else w2, t', Ok tt).
Proof.
  intros Hflag Ho Hd Hrun w2. set (o := feeder_observer f) in *.
  assert (Hbody : (let! _ := emit (Forwarded o data) in
                   on_object o (observer_data_received o data)) w
                  = (w2, Forwarded o data :: (By o <$> t), Ok tt)).
  { unfold bind, emit. rewrite (on_object_eq o _ w self Ho), Hrun. reflexivity. }
  assert (Ho2 : objects w2 !! o = Some self').
  { unfold w2. cbn. apply lookup_insert_eq. }
  destruct (unsubscribe_run (feeder_shim f) (feeder_handler f) w2)
    as (w3 & t3 & Hun & _).
  exists (([] ++ (Forwarded o data :: (By o <$> t)))
          ++ ([] ++ if ConnectionObserver.done (base self') then t3 else [])).
  unfold secure_data_received. fold o. rewrite bind_get, Hflag.
  rewrite (bind_ok _ _ _ _ _ _ (on_object_done_eq o w self Ho)), Hd.
  cbn [state_of trace_of result_of fst snd].
  rewrite (bind_ok _ _ _ _ _ _ (try_except_ok_eq _ _ _ _ _ _ _ Hbody)).
  cbn [state_of trace_of result_of fst snd].
  rewrite (bind_ok _ _ _ _ _ _ (on_object_done_eq o w2 self' Ho2)).
  cbn [state_of trace_of result_of fst snd].
  destruct (ConnectionObserver.done (base self')); [| reflexivity].
  rewrite Hun. reflexivity.
Qed.
End SubmittedObserver.

Section Detector.
Variable when_detected : Z.
Variables (o shim : ObjId) (handler : Handler).

Lemma NetworkDownDetector_data_received_running data self :
  ConnectionObserver.done (base self) = false ->
  NetworkDownDetector_data_received when_detected data self
  = (detector_after when_detected data self, [], Ok tt).
Proof.
  intros Hd. unfold NetworkDownDetector_data_received, detector_after, network_is_down.
  rewrite bind_modify. unfold observer_done. unfold bind at 1.
  rewrite bind_get. cbn [ret base]. rewrite Hd. cbn [negb app].
  destruct (str_contains "Network is unreachable" data); reflexivity.
Qed.

Lemma detector_after_done data self :
  ConnectionObserver.done (base self) = false ->
  ConnectionObserver.done (base (detector_after when_detected data self))
  = network_is_down data.
Proof.
  intros Hd. unfold detector_after. cbn.
  destruct (network_is_down data); [| exact Hd].
  unfold ConnectionObserver.set_result. rewrite Hd. reflexivity.
Qed.

(** a chunk delivered to a running observer *)
Lemma deliver_to_running data w self :
  Running o shim handler w self ->
  exists w' t',
    connection_data_received (detectors when_detected) data w = (w', t', Ok tt) /\
    objects w' !! o = Some (detector_after when_detected data self) /\
    live w' = live w /\ runner w' = runner w /\
    moler_conn w' = if network_is_down data then ObservableConnection__init__
                    else connection_of shim handler.
Proof.
  intros (Hconn & Hlive & Hrunner & Ho & Hd).
  set (f := feeder_of o shim handler).
  set (self' := detector_after when_detected data self).
  set (w2 := set_objects (<[o := self']> (objects w)) w).
  assert (Hdone' : ConnectionObserver.done (base self') = network_is_down data)
    by (apply detector_after_done, Hd).
  (* the shim *)
  destruct (secure_data_received_returning (detectors when_detected) f data w self self' []) as [t1 Hshim].
  { rewrite Hrunner. reflexivity. }
  { exact Ho. }
  { exact Hd. }
  { apply NetworkDownDetector_data_received_running, Hd. }
  cbn zeta in Hshim. fold w2 in Hshim. rewrite Hdone' in Hshim.
  set (w3 := if network_is_down data
             then state_of (unsubscribe (E:=UserEvent) (Function (feeder_shim f))
                              (feeder_handler f) w2)
             else w2) in *.
  assert (Hcall : runner_function (detectors when_detected) shim None data w = (w3, t1, Ok tt)).
  { unfold runner_function. rewrite bind_get, Hrunner. cbn [feeders List.find].
    cbn [feeder_of feeder_shim]. rewrite bool_decide_eq_true_2 by reflexivity.
    exact Hshim. }
  assert (Hframe : live w3 = live w /\ objects w3 = objects w2 /\ runner w3 = runner w).
  { unfold w3. destruct (network_is_down data); [| repeat split].
    destruct (unsubscribe_frame (E:=UserEvent) (Function (feeder_shim f))
                (feeder_handler f) w2) as (Hl & Hobj & Hr & _).
    repeat split; assumption. }
  destruct Hframe as (Hl3 & Ho3 & Hr3).
  assert (Hconn3 : moler_conn w3 = if network_is_down data
                                   then ObservableConnection__init__
                                   else connection_of shim handler).
  { unfold w3. destruct (network_is_down data); [| exact Hconn].
    rewrite (unsubscribe_present (Function (feeder_shim f)) (feeder_handler f) w2
               _ _ [] [] (key_value_Function (feeder_shim f))).
    - cbn. rewrite Hconn. reflexivity.
    - cbn -[PyDict.delitem]. rewrite Hconn. cbn. rewrite decide_True; reflexivity.
    - cbn -[PyDict.delitem]. rewrite Hconn. cbn. rewrite decide_True; reflexivity. }
  (* the delivery *)
  assert (Hnotify : notify_observer (runner_function (detectors when_detected)) data
                      (None, weakref_proxy shim) w
                    = (w3, [Log TRACE (MsgNotifying shim data); Calling shim None data]
                           ++ (User <$> t1) ++ [], Ok tt)).
  { rewrite (notify_observer_live_function (runner_function (detectors when_detected)) data None
               (weakref_proxy shim) w Hlive).
    - cbn [referent]. rewrite Hcall. reflexivity.
    - cbn [referent]. rewrite Hcall. exact Hl3.
    - cbn [referent]. rewrite Hcall. intros e. discriminate. }
  exists w3, ([] ++ [Log RAW_DATA (MsgData data)] ++ [Log INFO (MsgData data)]
              ++ ([Log TRACE (MsgNotifying shim data); Calling shim None data]
                  ++ (User <$> t1) ++ []) ++ []).
  split; [| split; [| split; [| split]]].
  - unfold connection_data_received, data_received.
    assert (Hio : is_open w = (w, [], Ok true)).
    { unfold is_open, bind, get, ret. cbn. rewrite Hconn. reflexivity. }
    rewrite (bind_ok _ _ _ _ _ _ Hio). cbn [state_of trace_of result_of fst snd negb].
    assert (Hraw : _log_data (E:=Event) data RAW_DATA w
                   = (w, [Log RAW_DATA (MsgData data)], Ok tt)) by reflexivity.
    assert (Hinfo : _log_data (E:=Event) (decode (fun x => x) data) INFO w
                    = (w, [Log INFO (MsgData data)], Ok tt)) by reflexivity.
    rewrite (bind_ok _ _ _ _ _ _ Hraw). cbn [state_of trace_of result_of fst snd].
    rewrite (bind_ok _ _ _ _ _ _ Hinfo). cbn [state_of trace_of result_of fst snd].
    unfold notify_observers. rewrite bind_get. cbn zeta. rewrite Hconn.
    cbn [connection_of _observers PyDict.values fmap list_fmap snd for_each].
    unfold decode. rewrite (bind_ok _ _ _ _ _ _ Hnotify). reflexivity.
  - rewrite Ho3. unfold w2. cbn. apply lookup_insert_eq.
  - exact Hl3.
  - exact Hr3.
  - exact Hconn3.
Qed.

(** a chunk delivered when nobody is subscribed *)
Lemma deliver_to_nobody data w :
  _observers (moler_conn w) = [] ->
  exists t', connection_data_received (detectors when_detected) data w = (w, t', Ok tt).
Proof.
  intros Hnone. unfold connection_data_received, data_received.
  assert (Hio : is_open w = (w, [], Ok (_is_open (moler_conn w)))) by reflexivity.
  rewrite (bind_ok _ _ _ _ _ _ Hio). cbn [state_of trace_of result_of fst snd].
  destruct (_is_open (moler_conn w)); cbn [negb]; [| exists []; reflexivity].
  unfold bind, _log_data, emit, notify_observers, get. cbn. rewrite Hnone. cbn.
  eexists. reflexivity.
Qed.

Lemma feed_to_nobody chunks w :
  _observers (moler_conn w) = [] ->
  exists t', connection_feed (detectors when_detected) chunks w = (w, t', Ok tt).
Proof.
  intros Hnone. unfold connection_feed.
  induction chunks as [| data chunks IH]; cbn [for_each]; [exists []; reflexivity |].
  destruct (deliver_to_nobody data w Hnone) as [t1 H1]. destruct IH as [t2 H2].
  exists (t1 ++ t2). rewrite (bind_ok _ _ _ _ _ _ H1).
  cbn [state_of trace_of result_of fst snd]. rewrite H2. reflexivity.
Qed.

Lemma feed_to_running chunks :
  forall w self,
    Running o shim handler w self ->
    exists w' t' self',
      connection_feed (detectors when_detected) chunks w = (w', t', Ok tt) /\
      objects w' !! o = Some self' /\
      all_data_received self'
        = all_data_received self ++ until_network_is_down chunks /\
      ConnectionObserver.done (base self') = existsb network_is_down chunks.
Proof.
  unfold connection_feed.
  induction chunks as [| data chunks IH]; intros w self Hrun; cbn [for_each].
  - exists w, [], self. destruct Hrun as (_ & _ & _ & Ho & Hd).
    split; [reflexivity |]. split; [exact Ho |].
    split; [rewrite app_nil_r; reflexivity | exact Hd].
  - destruct (deliver_to_running data w self Hrun)
      as (w1 & t1 & H1 & Ho1 & Hl1 & Hr1 & Hc1).
    pose proof Hrun as (_ & Hlive & Hrunner & _ & Hd).
    rewrite (bind_ok _ _ _ _ _ _ H1). cbn [state_of trace_of result_of fst snd].
    cbn [until_network_is_down existsb].
    pose proof (detector_after_done data self Hd) as Hdone.
    destruct (network_is_down data) eqn:Hdown.
    + (* the observer is done: nobody is subscribed any more *)
      destruct (feed_to_nobody chunks w1) as [t2 H2].
      { rewrite Hc1. reflexivity. }
      unfold connection_feed in H2. rewrite H2.
      exists w1, (t1 ++ t2), (detector_after when_detected data self).
      split; [reflexivity |]. split; [exact Ho1 |].
      split; [reflexivity | exact Hdone].
    + destruct (IH w1 (detector_after when_detected data self))
        as (w2 & t2 & self2 & H2 & Ho2 & Hall2 & Hd2).
      { split; [exact Hc1 |]. split; [rewrite Hl1; exact Hlive |].
        split; [rewrite Hr1; exact Hrunner |]. split; [exact Ho1 | exact Hdone]. }
      rewrite H2. exists w2, (t1 ++ t2), self2.
      split; [reflexivity |]. split; [exact Ho2 |]. split; [| exact Hd2].
      rewrite Hall2. cbn [detector_after all_data_received].
      rewrite <- app_assoc. reflexivity.
Qed.

Lemma submit_running w self :
  moler_conn w = ObservableConnection__init__ ->
  runner w = {| shutting_down := false; feeders := [] |} ->
  objects w !! o = Some self ->
  (0 < ConnectionObserver.start_time (base self))%Z ->
  ConnectionObserver.done (base self) = false ->
  result_of (submit o shim handler w) = Ok tt /\
  Running o shim handler (state_of (submit o shim handler w)) self.
Proof.
  intros Hconn Hrunner Ho Harmed Hd.
  unfold submit. rewrite bind_get, Hrunner. cbn [shutting_down]. rewrite Ho.
  rewrite bool_decide_eq_true_2 by exact Harmed. rewrite Hd. cbn [negb andb].
  set (w1 := set_live ({[shim]} ∪ live w)
               (set_runner {| shutting_down := false;
                              feeders := feeders {| shutting_down := false; feeders := [] |}
                                         ++ [feeder_of o shim handler] |} w)).
  assert (Hput : put (E:=UserEvent) w1 w = (w1, [], Ok tt)) by reflexivity.
  fold (feeder_of o shim handler). fold w1.
  rewrite (bind_ok _ _ _ _ _ _ Hput). cbn [state_of trace_of result_of fst snd].
  rewrite (subscribe_new (E:=UserEvent) (Function shim) handler w1 _ _
             (key_value_Function shim)).
  - cbn [state_of trace_of result_of fst snd]. split; [reflexivity |].
    unfold Running. cbn. rewrite Hconn. cbn.
    split; [reflexivity |]. split; [set_solver |]. split; [reflexivity |].
    split; assumption.
  - cbn. rewrite Hconn. reflexivity.
Qed.
End Detector.

(** X15.  An armed [NetworkDownDetector] that is not done, submitted to a
    new runner on a new connection, gets every chunk fed into the
    connection, in the order of the feeding, up to and including the first
    chunk that says the network is down, and none after it; it is done
    exactly when such a chunk was fed, and feeding never raises.  The
    runner is the one of the spec. *)
Theorem detector_collects_until_the_network_is_down
    (when_detected : Z) (o shim : ObjId) (handler : Handler)
    (w : World) (self : Observer) (chunks : list Data) :
  moler_conn w = ObservableConnection__init__ ->
  runner w = {| shutting_down := false; feeders := [] |} ->
  objects w !! o = Some self ->
  (0 < ConnectionObserver.start_time (base self))%Z ->
  ConnectionObserver.done (base self) = false ->
  let w1 := state_of (submit o shim handler w) in
  let r := connection_feed (detectors when_detected) chunks w1 in
  result_of r = Ok tt /\
  exists self',
    objects (state_of r) !! o = Some self' /\
    all_data_received self'
      = all_data_received self ++ until_network_is_down chunks /\
    ConnectionObserver.done (base self') = existsb network_is_down chunks.
Proof.
  intros Hconn Hrunner Ho Harmed Hd w1 r.
  destruct (submit_running o shim handler w self Hconn Hrunner Ho Harmed Hd)
    as [_ Hrun].
  destruct (feed_to_running when_detected o shim handler chunks w1 self Hrun)
    as (w' & t' & self' & Hfeed & Ho' & Hall & Hdone).
  unfold r. rewrite Hfeed. cbn [result_of state_of fst snd].
  split; [reflexivity |]. exists self'. repeat split; assumption.
Qed.

Lemma detector_collects_until_the_network_is_down_witness :
  let r := connection_feed (detectors 123)
             ["61 bytes"; "ping: sendmsg: Network is unreachable"; "62 bytes"]
             (state_of (submit 1 11 21 world0)) in
  result_of r = Ok tt /\
  exists self',
    objects (state_of r) !! 1%positive = Some self' /\
    all_data_received self'
      = ["61 bytes"; "ping: sendmsg: Network is unreachable"] /\
    ConnectionObserver.done (base self') = true.
Proof.
  apply (detector_collects_until_the_network_is_down 123 1 11 21 world0 armed
           ["61 bytes"; "ping: sendmsg: Network is unreachable"; "62 bytes"]);
    reflexivity.
Defined.

Lemma delitem_middle {K V} `{EqDecision K} (k : K) (v : V) (before after : PyDict.t K V) :
  PyDict.contains k before = false ->
  PyDict.delitem k (before ++ (k, v) :: after) = Some (before ++ after).
Proof.
  induction before as [| [k' v'] before IH]; cbn.
  - intros _. rewrite decide_True; reflexivity.
  - destruct (decide (k = k')) as [-> | Hne]; [discriminate |].
    intros Hc. rewrite (IH Hc). reflexivity.
Qed.

(** X16.  After [unsubscribe] a delivery passes over the subscriber and
    calls the others as before, in their order: on an open, well-formed
    connection whose registry has the key of the callable, as
    [_get_observer_key_value] returns it, between the entries [before] and
    [after], the calls of a delivery after [unsubscribe] are those for
    [before] and [after].  The subscribed functions raise nothing but
    [Exception]s and collect nothing. *)
Theorem unsubscribed_is_not_called
    (call_function : ObjId -> option WeakProxy -> Data -> Py UserEvent World unit)
    (decoder : Data -> Data) (observer : Callable) (handler : Handler)
    (data : Data) (w : World)
    (before after : PyDict.t observer_key observer_value)
    (key : observer_key) (value value' : observer_value) :
  (forall func self_arg d w' e,
     result_of (call_function func self_arg d w') = Raise e -> is_Exception e = true) ->
  (forall func self_arg d w',
     live (state_of (call_function func self_arg d w')) = live w') ->
  _is_open (moler_conn w) = true ->
  conn_wf (moler_conn w) ->
  _get_observer_key_value observer = Ok (key, value') ->
  _observers (moler_conn w) = before ++ (key, value) :: after ->
  let w1 := state_of (unsubscribe (E:=Event) observer handler w) in
  callings (trace_of (data_received call_function decoder data w))
    = expected_callings (live w) (decoder data)
        (PyDict.values before ++ value :: PyDict.values after) /\
  callings (trace_of (data_received call_function decoder data w1))
    = expected_callings (live w) (decoder data)
        (PyDict.values before ++ PyDict.values after).
Proof.
  intros Hexc Hlive Hopen Hwf Hkv Hreg w1.
  destruct (data_received_contained call_function decoder Hexc Hlive data w) as [_ Hc].
  destruct (data_received_contained call_function decoder Hexc Hlive data w1) as [_ Hc1].
  cbn zeta in Hc, Hc1. rewrite Hc, Hc1, Hopen. clear Hc Hc1.
  assert (Hbefore : PyDict.contains key before = false).
  { destruct Hwf as [Hnd _]. unfold PyDict.wf, PyDict.keys in Hnd.
    rewrite Hreg, fmap_app in Hnd. apply NoDup_app in Hnd as (_ & Hdisj & _).
    apply not_contains_keys. intros Hin. apply (Hdisj key Hin). cbn. left. }
  assert (Hin : PyDict.contains key (_observers (moler_conn w)) = true).
  { apply contains_keys. unfold PyDict.keys. rewrite Hreg, fmap_app.
    apply elem_of_app. right. cbn. left. }
  assert (Hinh : PyDict.contains key (_connection_closed_handlers (moler_conn w)) = true).
  { rewrite conn_wf_handlers by exact Hwf. exact Hin. }
  destruct (delitem_contains _ _ Hinh) as [handlers Hdelh].
  assert (Hdel : PyDict.delitem key (_observers (moler_conn w)) = Some (before ++ after)).
  { rewrite Hreg. apply delitem_middle, Hbefore. }
  split.
  - rewrite Hreg. unfold PyDict.values. rewrite fmap_app. reflexivity.
  - unfold w1. rewrite (unsubscribe_present _ _ _ _ _ _ _ Hkv Hdel Hdelh).
    cbn [state_of fst moler_conn set_conn _is_open _observers live].
    rewrite Hopen. unfold PyDict.values. rewrite fmap_app. reflexivity.
Qed.

Lemma unsubscribed_is_not_called_witness :
  callings (trace_of (data_received raising_function (fun x => x) "61 bytes"
                        (state_of (unsubscribe (E:=Event) (Function 11) 21
                                     world_two_functions))))
  = [(12%positive, None, "61 bytes")].
Proof.
  destruct (unsubscribed_is_not_called raising_function (fun x => x)
              (Function 11) 21 "61 bytes" world_two_functions
              [] [((0%Z, 12%Z), (None, weakref_proxy 12))]
              (0%Z, 11%Z) (None, weakref_proxy 11) (None, weakref_proxy 11))
    as [_ Hafter].
  - intros func self_arg d w' e. unfold raising_function.
    destruct (decide (func = 11%positive)); cbn; intros [= <-]; reflexivity.
  - intros func self_arg d w'. unfold raising_function.
    destruct (decide (func = 11%positive)); reflexivity.
  - reflexivity.
  - split; [| reflexivity]. unfold PyDict.wf. cbn.
    apply NoDup_cons. split; [| apply NoDup_singleton].
    intros Hin. apply list_elem_of_singleton in Hin. discriminate.
  - reflexivity.
  - reflexivity.
  - rewrite Hafter. vm_compute. reflexivity.
Defined.

Section SudoOutput.
Variable re_search : Regex -> string -> option Match.
Variable GenericUnixCommand_on_new_line_Sudo : string -> bool -> Py UserEvent Sudo unit.
Hypothesis base_keeps :
  forall line is_full_line self,
    let r := GenericUnixCommand_on_new_line_Sudo line is_full_line self in
    result_of r = Ok tt /\
    cmd_object (state_of r) = cmd_object self /\
    _sent_command_string (state_of r) = _sent_command_string self /\
    newline_seq (state_of r) = newline_seq self.

(** the command after a line of its output went through the [Sudo] *)
Lemma _process_embedded_command_recorded line is_full_line self cmd :
  cmd_object self = Some cmd ->
  exists self' cmd',
    _process_embedded_command recording_data_received line is_full_line self
    = (self', [], Ok tt) /\
    cmd_object self' = Some cmd' /\
    command_string cmd' = command_string cmd /\
    command_received cmd'
      = command_received cmd
        ++ (if _sent_command_string self then []
            else [command_string cmd +:+ newline_seq self])
        ++ [given_line (newline_seq self) (line, is_full_line)] /\
    Sudo_current_ret self' = command_current_ret cmd' /\
    _sent_command_string self' = true /\
    newline_seq self' = newline_seq self.
Proof.
  intros Hcmd. destruct self as [b pw c sent_pw sent_cs nl cr]. cbn in Hcmd. subst c.
  destruct cmd as [cs received ret_]. unfold given_line. cbn [fst snd].
  destruct sent_cs, is_full_line; eexists; eexists;
    (split; [reflexivity |]); cbn; rewrite <- ?app_assoc; repeat split.
Qed.

Lemma Sudo_on_new_line_recorded line is_full_line self cmd :
  re_search _re_sudo_password line = None ->
  re_search _re_sudo_command_not_found line = None ->
  cmd_object self = Some cmd ->
  exists self' t cmd',
    Sudo_on_new_line re_search GenericUnixCommand_on_new_line_Sudo
      recording_data_received line is_full_line self = (self', t, Ok tt) /\
    cmd_object self' = Some cmd' /\
    command_string cmd' = command_string cmd /\
    command_received cmd'
      = command_received cmd
        ++ (if _sent_command_string self then []
            else [command_string cmd +:+ newline_seq self])
        ++ [given_line (newline_seq self) (line, is_full_line)] /\
    _sent_command_string self' = true /\
    newline_seq self' = newline_seq self.
Proof.
  intros Hpw Hnf Hcmd.
  destruct (_process_embedded_command_recorded line is_full_line self cmd Hcmd)
    as (self1 & cmd1 & Hrun & Hcmd1 & Hcs & Hrec & _ & Hsent & Hnl).
  assert (Htry :
    try_except
      (let! _ := _parse_sudo_password re_search line in
       let! _ := _parse_command_not_found re_search line in
       _process_embedded_command recording_data_received line is_full_line)
      is_ParsingDone (fun _ => ret tt) self = (self1, [], Ok tt)).
  { apply try_except_ok_eq.
    assert (Hfirst : _parse_sudo_password re_search line self = (self, [], Ok tt)).
    { unfold _parse_sudo_password. rewrite Hpw. reflexivity. }
    assert (Hsecond : _parse_command_not_found re_search line self = (self, [], Ok tt)).
    { unfold _parse_command_not_found. rewrite Hnf. reflexivity. }
    rewrite (bind_ok _ _ _ _ _ _ Hfirst). cbn [state_of trace_of result_of fst snd].
    rewrite (bind_ok _ _ _ _ _ _ Hsecond). cbn [state_of trace_of result_of fst snd].
    rewrite Hrun. reflexivity. }
  destruct (base_keeps line is_full_line self1) as (Hres & Hc & Hs & Hn).
  set (r := GenericUnixCommand_on_new_line_Sudo line is_full_line self1) in *.
  exists (state_of r), (trace_of r), cmd1.
  split.
  - unfold Sudo_on_new_line. rewrite (bind_ok _ _ _ _ _ _ Htry).
    cbn beta. fold r. cbn [app]. rewrite Hres. reflexivity.
  - rewrite Hc, Hs, Hn. repeat split; assumption.
Qed.
End SudoOutput.

(** X17.  A [Sudo] gives the output to the command it runs.  For lines
    that are neither the prompt for the password nor the complaint of
    [sudo], a command that keeps what it is given has, after the lines, what
    it had before, then its own command string with the newline sequence if
    it did not have that before, then the lines in their order, the full
    ones with the newline sequence after them.  The base class is taken to
    return and to leave the command, the mark of the command string and the
    newline sequence alone. *)
Theorem sudo_gives_the_output_to_the_command
    (re_search : Regex -> string -> option Match)
    (GenericUnixCommand_on_new_line_Sudo : string -> bool -> Py UserEvent Sudo unit)
    (lines : list (string * bool)) (self : Sudo) (cmd : Command) :
  (forall line is_full_line self,
     let r := GenericUnixCommand_on_new_line_Sudo line is_full_line self in
     result_of r = Ok tt /\
     cmd_object (state_of r) = cmd_object self /\
     _sent_command_string (state_of r) = _sent_command_string self /\
     newline_seq (state_of r) = newline_seq self) ->
  (forall line, line ∈ lines ->
     re_search _re_sudo_password line.1 = None /\
     re_search _re_sudo_command_not_found line.1 = None) ->
  cmd_object self = Some cmd ->
  let r := Sudo_on_new_lines re_search GenericUnixCommand_on_new_line_Sudo
             recording_data_received lines self in
  result_of r = Ok tt /\
  exists cmd',
    cmd_object (state_of r) = Some cmd' /\
    command_received cmd'
      = command_received cmd
        ++ (if _sent_command_string self || bool_decide (lines = []) then []
            else [command_string cmd +:+ newline_seq self])
        ++ (given_line (newline_seq self) <$> lines).
Proof.
  intros Hbase Hlines Hcmd. cbn zeta. unfold Sudo_on_new_lines.
  assert (Hgen : forall lines self cmd,
    (forall line, line ∈ lines ->
       re_search _re_sudo_password line.1 = None /\
       re_search _re_sudo_command_not_found line.1 = None) ->
    cmd_object self = Some cmd ->
    exists self' t cmd',
      for_each lines (fun line =>
        Sudo_on_new_line re_search GenericUnixCommand_on_new_line_Sudo
          recording_data_received line.1 line.2) self = (self', t, Ok tt) /\
      cmd_object self' = Some cmd' /\
      command_received cmd'
        = command_received cmd
          ++ (if _sent_command_string self || bool_decide (lines = []) then []
              else [command_string cmd +:+ newline_seq self])
          ++ (given_line (newline_seq self) <$> lines)).
  { clear lines self cmd Hlines Hcmd.
    induction lines as [| [line full] lines IH]; intros self cmd Hlines Hcmd.
    - exists self, [], cmd. split; [reflexivity |]. split; [exact Hcmd |].
      rewrite orb_true_r. cbn. rewrite app_nil_r. reflexivity.
    - destruct (Hlines (line, full) (list_elem_of_here _ _)) as [Hpw Hnf].
      cbn [fst snd] in Hpw, Hnf.
      destruct (Sudo_on_new_line_recorded re_search
                  GenericUnixCommand_on_new_line_Sudo Hbase line full self cmd
                  Hpw Hnf Hcmd)
        as (self1 & t1 & cmd1 & Hrun & Hcmd1 & Hcs & Hrec & Hsent & Hnl).
      destruct (IH self1 cmd1) as (self2 & t2 & cmd2 & Hrun2 & Hcmd2 & Hrec2).
      { intros l Hl. apply Hlines. right. exact Hl. }
      { exact Hcmd1. }
      exists self2, (t1 ++ t2), cmd2. cbn [for_each fst snd].
      rewrite (bind_ok _ _ _ _ _ _ Hrun). cbn [state_of trace_of result_of fst snd].
      rewrite Hrun2. split; [reflexivity |]. split; [exact Hcmd2 |].
      rewrite Hrec2, Hrec, Hsent, Hnl. cbn [orb fmap list_fmap].
      rewrite orb_false_r. rewrite <- !app_assoc. reflexivity. }
  destruct (Hgen lines self cmd Hlines Hcmd) as (self' & t & cmd' & Hrun & Hc & Hrec).
  rewrite Hrun. cbn [result_of state_of fst snd]. split; [reflexivity |].
  exists cmd'. split; assumption.
Qed.

Lemma sudo_gives_the_output_to_the_command_witness :
  let r := Sudo_on_new_lines sudo_search (fun _ _ => ret tt) recording_data_received
             [("/home/user", true); ("user@host:~$ ", false)] sudo_pwd in
  result_of r = Ok tt /\
  exists cmd',
    cmd_object (state_of r) = Some cmd' /\
    command_received cmd'
      = ["pwd" +:+ CRLF; "/home/user" +:+ CRLF; "user@host:~$ "].
Proof.
  apply (sudo_gives_the_output_to_the_command sudo_search (fun _ _ => ret tt)
           [("/home/user", true); ("user@host:~$ ", false)] sudo_pwd pwd_command).
  - intros line is_full_line self. cbn. repeat split.
  - intros line Hin.
    apply elem_of_cons in Hin as [-> | Hin];
      [| apply list_elem_of_singleton in Hin as ->]; split; reflexivity.
  - reflexivity.
Defined.
